(** * bdbc-batch-scripts: extraction and sanity-check reporting of NWB sessions

    A shallow embedding of [sanity-check/bdbc_nwb_tools.py] and
    [sanity-check/sanity_check_nwb.py].

    Python values are embedded by hand:
    - [str] is [string]; data-product names and file names are taken to be
      ASCII, so [str.lower] only moves the letters A-Z;
    - an exception is the [Raise] outcome of the result type [py];
    - a [dict] is an association list that keeps insertion order, as the
      dataframe built from it keeps the order of the keys;
    - numpy arrays are one-dimensional, typed lists of scalars;
    - the container read through pynwb is a record of its groups. *)

From Stdlib Require Import String Ascii List ZArith Lia Bool Arith PeanoNat.
From Stdlib Require Import Decimal DecimalString.
From Stdlib Require Import Floats.SpecFloat.
From Stdlib Require Import Sorting.Permutation Sorting.Sorted.
Import ListNotations.

Set Implicit Arguments.
Open Scope string_scope.
Open Scope list_scope.

(** ** Exceptions and the result type *)

Inductive exn : Type :=
| KeyError
| AttributeError
| ValueError
| TypeError
| IndexError
| AssertionError
| FileNotFoundError.

Inductive py (A : Type) : Type :=
| Return (a : A)
| Raise (e : exn).

Arguments Return {A} a.
Arguments Raise {A} e.

Definition bind {A B : Type} (m : py A) (k : A -> py B) : py B :=
  match m with
  | Return a => k a
  | Raise e => Raise e
  end.

Declare Scope py_scope.
Delimit Scope py_scope with py.
Notation "x <- m ;; k" := (bind m (fun x => k))
  (at level 61, m at next level, right associativity) : py_scope.
Notation "' p <- m ;; k" := (bind m (fun x => match x with p => k end))
  (at level 61, p pattern, m at next level, right associativity) : py_scope.

Definition raises {A : Type} (m : py A) : Prop := exists e, m = Raise e.

Definition of_option {A : Type} (e : exn) (o : option A) : py A :=
  match o with
  | Some a => Return a
  | None => Raise e
  end.

(** ** Python strings *)

Module Str.

(** [str.lower] on ASCII text. *)
Definition lower_char (c : ascii) : ascii :=
  let n := nat_of_ascii c in
  if ((65 <=? n) && (n <=? 90))%nat then ascii_of_nat (n + 32) else c.

Fixpoint lower (s : string) : string :=
  match s with
  | EmptyString => EmptyString
  | String c s' => String (lower_char c) (lower s')
  end.

Definition upper_char (c : ascii) : ascii :=
  let n := nat_of_ascii c in
  if ((97 <=? n) && (n <=? 122))%nat then ascii_of_nat (n - 32) else c.

Fixpoint upper (s : string) : string :=
  match s with
  | EmptyString => EmptyString
  | String c s' => String (upper_char c) (upper s')
  end.

(** [sub in s] *)
Fixpoint contains (sub s : string) : bool :=
  prefix sub s ||
  match s with
  | EmptyString => false
  | String _ s' => contains sub s'
  end.

(** [s.replace(old, new)]: one scan from the left; an occurrence of [old]
    is replaced and the scan resumes after it, so occurrences never
    overlap and the text produced is not scanned again.  [skip] counts the
    characters of a matched occurrence that are still to be passed over. *)
Fixpoint replace_go (old new : string) (skip : nat) (s : string) : string :=
  match s with
  | EmptyString => EmptyString
  | String c s' =>
      match skip with
      | S k => replace_go old new k s'
      | O =>
          if prefix old s
          then (new ++ replace_go old new (String.length old - 1) s')%string
          else String c (replace_go old new 0 s')
      end
  end.

(** With an empty [old], Python puts [new] before every character and at
    the end. *)
Fixpoint replace_empty (new s : string) : string :=
  match s with
  | EmptyString => new
  | String c s' => (new ++ String c (replace_empty new s'))%string
  end.

Definition replace (old new s : string) : string :=
  match old with
  | EmptyString => replace_empty new s
  | _ => replace_go old new 0 s
  end.

(** [s.endswith(suf)] and [s[:-n]] *)
Definition endswith (suf s : string) : bool :=
  let n := String.length s - String.length suf in
  (String.length suf <=? String.length s)%nat && (substring n (String.length suf) s =? suf).

Definition drop_last (n : nat) (s : string) : string :=
  substring 0 (String.length s - n) s.

Definition chars (s : string) : list ascii := list_ascii_of_string s.

(** Every [c0] of [s] turned into [new]: what [replace] does when [old] is
    the single character [c0]. *)
Fixpoint subst_char (c0 : ascii) (new s : string) : string :=
  match s with
  | EmptyString => EmptyString
  | String c s' =>
      if Ascii.eqb c0 c then (new ++ subst_char c0 new s')%string
      else String c (subst_char c0 new s')
  end.

End Str.

(** ** Column identifiers of the acquisition table
    ([read_acquisition], the loop over the data interfaces) *)

(** The names skipped by the loop. *)
Definition excluded (name : string) : bool :=
  Str.contains "video_keypoints" name
  || existsb (String.eqb name) ["eye_position"; "pupil_tracking"; "trials"].

(** [name.lower().replace(' ', '_').replace('.', '').replace('-', '_').replace('_ds', '')] *)
Definition column_of (name : string) : string :=
  Str.replace "_ds" ""
    (Str.replace "-" "_"
       (Str.replace "." ""
          (Str.replace " " "_" (Str.lower name)))).

(** The column identifier as the specification words it: lower case, with
    spaces, periods and hyphens removed and a ["_ds"] suffix removed. *)
Fixpoint remove_chars (cs : list ascii) (s : string) : string :=
  match s with
  | EmptyString => EmptyString
  | String c s' =>
      if existsb (Ascii.eqb c) cs then remove_chars cs s'
      else String c (remove_chars cs s')
  end.

Definition spec_column_of (name : string) : string :=
  let s := remove_chars [" "; "."; "-"]%char (Str.lower name) in
  if Str.endswith "_ds" s then Str.drop_last 3 s else s.

(** One pass over the characters that does what the first four calls of
    [column_of] do together. *)
Definition column_char (c : ascii) : string :=
  let c' := Str.lower_char c in
  if Ascii.eqb " " c' then "_"
  else if Ascii.eqb "." c' then ""
  else if Ascii.eqb "-" c' then "_"
  else String c' "".

Fixpoint column_chars (s : string) : string :=
  match s with
  | EmptyString => EmptyString
  | String c s' => (column_char c ++ column_chars s')%string
  end.

(** ** Dictionaries

    A Python [dict] keeps its keys in insertion order; assigning to a key
    that is already there changes the value and leaves the position. *)

Section Dict.
Variables (K V : Type) (keq : K -> K -> bool).

Definition dict : Type := list (K * V).

Fixpoint dict_get (k : K) (d : dict) : option V :=
  match d with
  | [] => None
  | (k', v) :: d' => if keq k k' then Some v else dict_get k d'
  end.

Fixpoint dict_set (k : K) (v : V) (d : dict) : dict :=
  match d with
  | [] => [(k, v)]
  | (k', v') :: d' =>
      if keq k k' then (k', v) :: d' else (k', v') :: dict_set k v d'
  end.

Definition dict_mem (k : K) (d : dict) : bool :=
  match dict_get k d with Some _ => true | None => false end.

Definition dict_keys (d : dict) : list K := map fst d.

(** [d[k]] *)
Definition dict_item (k : K) (d : dict) : py V :=
  of_option KeyError (dict_get k d).
End Dict.

Arguments dict_get {K V} keq k d.
Arguments dict_set {K V} keq k v d.
Arguments dict_mem {K V} keq k d.
Arguments dict_keys {K V} d.
Arguments dict_item {K V} keq k d.

(** ** numpy arrays *)

Inductive int_dtype : Type :=
| Int8 | Int16 | Int32 | Int64 | UInt8 | UInt16 | UInt32 | UInt64.

(** A one-dimensional array with its element type. *)
Inductive ndarray : Type :=
| Bools (xs : list bool)
| Ints (t : int_dtype) (xs : list Z)
| Floats (xs : list spec_float).

Definition size (a : ndarray) : nat :=
  match a with
  | Bools xs => length xs
  | Ints _ xs => length xs
  | Floats xs => length xs
  end.

(** One element of an array. *)
Inductive scalar : Type :=
| SBool (b : bool)
| SInt (z : Z)
| SFloat (f : spec_float).

Definition values (a : ndarray) : list scalar :=
  match a with
  | Bools xs => map SBool xs
  | Ints _ xs => map SInt xs
  | Floats xs => map SFloat xs
  end.

(** [x > 0] on one element; a NaN compares false. *)
Definition positive (x : scalar) : bool :=
  match x with
  | SBool b => b
  | SInt z => (0 <? z)%Z
  | SFloat f => SFltb (S754_zero false) f
  end.

(** [a > 0] *)
Definition gt0 (a : ndarray) : ndarray := Bools (map positive (values a)).

(** The 16-bit two's complement value of an integer. *)
Definition wrap16 (z : Z) : Z := ((z + 32768) mod 65536 - 32768)%Z.

(** The integer part of a float, when it has one. *)
Definition SFtrunc (f : spec_float) : option Z :=
  match f with
  | S754_zero _ => Some 0%Z
  | S754_finite s m e => Some (cond_Zopp s (Z.shiftl (Zpos m) e))
  | S754_infinity _ | S754_nan => None
  end.

Definition in_int16 (z : Z) : bool := ((-32768 <=? z) && (z <? 32768))%Z.

Definition is_nan (x : scalar) : bool :=
  match x with
  | SFloat S754_nan => true
  | _ => false
  end.

(** [a.isna().sum()] for one column *)
Definition nan_count (a : ndarray) : nat := length (filter is_nan (values a)).

(** The non-missing elements of a column, in order. *)
Definition dropna (a : ndarray) : list scalar :=
  filter (fun x => negb (is_nan x)) (values a).

Definition is_numeric (a : ndarray) : bool :=
  match a with
  | Bools _ => false
  | Ints _ _ | Floats _ => true
  end.

(** ** pandas tables *)

(** A column label: a name, or the pair (keypoint, coordinate) of the
    keypoint tables. *)
Inductive label : Type :=
| Name (s : string)
| Pair (k c : string).

Definition label_eqb (a b : label) : bool :=
  match a, b with
  | Name s, Name t => String.eqb s t
  | Pair k c, Pair k' c' => String.eqb k k' && String.eqb c c'
  | _, _ => false
  end.

Record DataFrame : Type := MkFrame { columns : list (label * ndarray) }.

Definition same_sizes (cols : list (label * ndarray)) : bool :=
  match cols with
  | [] => true
  | (_, a) :: rest => forallb (fun c => size (snd c) =? size a)%nat rest
  end.

(** [pd.DataFrame(data=data)] for a dict of arrays: the arrays must have
    one length. *)
Definition DataFrame_of_dict (data : list (label * ndarray)) : py DataFrame :=
  if same_sizes data then Return (MkFrame data) else Raise ValueError.

Definition column (df : DataFrame) (k : label) : option ndarray :=
  dict_get label_eqb k (columns df).

(** A table of statistics: one row per label, one cell per column name. *)
Record StatFrame : Type := MkStats {
  stat_columns : list string;
  stat_rows : list (label * list scalar)
}.

Definition stat_index (s : StatFrame) : list label := map fst (stat_rows s).

Fixpoint position (name : string) (names : list string) : option nat :=
  match names with
  | [] => None
  | n :: rest =>
      if String.eqb name n then Some 0
      else option_map S (position name rest)
  end.

Fixpoint positions (wanted names : list string) : option (list nat) :=
  match wanted with
  | [] => Some []
  | w :: rest =>
      match position w names, positions rest names with
      | Some i, Some ps => Some (i :: ps)
      | _, _ => None
      end
  end.

(** [s[wanted]]: the named columns, in the order asked; a name that is not
    a column is a [KeyError]. *)
Definition select_columns (wanted : list string) (s : StatFrame) : py StatFrame :=
  match positions wanted (stat_columns s) with
  | None => Raise KeyError
  | Some ps =>
      Return (MkStats wanted
                (map (fun r => (fst r, map (fun i => nth i (snd r) (SFloat S754_nan)) ps))
                     (stat_rows s)))
  end.

Fixpoint nodup_labels (ls : list label) : bool :=
  match ls with
  | [] => true
  | l :: rest => negb (existsb (label_eqb l) rest) && nodup_labels rest
  end.

Fixpoint labels_eqb (xs ys : list label) : bool :=
  match xs, ys with
  | [], [] => true
  | x :: xs', y :: ys' => label_eqb x y && labels_eqb xs' ys'
  | _, _ => false
  end.

(** [s[name] = series]: the series is used as it is when its index is the
    index of [s]; otherwise it is aligned on the row labels, which needs
    the labels of the series to be distinct, and a row without a value
    gets NaN. *)
Definition set_column (name : string) (series : list (label * scalar))
    (s : StatFrame) : py StatFrame :=
  if labels_eqb (map fst series) (stat_index s) then
    Return (MkStats (stat_columns s ++ [name])
              (map (fun rv => (fst (fst rv), snd (fst rv) ++ [snd (snd rv)]))
                   (combine (stat_rows s) series)))
  else if nodup_labels (map fst series) then
    Return (MkStats (stat_columns s ++ [name])
              (map (fun r =>
                      (fst r,
                       snd r ++ [match dict_get label_eqb (fst r) series with
                                 | Some v => v
                                 | None => SFloat S754_nan
                                 end]))
                   (stat_rows s)))
  else Raise ValueError.

(** [s.loc[l]] and [s.iloc[i]] *)
Definition loc (l : label) (s : StatFrame) : py (list (string * scalar)) :=
  match dict_get label_eqb l (stat_rows s) with
  | Some cells => Return (combine (stat_columns s) cells)
  | None => Raise KeyError
  end.

Definition iloc (i : nat) (s : StatFrame) : py (list (string * scalar)) :=
  match nth_error (stat_rows s) i with
  | Some r => Return (combine (stat_columns s) (snd r))
  | None => Raise IndexError
  end.

(** ** Regular expressions ([re]) *)

Module Re.

(** The fragment of patterns that [file_matcher] uses. *)
Inductive regex : Type :=
| Lit (s : string)                   (* literal text *)
| Plus (cls : ascii -> bool)         (* [...]+ , greedy *)
| Alt (alts : list string)           (* a|b|c *)
| Group (r : regex)                  (* ( r ) *)
| Seq (r1 r2 : regex).

Fixpoint drop (n : nat) (s : string) : string :=
  match n, s with
  | S k, String _ s' => drop k s'
  | _, _ => s
  end.

Fixpoint take (n : nat) (s : string) : string :=
  match n, s with
  | S k, String c s' => String c (take k s')
  | _, _ => EmptyString
  end.

(** What is left of [s] after one or more characters of the class, the
    longest run first: the order in which a greedy [+] gives characters
    back. *)
Fixpoint plus_rests (cls : ascii -> bool) (s : string) : list string :=
  match s with
  | EmptyString => []
  | String c s' => if cls c then plus_rests cls s' ++ [s'] else []
  end.

Definition lit_rests (l s : string) : list string :=
  if prefix l s then [drop (String.length l) s] else [].

(** All the ways [r] matches at the start of [s], in the order the
    backtracking matcher tries them; each comes with the texts of its
    groups and with what is left of [s]. *)
Fixpoint run (r : regex) (s : string) : list (list string * string) :=
  match r with
  | Lit l => map (fun rest => ([], rest)) (lit_rests l s)
  | Plus cls => map (fun rest => ([], rest)) (plus_rests cls s)
  | Alt alts => map (fun rest => ([], rest)) (flat_map (fun a => lit_rests a s) alts)
  | Group r' =>
      map (fun m => (take (String.length s - String.length (snd m)) s :: fst m, snd m))
          (run r' s)
  | Seq r1 r2 =>
      flat_map (fun m1 => map (fun m2 => (fst m1 ++ fst m2, snd m2)) (run r2 (snd m1)))
               (run r1 s)
  end.

(** [r.match(s)]: the groups of the first match at the start of [s]. *)
Definition re_match (r : regex) (s : string) : option (list string) :=
  match run r s with
  | [] => None
  | m :: _ => Some (fst m)
  end.

(** The words of a pattern. *)
Fixpoint lang (r : regex) (w : string) : Prop :=
  match r with
  | Lit l => w = l
  | Plus cls => w <> EmptyString /\ Forall (fun c => cls c = true) (list_ascii_of_string w)
  | Alt alts => In w alts
  | Group r' => lang r' w
  | Seq r1 r2 => exists u v, w = (u ++ v)%string /\ lang r1 u /\ lang r2 v
  end.

Definition in_range (lo hi c : ascii) : bool :=
  ((nat_of_ascii lo <=? nat_of_ascii c) && (nat_of_ascii c <=? nat_of_ascii hi))%nat.

Definition is_digit (c : ascii) : bool := in_range "0" "9" c.

End Re.

(** ** File names ([sanity_check_nwb.py], the file indexer) *)

(** [([a-zA-Z0-9-]+)_([0-9-]+)_(task|resting-state|sensory-stim)-day([0-9]+)] *)
Definition subject_char (c : ascii) : bool :=
  Re.in_range "a" "z" c || Re.in_range "A" "Z" c || Re.in_range "0" "9" c
  || Ascii.eqb c "-".

Definition date_char (c : ascii) : bool :=
  Re.in_range "0" "9" c || Ascii.eqb c "-".

Definition type_indexer : list string := ["task"; "resting-state"; "sensory-stim"].

Definition file_matcher : Re.regex :=
  Re.Seq (Re.Group (Re.Plus subject_char))
    (Re.Seq (Re.Lit "_")
       (Re.Seq (Re.Group (Re.Plus date_char))
          (Re.Seq (Re.Lit "_")
             (Re.Seq (Re.Group (Re.Alt ["task"; "resting-state"; "sensory-stim"]))
                (Re.Seq (Re.Lit "-day")
                   (Re.Group (Re.Plus Re.is_digit))))))).

(** [name.rfind('.')] *)
Fixpoint rfind_dot (s : string) : option nat :=
  match s with
  | EmptyString => None
  | String c s' =>
      match rfind_dot s' with
      | Some i => Some (S i)
      | None => if Ascii.eqb c "." then Some 0 else None
      end
  end.

(** [PurePath.stem] of a file name: the name without its last suffix; a
    leading or a trailing period does not start a suffix. *)
Definition stem (name : string) : string :=
  match rfind_dot name with
  | Some i =>
      if ((0 <? i) && (i <? String.length name - 1))%nat then Re.take i name
      else name
  | None => name
  end.

(** [list.index] *)
Fixpoint list_index (x : string) (l : list string) : py nat :=
  match l with
  | [] => Raise ValueError
  | y :: l' =>
      if String.eqb x y then Return 0
      else (i <- list_index x l' ;; Return (S i))%py
  end.

Fixpoint last_char (s : string) : option ascii :=
  match s with
  | EmptyString => None
  | String c s' =>
      match last_char s' with
      | Some d => Some d
      | None => Some c
      end
  end.

Definition digit_value (c : ascii) : N := N.of_nat (nat_of_ascii c - 48).

(** The longest digit string [int] converts by default
    ([sys.int_info.default_max_str_digits]). *)
Definition int_max_str_digits : nat := 4300.

(** [int(s)] for a text of decimal digits. *)
Definition int_of_digits (s : string) : py N :=
  if forallb Re.is_digit (list_ascii_of_string s)
     && negb (String.eqb s "")
     && (String.length s <=? int_max_str_digits)%nat
  then Return (fold_left (fun acc c => (10 * acc + digit_value c)%N)
                 (list_ascii_of_string s) 0%N)
  else Raise ValueError.

(** [nwb_file_indexer], applied to a path whose last component is [name]. *)
Definition nwb_file_indexer (name : string) : py (string * string * nat * N) :=
  match Re.re_match file_matcher (stem name) with
  | None => Raise ValueError
  | Some groups =>
      (ty <- list_index (nth 2 groups "") type_indexer ;;
       day <- int_of_digits (nth 3 groups "") ;;
       Return (nth 0 groups "", nth 1 groups "", ty, day))%py
  end.

(** A non-empty text of characters of one class. *)
Definition word (cls : ascii -> bool) (w : string) : Prop :=
  w <> EmptyString /\ Forall (fun c => cls c = true) (list_ascii_of_string w).

(** The naming convention in the words of the specification: the stem is
    [{subject}_{date}_{task|resting-state|sensory-stim}-day{N}], where the
    date is made of digits and hyphens and N is an integer. *)
Definition follows_convention (st : string) : Prop :=
  exists subj date ty day,
    st = (subj ++ "_" ++ date ++ "_" ++ ty ++ "-day" ++ day)%string
    /\ subj <> EmptyString
    /\ word date_char date
    /\ In ty type_indexer
    /\ word Re.is_digit day.

(** What the matcher asks of a stem: to start as the convention says, with
    a subject made of letters, digits and hyphens; the pattern is matched
    at the start of the stem, so any text may follow the day number. *)
Definition starts_as_convention (st : string) : Prop :=
  exists subj date ty day rest,
    st = (subj ++ "_" ++ date ++ "_" ++ ty ++ "-day" ++ day ++ rest)%string
    /\ word subject_char subj
    /\ word date_char date
    /\ In ty type_indexer
    /\ word Re.is_digit day.

(** ** The container, as pynwb presents it

    Only what the two modules read is kept.  A group (a processing module,
    or the acquisition group as [read_acquisition] addresses it) maps names
    to data interfaces; asking an interface for what its kind does not have
    is an [AttributeError], asking a group for a name it does not hold is a
    [KeyError]. *)

Record PoseEstimationSeries : Type := MkPose {
  pose_data : list ndarray;          (* the columns of the 2-D array: x, y, ... *)
  confidence : ndarray
}.

Record RoiResponseSeries : Type := MkRoi {
  roi_data : list ndarray;           (* the columns of the samples x ROIs array *)
  roi_name : option (list string);   (* rois.table.get('roi_name') *)
  roi_description : option (list string)
}.

Inductive interface : Type :=
| TimeSeries (data timestamps : ndarray)
| PoseEstimation (pose_estimation_series : list (string * PoseEstimationSeries))
| PupilTracking (time_series : list (string * ndarray))
| EyeTracking (spatial_series : list (string * ndarray))
| DfOverF (roi_response_series : list (string * RoiResponseSeries))
| TimeIntervals (table : DataFrame).

Definition group : Type := list (string * interface).

Record Subject : Type := MkSubject {
  subject_id : option string;
  date_of_birth : option string;     (* kept as its '%Y-%m-%d' text *)
  age : option string;
  sex : option string
}.

Record NWBFile : Type := MkNWB {
  session_id : option string;
  session_description : option string;
  notes : option string;
  subject : option Subject;
  acquisition : group;
  processing : list (string * group);
  trials : option DataFrame
}.

Definition get_processing_module (f : NWBFile) (name : string) : py group :=
  dict_item String.eqb name (processing f).

Definition get_acquisition (f : NWBFile) (name : string) : py interface :=
  dict_item String.eqb name (acquisition f).

Definition get_data_interface (g : group) (name : string) : py interface :=
  dict_item String.eqb name g.

Definition interface_data (i : interface) : py ndarray :=
  match i with
  | TimeSeries d _ => Return d
  | _ => Raise AttributeError
  end.

Definition interface_timestamps (i : interface) : py ndarray :=
  match i with
  | TimeSeries _ t => Return t
  | _ => Raise AttributeError
  end.

Definition get_timeseries (i : interface) (name : string) : py ndarray :=
  match i with
  | PupilTracking ts => dict_item String.eqb name ts
  | _ => Raise AttributeError
  end.

Definition get_spatial_series (i : interface) (name : string) : py ndarray :=
  match i with
  | EyeTracking ss => dict_item String.eqb name ss
  | _ => Raise AttributeError
  end.

Definition get_roi_response_series (i : interface) (name : string)
  : py RoiResponseSeries :=
  match i with
  | DfOverF rs => dict_item String.eqb name rs
  | _ => Raise AttributeError
  end.

Definition to_dataframe (i : interface) : py DataFrame :=
  match i with
  | TimeIntervals t => Return t
  | _ => Raise AttributeError
  end.

(** ** Session records ([bdbc_nwb_tools.py], data structures) *)

Record Metadata : Type := MkMetadata {
  md_session_id : option string;
  md_session_description : option string;
  md_session_notes : option string;
  md_subject_id : option string;
  md_subject_DoB : string;
  md_subject_age : option string;
  md_subject_sex : option string
}.

(** The values a field of a session record holds. *)
Inductive pyval : Type :=
| VNone
| VMetadata (m : Metadata)
| VArray (a : ndarray)
| VTimebases (daq imaging : ndarray) (videos : option ndarray)
| VFrame (df : DataFrame)
| VDescriptions (d : list (string * string)).

Definition of_frame (o : option DataFrame) : pyval :=
  match o with
  | Some df => VFrame df
  | None => VNone
  end.

Inductive shape : Type := NWBData | NWBData_resting | NWBData_sensory.

Definition field_names (sh : shape) : list string :=
  match sh with
  | NWBData =>
      ["metadata"; "timebase"; "trials"; "daq"; "body_video_tracking";
       "face_video_tracking"; "eye_video_tracking"; "pupil_tracking";
       "rois"; "roi_description"]
  | NWBData_resting =>
      ["metadata"; "timebase"; "daq"; "body_video_tracking";
       "face_video_tracking"; "eye_video_tracking"; "pupil_tracking";
       "rois"; "roi_description"]
  | NWBData_sensory =>
      ["metadata"; "timebase"; "trials"; "rois"; "roi_description"]
  end.

(** A named tuple: its class and its fields in the declared order. *)
Record session : Type := MkSession {
  session_shape : shape;
  session_fields : list (string * pyval)
}.

(** The class called with the dict as its keyword arguments: every field
    must be given, and nothing else. *)
Definition new_session (sh : shape) (data : list (string * pyval)) : py session :=
  if forallb (fun k => existsb (String.eqb k) (field_names sh)) (dict_keys data)
     && forallb (fun f => dict_mem String.eqb f data) (field_names sh)
  then Return (MkSession sh
                 (map (fun f => (f, match dict_get String.eqb f data with
                                    | Some v => v
                                    | None => VNone
                                    end))
                      (field_names sh)))
  else Raise TypeError.

(** [getattr(session, name)] *)
Definition getattr (s : session) (name : string) : py pyval :=
  of_option AttributeError (dict_get String.eqb name (session_fields s)).

(** ** What the process does to the outside *)

Inductive event : Type :=
| NwbOpen (path : string)            (* the container is opened for reading *)
| NwbClose (path : string)
| Print (line : string)              (* a line on the log stream *)
| TxtOpen (path : string)            (* a text file is opened for writing *)
| TxtWrite (path text : string)
| TxtClose (path : string)
| Plot (panel_row panel_col : nat) (style : string)
       (xs : list nat) (ys : list scalar)   (* one line series on a panel *)
| Legend (box : nat) (text : string)
| SaveFig (path : string).

(** A computation with its outcome and the events it caused, in order. *)
Definition io (A : Type) : Type := (py A * list event)%type.

Definition io_ret {A : Type} (a : A) : io A := (Return a, []).

Definition io_bind {A B : Type} (m : io A) (k : A -> io B) : io B :=
  match fst m with
  | Return a => let r := k a in (fst r, snd m ++ snd r)
  | Raise e => (Raise e, snd m)
  end.

Definition io_lift {A : Type} (m : py A) : io A := (m, []).

Definition emit (e : event) : io unit := (Return tt, [e]).

Declare Scope io_scope.
Delimit Scope io_scope with io.
Notation "x <- m ;; k" := (io_bind m (fun x => k))
  (at level 61, m at next level, right associativity) : io_scope.
Notation "m ;;; k" := (io_bind m (fun _ => k))
  (at level 61, right associativity) : io_scope.

(** The containers that are still open after a run. *)
Fixpoint open_handles (t : list event) (opened : list string) : list string :=
  match t with
  | [] => opened
  | NwbOpen p :: t' => open_handles t' (p :: opened)
  | NwbClose p :: t' =>
      open_handles t' (filter (fun q => negb (String.eqb p q)) opened)
  | _ :: t' => open_handles t' opened
  end.

(** What a text file holds after a run: the texts written to it, in
    order, since it was last opened for writing ([None] when it never
    was). *)
Fixpoint file_writes (path : string) (t : list event) (acc : option (list string))
  : option (list string) :=
  match t with
  | [] => acc
  | TxtOpen p :: t' =>
      file_writes path t' (if String.eqb p path then Some [] else acc)
  | TxtWrite p text :: t' =>
      file_writes path t'
        (if String.eqb p path
         then option_map (fun old => old ++ [text]) acc
         else acc)
  | _ :: t' => file_writes path t' acc
  end.

Section Program.

(** Outside this repository and left open here: what a cast to [int16]
    gives for a float without a 16-bit integer part, the reductions that
    [describe] applies to the non-missing elements of a column, and the
    two renderings of a table as text ([to_string] and what [print]
    shows). *)
Variable cast_ub : spec_float -> Z.
Variable reduce : string -> list scalar -> scalar.
Variable to_string : StatFrame -> string.
Variable repr : StatFrame -> string.

(** [a.astype(np.int16)] *)
Definition to_int16 (x : scalar) : Z :=
  match x with
  | SBool b => if b then 1%Z else 0%Z
  | SInt z => wrap16 z
  | SFloat f =>
      match SFtrunc f with
      | Some z => if in_int16 z then z else wrap16 (cast_ub f)
      | None => wrap16 (cast_ub f)
      end
  end.

Definition astype_int16 (a : ndarray) : ndarray :=
  Ints Int16 (map to_int16 (values a)).

(** ** I/O routines ([bdbc_nwb_tools.py]) *)

Definition read_metadata (f : NWBFile) : py Metadata :=
  (subj <- of_option AttributeError (subject f) ;;
   dob <- of_option AttributeError (date_of_birth subj) ;;
   Return (MkMetadata (session_id f) (session_description f) (notes f)
             (subject_id subj) dob (age subj) (sex subj)))%py.

Definition read_timebases (f : NWBFile) (downsampled : bool) : py pyval :=
  (wf <- get_acquisition f "widefield_blue" ;;
   imaging <- interface_timestamps wf ;;
   if downsampled then Return (VArray imaging)
   else
     hr <- get_acquisition f "Humidity_raw" ;;
     daq <- interface_timestamps hr ;;
     if dict_mem String.eqb "body_video" (acquisition f) then
       bv <- get_acquisition f "body_video" ;;
       videos <- interface_timestamps bv ;;
       Return (VTimebases daq imaging (Some videos))
     else Return (VTimebases daq imaging None))%py.

Definition zip_dict (names descs : list string) : list (string * string) :=
  fold_left (fun d nd => dict_set String.eqb (fst nd) (snd nd) d)
            (combine names descs) [].

Definition read_roi_dFF (f : NWBFile) : py (DataFrame * list (string * string)) :=
  (ophys <- get_processing_module f "ophys" ;;
   dfof <- get_data_interface ophys "DfOverF" ;;
   dff_entry <- get_roi_response_series dfof "dFF" ;;
   names <- of_option TypeError (roi_name dff_entry) ;;
   descs <- of_option TypeError (roi_description dff_entry) ;;
   let roidescs := zip_dict names descs in
   if (length (roi_data dff_entry) =? length names)%nat
   then Return (MkFrame (combine (map Name names) (roi_data dff_entry)), roidescs)
   else Raise ValueError)%py.

Definition read_trials (f : NWBFile) (downsampled : bool) : py (option DataFrame) :=
  match trials f with
  | None => Return None
  | Some raw =>
      (trials <- (if downsampled then
                    ds <- get_processing_module f "downsampled" ;;
                    entry <- get_data_interface ds "trials" ;;
                    to_dataframe entry
                  else Return raw) ;;
       Return (Some trials))%py
  end.

(** The loop of [read_acquisition] over the names of the parent group. *)
Fixpoint collect (parent : group) (names : list string)
    (data : list (string * ndarray)) : py (list (string * ndarray)) :=
  match names with
  | [] => Return data
  | name :: rest =>
      if excluded name then collect parent rest data
      else
        (entry <- get_data_interface parent name ;;
         d <- interface_data entry ;;
         collect parent rest (dict_set String.eqb (column_of name) d data))%py
  end.

(** [for column in cols: data[column] = conv(data[column])] *)
Fixpoint convert (conv : ndarray -> ndarray) (cols : list string)
    (data : list (string * ndarray)) : py (list (string * ndarray)) :=
  match cols with
  | [] => Return data
  | c :: rest =>
      (v <- dict_item String.eqb c data ;;
       convert conv rest (dict_set String.eqb c (conv v) data))%py
  end.

Definition named (data : list (string * ndarray)) : list (label * ndarray) :=
  map (fun kv => (Name (fst kv), snd kv)) data.

Definition read_acquisition (f : NWBFile) (downsampled isSensory : bool)
  : py DataFrame :=
  (parent <- (if downsampled then get_processing_module f "downsampled"
              else Return (acquisition f)) ;;
   data <- collect parent (dict_keys parent) [] ;;
   data <- (if negb isSensory then
              data <- convert gt0 ["reward"; "state_lever"; "tone"] data ;;
              convert astype_int16 ["state_task"] data
            else Return data) ;;
   DataFrame_of_dict (named data))%py.

(** The loop of [read_video_tracking] over the keypoints. *)
Fixpoint keypoints (series : list (string * PoseEstimationSeries))
    (kpts : list string) (downsampled : bool)
    (data : list (label * ndarray)) : py (list (label * ndarray)) :=
  match kpts with
  | [] => Return data
  | kpt :: rest =>
      (s <- dict_item String.eqb kpt series ;;
       x <- of_option IndexError (nth_error (pose_data s) 0) ;;
       let data := dict_set label_eqb (Pair kpt "x") x data in
       y <- of_option IndexError (nth_error (pose_data s) 1) ;;
       let data := dict_set label_eqb (Pair kpt "y") y data in
       let data := if negb downsampled
                   then dict_set label_eqb (Pair kpt "likelihood") (confidence s) data
                   else data in
       keypoints series rest downsampled data)%py
  end.

Definition behavior_parent (f : NWBFile) (downsampled : bool) : py group :=
  if downsampled then get_processing_module f "downsampled"
  else get_processing_module f "behavior".

Definition read_video_tracking (f : NWBFile) (view : string) (downsampled : bool)
  : py (option DataFrame) :=
  if existsb (String.eqb view) ["body"; "face"; "eye"] then
    let name := (view ++ "_video_keypoints")%string in
    (parent <- behavior_parent f downsampled ;;
     if negb (dict_mem String.eqb name parent) then Return None
     else
       entries <- get_data_interface parent name ;;
       series <- match entries with
                 | PoseEstimation ps => Return ps
                 | _ => Raise AttributeError
                 end ;;
       data <- keypoints series (dict_keys series) downsampled [] ;;
       df <- DataFrame_of_dict data ;;
       Return (Some df))%py
  else if String.eqb view "pupil" then
    (parent <- behavior_parent f downsampled ;;
     if negb (dict_mem String.eqb "pupil_tracking" parent) then Return None
     else
       pt <- get_data_interface parent "pupil_tracking" ;;
       diameter <- get_timeseries pt "diameter" ;;
       ep <- get_data_interface parent "eye_position" ;;
       center_x <- get_spatial_series ep "center_x" ;;
       ep' <- get_data_interface parent "eye_position" ;;
       center_y <- get_spatial_series ep' "center_y" ;;
       df <- DataFrame_of_dict [(Name "diameter", diameter);
                                (Name "center_x", center_x);
                                (Name "center_y", center_y)] ;;
       Return (Some df))%py
  else Raise ValueError.

(** The body of the [with] block of [load_from_file]. *)
Definition read_all (f : NWBFile) (downsampled isResting isSensory : bool)
  : py (list (string * pyval)) :=
  let set := dict_set String.eqb in
  (md <- read_metadata f ;;
   let data := set "metadata" (VMetadata md) [] in
   tb <- read_timebases f downsampled ;;
   let data := set "timebase" tb data in
   data <- (if negb isResting then
              tr <- read_trials f downsampled ;;
              Return (set "trials" (of_frame tr) data)
            else Return data) ;;
   data <- (if negb isSensory then
              daq <- read_acquisition f downsampled false ;;
              let data := set "daq" (VFrame daq) data in
              body <- read_video_tracking f "body" downsampled ;;
              let data := set "body_video_tracking" (of_frame body) data in
              face <- read_video_tracking f "face" downsampled ;;
              let data := set "face_video_tracking" (of_frame face) data in
              eye <- read_video_tracking f "eye" downsampled ;;
              let data := set "eye_video_tracking" (of_frame eye) data in
              pupil <- read_video_tracking f "pupil" downsampled ;;
              Return (set "pupil_tracking" (of_frame pupil) data)
            else Return data) ;;
   roi <- read_roi_dFF f ;;
   let data := set "rois" (VFrame (fst roi)) data in
   Return (set "roi_description" (VDescriptions (snd roi)) data))%py.

(** [with NWBHDF5IO(path, mode='r') as src: body(src.read())]: when the
    container cannot be opened nothing is entered; once it is open it is
    closed when the block is left, by its end or by an exception. *)
Definition with_nwb {A : Type} (fs : string -> option NWBFile) (path : string)
    (body : NWBFile -> py A) : io A :=
  match fs path with
  | None => (Raise FileNotFoundError, [])
  | Some f => (body f, [NwbOpen path; NwbClose path])
  end.

Definition load_from_file (fs : string -> option NWBFile) (path : string)
    (downsampled isResting isSensory : bool) : io session :=
  (data <- with_nwb fs path
             (fun f => read_all f downsampled isResting isSensory) ;;
   io_lift (if isResting then new_session NWBData_resting data
            else if isSensory then new_session NWBData_sensory data
            else new_session NWBData data))%io.

(** ** Statistics ([sanity_check_nwb.py]) *)

Definition numeric_stats : list string :=
  ["count"; "mean"; "std"; "min"; "25%"; "50%"; "75%"; "max"].

Definition object_stats : list string := ["count"; "unique"; "top"; "freq"].

Definition describe_column (stats : list string) (c : label * ndarray)
  : label * list scalar :=
  (fst c, map (fun st => reduce st (dropna (snd c))) stats).

(** [tab.describe().T]: a table without columns cannot be described; when
    the table has numeric columns only these are described, and a boolean
    column is not numeric; without a numeric column every column is
    described as categorical data.  Each statistic is taken over the
    non-missing elements of its column. *)
Definition describe_T (tab : DataFrame) : py StatFrame :=
  match columns tab with
  | [] => Raise ValueError
  | cols =>
      match filter (fun c => is_numeric (snd c)) cols with
      | [] => Return (MkStats object_stats (map (describe_column object_stats) cols))
      | numeric =>
          Return (MkStats numeric_stats (map (describe_column numeric_stats) numeric))
      end
  end.

(** [tab.isna().sum()] *)
Definition isna_sum (tab : DataFrame) : list (label * scalar) :=
  map (fun c => (fst c, SInt (Z.of_nat (nan_count (snd c))))) (columns tab).

Definition print (line : string) : io unit := emit (Print line).

Definition when (b : bool) (m : io unit) : io unit := if b then m else io_ret tt.

Definition stat_summary (s : session) (df_name nwb_path : string) (verbose : bool)
  : io (option StatFrame) :=
  (tab <- io_lift (getattr s df_name) ;;
   match tab with
   | VNone =>
       when verbose
         (print ("***no " ++ df_name ++ " found in " ++ nwb_path)%string ;;;
          print "") ;;;
       io_ret None
   | VFrame tab =>
       summary <- io_lift (describe_T tab) ;;
       summary <- io_lift (select_columns ["mean"; "std"; "min"; "max"] summary) ;;
       summary <- io_lift (set_column "nan_count" (isna_sum tab) summary) ;;
       when verbose
         (print (df_name ++ " summary for " ++ nwb_path)%string ;;;
          print (repr summary) ;;;
          print "") ;;;
       io_ret (Some summary)
   | _ => io_lift (Raise AttributeError)
   end)%io.

(** [with open(path, 'w') as f: body]: the file is closed however the
    block is left. *)
Definition with_txt {A : Type} (path : string) (body : io A) : io A :=
  (fst body, [TxtOpen path] ++ snd body ++ [TxtClose path]).

(** The loop of [sanity_check_nwb] over the field names. *)
Fixpoint write_summaries (s : session) (nwb_path out : string)
    (df_names : list string) : io unit :=
  match df_names with
  | [] => io_ret tt
  | df_name :: rest =>
      (summary <- stat_summary s df_name nwb_path true ;;
       emit (TxtWrite out
               (String "010" (String "010" (String "010"
                  (Str.upper df_name ++ " summary" ++ String "010" ""))))%string) ;;;
       text <- io_lift (match summary with
                        | Some t => Return (to_string t)
                        | None => Raise AttributeError
                        end) ;;
       emit (TxtWrite out text) ;;;
       write_summaries s nwb_path out rest)%io
  end.

Definition sanity_check_nwb (fs : string -> option NWBFile) (nwb_path : string)
    (output_txt_path : option string) (isResting isSensory : bool) : io unit :=
  match fs nwb_path with
  | None => io_lift (Raise AssertionError)
  | Some _ =>
      let out := match output_txt_path with
                 | Some p => p
                 | None => Str.replace ".nwb" "_summary.txt" nwb_path
                 end in
      (s <- load_from_file fs nwb_path true isResting isSensory ;;
       let df_name_list :=
         if isSensory then ["rois"]
         else ["rois"; "daq"; "body_video_tracking"; "face_video_tracking";
               "eye_video_tracking"; "pupil_tracking"] in
       with_txt out (write_summaries s nwb_path out df_name_list))%io
  end.

(** ** Comparison plots ([plot_stats_across_sessions]) *)

Definition str_of_nat (n : nat) : string := NilEmpty.string_of_uint (Nat.to_uint n).

(** The format [:02d] *)
Definition fmt02 (n : nat) : string :=
  if (n <? 10)%nat then ("0" ++ str_of_nat n)%string else str_of_nat n.

Definition stats : list string := ["mean"; "max"; "min"; "std"; "nan_count"].

Definition maxRow : nat := 10.

(** A row of a table of statistics, taken out as a series. *)
Definition series : Type := list (string * scalar).

(** The first loop: the summaries of the sessions that have the field, and
    the row labels of the first of them. *)
Fixpoint gather (idxs : list nat) (sessions : list session) (df_name : string)
    (summarys : list (option StatFrame)) (rows : option (list label))
  : io (list (option StatFrame) * option (list label)) :=
  match idxs with
  | [] => io_ret (summarys, rows)
  | i :: rest =>
      (s <- io_lift (of_option IndexError (nth_error sessions i)) ;;
       summary <- stat_summary s df_name "None" false ;;
       match summary with
       | Some t =>
           gather rest sessions df_name (summarys ++ [Some t])
             (match rows with
              | None => Some (stat_index t)
              | Some r => Some r
              end)
       | None => gather rest sessions df_name summarys rows
       end)%io
  end.

(** [pd.concat(selected, axis=0)] followed by [result[stat].values]: the
    cells labelled [stat], in order; a single one comes out as a scalar,
    which has no [values]. *)
Definition concat_series (selected : list series) : py series :=
  match selected with
  | [] => Raise ValueError
  | _ => Return (concat selected)
  end.

Definition stat_values (stat : string) (result : series) : py (list scalar) :=
  match map snd (filter (fun e => String.eqb (fst e) stat) result) with
  | [] => Raise KeyError
  | [_] => Raise AttributeError
  | vals => Return vals
  end.

(** [for rowidx, df in enumerate(summarys, start=1)] *)
Fixpoint select_rows (i : nat) (summarys : list (option StatFrame)) (rowidx : nat)
    (selected_row : list series) (rowidxx : list nat)
  : py (list series * list nat) :=
  match summarys with
  | [] => Return (selected_row, rowidxx)
  | Some df :: rest =>
      (r <- iloc i df ;;
       select_rows i rest (S rowidx) (selected_row ++ [r]) (rowidxx ++ [rowidx]))%py
  | None :: rest => select_rows i rest (S rowidx) selected_row rowidxx
  end.

(** [[df.loc[l] for df in summarys]] *)
Fixpoint loc_rows (l : label) (summarys : list (option StatFrame))
  : py (list series) :=
  match summarys with
  | [] => Return []
  | Some df :: rest =>
      (r <- loc l df ;; rs <- loc_rows l rest ;; Return (r :: rs))%py
  | None :: rest => Raise AttributeError
  end.

(** [rows[i][:-2]] inside an f-string *)
Definition row_stem (l : label) : string :=
  match l with
  | Name s => Str.drop_last 2 s
  | Pair _ _ => "()"
  end.

(** The panels of one row of a non-ROI field: one series per statistic. *)
Fixpoint plot_single (iRow : nat) (js : list (nat * string)) (rowidxx : list nat)
    (result : series) : io unit :=
  match js with
  | [] => io_ret tt
  | (j, stat) :: rest =>
      (ys <- io_lift (stat_values stat result) ;;
       emit (Plot iRow j "ro-" rowidxx ys) ;;;
       plot_single iRow rest rowidxx result)%io
  end.

(** The panels of one row of the ROI field: left and right overlaid; the
    series are drawn against their own positions 0, 1, ... *)
Fixpoint plot_pair (iRow : nat) (js : list (nat * string))
    (result_l result_r : series) : io unit :=
  match js with
  | [] => io_ret tt
  | (j, stat) :: rest =>
      (ys_l <- io_lift (stat_values stat result_l) ;;
       emit (Plot iRow j "ro-" (seq 0 (length ys_l)) ys_l) ;;;
       ys_r <- io_lift (stat_values stat result_r) ;;
       emit (Plot iRow j "bo-" (seq 0 (length ys_r)) ys_r) ;;;
       plot_pair iRow rest result_l result_r)%io
  end.

Fixpoint enumerate {A : Type} (start : nat) (l : list A) : list (nat * A) :=
  match l with
  | [] => []
  | x :: l' => (start, x) :: enumerate (S start) l'
  end.

Definition newline : string := String "010" "".

(** The end of a page: the legend that maps positions to file names, in
    two boxes, and the image (its folder is made when it is missing). *)
Definition finish_page (nwb_files : list string) (png_path_base : string)
    (i : nat) : io unit :=
  let textlist :=
    map (fun ij => (str_of_nat (fst ij) ++ " : " ++ snd ij)%string)
        (enumerate 0 nwb_files) in
  let numline := length textlist / 2 + 1 in
  let text_part j :=
    String.concat newline (firstn numline (skipn (j * numline) textlist)) in
  (emit (Legend 0 (text_part 0)) ;;;
   emit (Legend 1 (text_part 1)) ;;;
   emit (SaveFig (png_path_base ++ "_" ++ fmt02 (i / maxRow + 1) ++ ".png")%string))%io.

(** The panels of row [i]. *)
Definition plot_row (i : nat) (is_rois : bool) (rows : list label)
    (summarys : list (option StatFrame)) : io unit :=
  let iRow := i mod maxRow in
  (if is_rois then
     row <- io_lift (of_option IndexError (nth_error rows i)) ;;
     let row_name := row_stem row in
     selected_row_l <- io_lift (loc_rows (Name (row_name ++ "_l")%string) summarys) ;;
     result_l <- io_lift (concat_series selected_row_l) ;;
     selected_row_r <- io_lift (loc_rows (Name (row_name ++ "_r")%string) summarys) ;;
     result_r <- io_lift (concat_series selected_row_r) ;;
     plot_pair iRow (enumerate 0 stats) result_l result_r
   else
     row <- io_lift (of_option IndexError (nth_error rows i)) ;;
     sel <- io_lift (select_rows i summarys 1 [] []) ;;
     result <- io_lift (concat_series (fst sel)) ;;
     plot_single iRow (enumerate 0 stats) (snd sel) result)%io.

(** The loop over the rows. *)
Fixpoint plot_rows (todo : list nat) (nRow : nat) (is_rois : bool)
    (rows : list label) (summarys : list (option StatFrame))
    (nwb_files : list string) (png_path_base : string) : io unit :=
  match todo with
  | [] => io_ret tt
  | i :: rest =>
      (plot_row i is_rois rows summarys ;;;
       when ((i mod maxRow =? maxRow - 1)%nat || (i =? nRow - 1)%nat)
         (finish_page nwb_files png_path_base i) ;;;
       plot_rows rest nRow is_rois rows summarys nwb_files png_path_base)%io
  end.

Definition plot_stats_across_sessions (nwb_files : list string)
    (sessions : list session) (png_path_base df_name : string) : io unit :=
  (got <- gather (seq 0 (length nwb_files)) sessions df_name [] None ;;
   rows <- io_lift (of_option TypeError (snd got)) ;;
   let is_rois := String.eqb df_name "rois" in
   let nRow := if is_rois then length rows / 2 else length rows in
   plot_rows (seq 0 nRow) nRow is_rois rows (fst got) nwb_files png_path_base)%io.

(** The x positions of the series drawn by a run. *)
Definition plotted_xs (t : list event) : list (list nat) :=
  flat_map (fun e => match e with
                     | Plot _ _ _ xs _ => [xs]
                     | _ => []
                     end) t.

(** ** Notions the statements below use *)

(** The group [read_acquisition] enumerates. *)
Definition acquisition_parent (f : NWBFile) (downsampled : bool) : py group :=
  if downsampled then get_processing_module f "downsampled"
  else Return (acquisition f).

(** The arrays of the kept data products, under their column identifiers,
    as stored in the container. *)
Definition source_data (f : NWBFile) (downsampled : bool)
  : py (list (string * ndarray)) :=
  (parent <- acquisition_parent f downsampled ;;
   collect parent (dict_keys parent) [])%py.

(** The data product [read_video_tracking] looks for, and whether some
    processing module of the container holds it. *)
Definition product_name (view : string) : string :=
  if String.eqb view "pupil" then "pupil_tracking"
  else (view ++ "_video_keypoints")%string.

Definition module_name (downsampled : bool) : string :=
  if downsampled then "downsampled" else "behavior".

Definition has_product (f : NWBFile) (view : string) (downsampled : bool) : bool :=
  match dict_get String.eqb (module_name downsampled) (processing f) with
  | Some g => dict_mem String.eqb (product_name view) g
  | None => false
  end.

Definition views : list string := ["body"; "face"; "eye"; "pupil"].

(** The ROI fluorescence product of a container: the series 'dFF' of the
    interface 'DfOverF' of the processing module 'ophys'. *)
Definition roi_product (f : NWBFile) : option RoiResponseSeries :=
  match dict_get String.eqb "ophys" (processing f) with
  | Some m =>
      match dict_get String.eqb "DfOverF" m with
      | Some (DfOverF rs) => dict_get String.eqb "dFF" rs
      | _ => None
      end
  | None => None
  end.

(** A container that lacks something every load reads: the subject or its
    date of birth, the imaging series 'widefield_blue', the ROI
    fluorescence product, or, for a session that is not sensory, the
    processing module that holds the behavioural data. *)
Definition missing_required (f : NWBFile) (downsampled isSensory : bool) : Prop :=
  subject f = None
  \/ (exists subj, subject f = Some subj /\ date_of_birth subj = None)
  \/ dict_get String.eqb "widefield_blue" (acquisition f) = None
  \/ roi_product f = None
  \/ (isSensory = false /\ downsampled = true
      /\ dict_get String.eqb "downsampled" (processing f) = None).

(** The positions, in the list given to [plot_stats_across_sessions], of
    the sessions that have the field. *)
Definition has_field (df_name : string) (s : session) : bool :=
  match getattr s df_name with
  | Return VNone => false
  | Return _ => true
  | Raise _ => false
  end.

Definition original_indices (df_name : string) (sessions : list session) : list nat :=
  map fst (filter (fun p => has_field df_name (snd p)) (enumerate 0 sessions)).

(** A series drawn at the positions [idx]. *)
Definition plot_at (idx : list nat) (e : event) : Prop :=
  match e with
  | Plot _ _ _ xs _ => xs = idx
  | _ => True
  end.

(** Among [idxs], the positions of sessions that have the field. *)
Definition present (df_name : string) (sessions : list session) (idxs : list nat)
  : list nat :=
  filter (fun i => match nth_error sessions i with
                   | Some s => has_field df_name s
                   | None => false
                   end) idxs.

Definition is_upper (c : ascii) : bool := Re.in_range "A" "Z" c.

(** The row of the summary for one column of a table: its label, the four
    statistics of its non-missing elements, and the count of its missing
    elements. *)
Definition summary_row (c : label * ndarray) : label * list scalar :=
  (fst c,
   [reduce "mean" (dropna (snd c)); reduce "std" (dropna (snd c));
    reduce "min" (dropna (snd c)); reduce "max" (dropna (snd c));
    SInt (Z.of_nat (nan_count (snd c)))]).

Definition numeric_columns (tab : DataFrame) : list (label * ndarray) :=
  filter (fun c => is_numeric (snd c)) (columns tab).

(** ** A small container, for the concrete cases *)

Definition half : spec_float := S754_finite false 1 (-1).
Definition two : spec_float := S754_finite false 1 1.

Definition clock : ndarray := Floats [S754_zero false; half; two].

Definition demo_downsampled : group :=
  [("Running-speed_ds", TimeSeries (Floats [half; S754_nan; two]) clock);
   ("reward", TimeSeries (Floats [S754_zero false; two; S754_nan]) clock);
   ("state_lever", TimeSeries (Ints UInt8 [0; 1; 1]%Z) clock);
   ("tone", TimeSeries (Ints Int64 [-1; 0; 3]%Z) clock);
   ("state_task", TimeSeries (Ints Int64 [1; 2; 70000]%Z) clock);
   ("face_video_keypoints",
     PoseEstimation [("nose", MkPose [Floats [half; half; two];
                                      Floats [two; S754_nan; half]]
                                     (Floats [half; half; half]))]);
   ("pupil_tracking", PupilTracking [("diameter", Floats [two; two; half])]);
   ("eye_position", EyeTracking [("center_x", Floats [half; half; half]);
                                 ("center_y", Floats [two; two; two])])].

Definition demo_ophys : group :=
  [("DfOverF",
     DfOverF [("dFF", MkRoi [Floats [half; two; half]; Floats [two; S754_nan; two]]
                            (Some ["m1_l"; "m1_r"])
                            (Some ["left motor"; "right motor"]))])].

Definition demo_subject : Subject :=
  MkSubject (Some "mouse01") (Some "2020-10-01") (Some "P90D") (Some "M").

Definition demo_file : NWBFile :=
  MkNWB (Some "mouse01_2021-01-05_task-day3") (Some "task session") None
        (Some demo_subject)
        [("widefield_blue", TimeSeries (Ints UInt16 [10; 20; 30]%Z) clock)]
        [("downsampled", demo_downsampled); ("ophys", demo_ophys)]
        None.

(** The same container with no processing module at all. *)
Definition bare_file : NWBFile :=
  MkNWB (Some "mouse01_2021-01-05_task-day3") (Some "task session") None
        (Some demo_subject)
        [("widefield_blue", TimeSeries (Ints UInt16 [10; 20; 30]%Z) clock)]
        []
        None.

Definition demo_path : string := "mouse01_2021-01-05_task-day3.nwb".

Definition demo_fs (path : string) : option NWBFile :=
  if String.eqb path demo_path then Some demo_file else None.

Definition bare_path : string := "mouse02_2021-02-01_task-day1.nwb".

Definition bare_fs (path : string) : option NWBFile :=
  if String.eqb path bare_path then Some bare_file else None.

Definition demo_summary_path : string := "mouse01_2021-01-05_task-day3_summary.txt".

Definition header (title : string) : string :=
  (newline ++ newline ++ newline ++ title ++ " summary" ++ newline)%string.

(** The record that [load_from_file] builds from [demo_file], with the
    face tracking table left open. *)
Definition demo_metadata : Metadata :=
  MkMetadata (Some "mouse01_2021-01-05_task-day3") (Some "task session") None
             (Some "mouse01") "2020-10-01" (Some "P90D") (Some "M").

Definition demo_daq : DataFrame :=
  MkFrame [(Name "running_speed", Floats [half; S754_nan; two]);
           (Name "reward", Bools [false; true; false]);
           (Name "state_lever", Bools [false; true; true]);
           (Name "tone", Bools [false; false; true]);
           (Name "state_task", Ints Int16 [1; 2; 4464]%Z)].

Definition demo_face : DataFrame :=
  MkFrame [(Pair "nose" "x", Floats [half; half; two]);
           (Pair "nose" "y", Floats [two; S754_nan; half])].

Definition demo_pupil : DataFrame :=
  MkFrame [(Name "diameter", Floats [two; two; half]);
           (Name "center_x", Floats [half; half; half]);
           (Name "center_y", Floats [two; two; two])].

Definition demo_rois : DataFrame :=
  MkFrame [(Name "m1_l", Floats [half; two; half]);
           (Name "m1_r", Floats [two; S754_nan; two])].

Definition demo_record (face : pyval) : session :=
  MkSession NWBData
    [("metadata", VMetadata demo_metadata);
     ("timebase", VArray clock);
     ("trials", VNone);
     ("daq", VFrame demo_daq);
     ("body_video_tracking", VNone);
     ("face_video_tracking", face);
     ("eye_video_tracking", VNone);
     ("pupil_tracking", VFrame demo_pupil);
     ("rois", VFrame demo_rois);
     ("roi_description", VDescriptions [("m1_l", "left motor"); ("m1_r", "right motor")])].

(** Four sessions of one animal; the second has no face tracking. *)
Definition demo_files : list string :=
  ["mouse01_2021-01-05_task-day1.nwb"; "mouse01_2021-01-06_task-day2.nwb";
   "mouse01_2021-01-07_task-day3.nwb"; "mouse01_2021-01-08_task-day4.nwb"].

Definition demo_sessions : list session :=
  [demo_record (VFrame demo_face); demo_record VNone;
   demo_record (VFrame demo_face); demo_record (VFrame demo_face)].

(** Stand-ins for what is left open, to run the concrete cases. *)
Definition demo_cast_ub (f : spec_float) : Z := 0%Z.

Definition demo_reduce (st : string) (xs : list scalar) : scalar :=
  SInt (Z.of_nat (length xs)).

Definition demo_to_string (t : StatFrame) : string :=
  String.concat " " (stat_columns t).

(** The column labels that [read_video_tracking] makes for one keypoint. *)
Definition keypoint_labels (downsampled : bool) (kpt : string) : list label :=
  [Pair kpt "x"; Pair kpt "y"]
  ++ (if downsampled then [] else [Pair kpt "likelihood"]).

(** One turn of the keypoint loop. *)
Definition keypoint_step (downsampled : bool) (kpt : string) (x y conf : ndarray)
    (data : list (label * ndarray)) : list (label * ndarray) :=
  let data := dict_set label_eqb (Pair kpt "x") x data in
  let data := dict_set label_eqb (Pair kpt "y") y data in
  if negb downsampled then dict_set label_eqb (Pair kpt "likelihood") conf data
  else data.

(** The texts written to a file in a stretch of events. *)
Definition written (path : string) (t : list event) : list string :=
  flat_map (fun e => match e with
                     | TxtWrite p text => if String.eqb p path then [text] else []
                     | _ => []
                     end) t.

(** An event of the body of [sanity_check_nwb]: a log line, or a text
    written to the output file. *)
Definition report_event (out : string) (e : event) : Prop :=
  match e with
  | Print _ => True
  | TxtWrite p _ => p = out
  | _ => False
  end.

(** The path [sanity_check_nwb] writes to. *)
Definition summary_path (nwb_path : string) (output_txt_path : option string)
  : string :=
  match output_txt_path with
  | Some p => p
  | None => Str.replace ".nwb" "_summary.txt" nwb_path
  end.

(** The fields [sanity_check_nwb] reports. *)
Definition reported_fields (isSensory : bool) : list string :=
  if isSensory then ["rois"]
  else ["rois"; "daq"; "body_video_tracking"; "face_video_tracking";
        "eye_video_tracking"; "pupil_tracking"].

(** The summaries gathered are summaries, and the row labels are those of
    the first. *)
Definition gathered (P : StatFrame -> Prop)
    (summarys : list (option StatFrame)) (rows : option (list label)) : Prop :=
  Forall (fun o => exists t, o = Some t /\ P t) summarys
  /\ match summarys with
     | [] => rows = None
     | o :: _ => exists t, o = Some t /\ rows = Some (stat_index t)
     end.

(** The images that a run saved, in order. *)
Definition saved_figures (t : list event) : list string :=
  flat_map (fun e => match e with
                     | SaveFig p => [p]
                     | _ => []
                     end) t.

(** The name of page [k] of a comparison. *)
Definition page_name (png_path_base : string) (k : nat) : string :=
  (png_path_base ++ "_" ++ fmt02 k ++ ".png")%string.

(** ** The comparison of the sessions of one animal
       ([plot_summary_within_animal])

    Paths are the texts that pathlib prints, with the POSIX separator. *)

(** [p.split(os.path.sep)[-1]], which is also the [name] of a path that
    [rglob] yields: the text after the last separator. *)
Fixpoint last_component (p : string) : string :=
  match p with
  | EmptyString => EmptyString
  | String c p' =>
      if Str.contains "/" p' then last_component p'
      else if Ascii.eqb c "/" then p'
      else p
  end.

(** [os.path.join(a, b)] *)
Definition path_join (a b : string) : string :=
  if prefix "/" b then b
  else if String.eqb a "" || Str.endswith "/" a then (a ++ b)%string
  else (a ++ "/" ++ b)%string.

(** What [nwb_file_indexer] returns, and the order of Python on such
    tuples: the first place that differs decides, texts are compared
    character by character and numbers by value. *)
Definition key : Type := (string * string * nat * N)%type.

Definition key_compare (a b : key) : comparison :=
  match a, b with
  | (s1, d1, t1, n1), (s2, d2, t2, n2) =>
      match String.compare s1 s2 with
      | Eq => match String.compare d1 d2 with
              | Eq => match Nat.compare t1 t2 with
                      | Eq => N.compare n1 n2
                      | c => c
                      end
              | c => c
              end
      | c => c
      end
  end.

(** [sorted(files, key=nwb_file_indexer)]: the keys are computed first, one
    per path and in the order of the list; the sort is stable. *)
Fixpoint keys_of (files : list string) : py (list (key * string)) :=
  match files with
  | [] => Return []
  | p :: rest =>
      (k <- nwb_file_indexer (last_component p) ;;
       ks <- keys_of rest ;;
       Return ((k, p) :: ks))%py
  end.

Fixpoint insert_by_key (x : key * string) (l : list (key * string))
  : list (key * string) :=
  match l with
  | [] => [x]
  | y :: l' =>
      match key_compare (fst x) (fst y) with
      | Gt => y :: insert_by_key x l'
      | _ => x :: l
      end
  end.

Definition sorted (files : list string) : py (list string) :=
  (ks <- keys_of files ;;
   Return (map snd (fold_right insert_by_key [] ks)))%py.

(** The loop that loads the sessions; the flags of a session are read off
    the name of its file. *)
Fixpoint load_sessions (fs : string -> option NWBFile) (nwb_files : list string)
  : io (list session) :=
  match nwb_files with
  | [] => io_ret []
  | p :: rest =>
      (emit (Print ("loading " ++ p)%string) ;;;
       s <- load_from_file fs p true
              (Str.contains "resting" (last_component p))
              (Str.contains "sensory" (last_component p)) ;;
       ss <- load_sessions fs rest ;;
       io_ret (s :: ss))%io
  end.

Definition df_name_list : list string :=
  ["daq"; "body_video_tracking"; "face_video_tracking"; "eye_video_tracking";
   "pupil_tracking"; "rois"].

(** [[x for x, isSensory in zip(xs, isSensorys) if not isSensory]] *)
Definition no_sensory {A : Type} (xs : list A) (isSensorys : list bool) : list A :=
  map fst (filter (fun p => negb (snd p)) (combine xs isSensorys)).

Definition png_path_base (folder_path : string) (output_folder : option string)
    (df_name : string) : string :=
  let leaf := (last_component folder_path ++ "_" ++ df_name)%string in
  match output_folder with
  | None => path_join (path_join folder_path "summary") leaf
  | Some out => path_join out leaf
  end.

(** The body of the loop over the fields: sensory sessions are left out of
    every comparison but that of the ROI table. *)
Definition plot_field (df_name folder_path : string)
    (output_folder : option string) (nwb_files : list string)
    (sessions : list session) : io unit :=
  let base := png_path_base folder_path output_folder df_name in
  let file_names := map last_component nwb_files in
  let isSensorys := map (Str.contains "sensory") file_names in
  if String.eqb df_name "rois" then
    plot_stats_across_sessions file_names sessions base df_name
  else
    plot_stats_across_sessions (no_sensory file_names isSensorys)
      (no_sensory sessions isSensorys) base df_name.

Fixpoint plot_fields (names : list string) (folder_path : string)
    (output_folder : option string) (nwb_files : list string)
    (sessions : list session) : io unit :=
  match names with
  | [] => io_ret tt
  | df_name :: rest =>
      (plot_field df_name folder_path output_folder nwb_files sessions ;;;
       plot_fields rest folder_path output_folder nwb_files sessions)%io
  end.

(** [rglob folder] is the list of the '.nwb' files below a folder, in the
    order the file system gives them, and [None] when the folder does not
    exist. *)
Definition plot_summary_within_animal (rglob : string -> option (list string))
    (fs : string -> option NWBFile) (folder_path : string)
    (output_folder : option string) : io unit :=
  (files <- io_lift (of_option AssertionError (rglob folder_path)) ;;
   nwb_files <- io_lift (sorted files) ;;
   sessions <- load_sessions fs nwb_files ;;
   plot_fields df_name_list folder_path output_folder nwb_files sessions)%io.

(** The containers that a run opened, in order. *)
Definition opened (t : list event) : list string :=
  flat_map (fun e => match e with
                     | NwbOpen p => [p]
                     | _ => []
                     end) t.

(** The order of two paths whose names the indexer accepts. *)
Definition path_le (p q : string) : Prop :=
  match nwb_file_indexer (last_component p), nwb_file_indexer (last_component q) with
  | Return a, Return b => key_compare a b <> Gt
  | _, _ => False
  end.

(** The order of pairs that compares the first components first. *)
Definition lex {A B : Type} (cmpA : A -> A -> comparison)
    (cmpB : B -> B -> comparison) (a b : A * B) : comparison :=
  match cmpA (fst a) (fst b) with
  | Eq => cmpB (snd a) (snd b)
  | c => c
  end.

(** A comparison that is a total order. *)
Definition total_order {A : Type} (cmp : A -> A -> comparison) : Prop :=
  (forall a b, cmp a b = Eq <-> a = b)
  /\ (forall a b, cmp a b = CompOpp (cmp b a))
  /\ (forall a b c, cmp a b = Lt -> cmp b c = Lt -> cmp a c = Lt).

(** The events of drawing, and those of loading. *)
Definition drawing (e : event) : Prop :=
  match e with
  | Plot _ _ _ _ _ | Legend _ _ | SaveFig _ => True
  | _ => False
  end.

Definition reading (e : event) : Prop :=
  match e with
  | Print _ | NwbOpen _ | NwbClose _ => True
  | _ => False
  end.

(** The order of the keyed paths. *)
Definition key_le (a b : key * string) : Prop :=
  key_compare (fst a) (fst b) <> Gt.

(** A path with the key that the indexer gives it. *)
Definition keyed (kp : key * string) : Prop :=
  nwb_file_indexer (last_component (snd kp)) = Return (fst kp).

(** ** More containers and a folder of one animal, for the concrete cases *)


(** The demonstration container under a path without '.nwb'. *)
Definition plain_fs (path : string) : option NWBFile :=
  if String.eqb path "session" then Some demo_file else None.

(** A container with every behavioural table. *)
Definition full_downsampled : group :=
  demo_downsampled
  ++ [("body_video_keypoints",
        PoseEstimation [("tail", MkPose [Floats [half; two; two];
                                         Floats [two; two; half]]
                                        (Floats [half; half; half]))]);
      ("eye_video_keypoints",
        PoseEstimation [("lid", MkPose [Floats [two; half; two];
                                        Floats [half; two; half]]
                                       (Floats [half; half; half]))])].

Definition full_file : NWBFile :=
  MkNWB (Some "mouse01_2021-01-05_task-day3") (Some "task session") None
        (Some demo_subject)
        [("widefield_blue", TimeSeries (Ints UInt16 [10; 20; 30]%Z) clock)]
        [("downsampled", full_downsampled); ("ophys", demo_ophys)]
        None.

Definition full_body : DataFrame :=
  MkFrame [(Pair "tail" "x", Floats [half; two; two]);
           (Pair "tail" "y", Floats [two; two; half])].

Definition full_eye : DataFrame :=
  MkFrame [(Pair "lid" "x", Floats [two; half; two]);
           (Pair "lid" "y", Floats [half; two; half])].

Definition full_record : session :=
  MkSession NWBData
    [("metadata", VMetadata demo_metadata);
     ("timebase", VArray clock);
     ("trials", VNone);
     ("daq", VFrame demo_daq);
     ("body_video_tracking", VFrame full_body);
     ("face_video_tracking", VFrame demo_face);
     ("eye_video_tracking", VFrame full_eye);
     ("pupil_tracking", VFrame demo_pupil);
     ("rois", VFrame demo_rois);
     ("roi_description", VDescriptions [("m1_l", "left motor"); ("m1_r", "right motor")])].

(** Two sessions of one animal, listed day 10 first. *)
Definition animal_folder : string := "data/mouse01".

Definition day9 : string := "data/mouse01/mouse01_2021-01-05_task-day9.nwb".

Definition day10 : string := "data/mouse01/mouse01_2021-01-05_task-day10.nwb".

Definition animal_rglob (folder : string) : option (list string) :=
  if String.eqb folder animal_folder then Some [day10; day9] else None.

Definition animal_fs (path : string) : option NWBFile :=
  if String.eqb path day9 || String.eqb path day10 then Some full_file else None.

(** * Properties *)

Unset Implicit Arguments.
Set Default Proof Using "Type".

(** ** The result type *)

Lemma bind_Return_inv {A B : Type} (m : py A) (k : A -> py B) (b : B) :
  bind m k = Return b -> exists a, m = Return a /\ k a = Return b.
Proof.
  destruct m as [a|e]; simpl; intros H; [eauto | discriminate].
Qed.

Lemma bind_raises_l {A B : Type} (m : py A) (k : A -> py B) :
  raises m -> raises (bind m k).
Proof.
  intros [e ->]. exists e. reflexivity.
Qed.

Lemma bind_raises_r {A B : Type} (m : py A) (k : A -> py B) :
  (forall a, raises (k a)) -> raises (bind m k).
Proof.
  intros H. destruct m as [a|e]; simpl; [apply H | exists e; reflexivity].
Qed.

Lemma raises_not_Return {A : Type} (m : py A) (a : A) :
  raises m -> m <> Return a.
Proof.
  intros [e ->]. discriminate.
Qed.

(** ** Strings *)

Lemma ascii_cases (P : ascii -> Prop) :
  (forall b0 b1 b2 b3 b4 b5 b6 b7, P (Ascii b0 b1 b2 b3 b4 b5 b6 b7)) ->
  forall c, P c.
Proof.
  intros H [b0 b1 b2 b3 b4 b5 b6 b7]. apply H.
Qed.

Lemma lower_char_not_upper (c : ascii) : is_upper (Str.lower_char c) = false.
Proof.
  revert c. apply ascii_cases.
  intros [] [] [] [] [] [] [] []; reflexivity.
Qed.

Lemma prefix_single (c0 c : ascii) (s : string) :
  prefix (String c0 EmptyString) (String c s) = Ascii.eqb c0 c.
Proof.
  simpl. destruct (ascii_dec c0 c) as [->|Hne].
  - rewrite Ascii.eqb_refl. now destruct s.
  - symmetry. now apply Ascii.eqb_neq.
Qed.

Lemma replace_go_single (c0 : ascii) (new s : string) :
  Str.replace_go (String c0 EmptyString) new 0 s = Str.subst_char c0 new s.
Proof.
  induction s as [|c s IH]; [reflexivity|].
  cbn [Str.replace_go Str.subst_char]. rewrite prefix_single.
  cbn [String.length Nat.sub]. now rewrite IH.
Qed.

Lemma replace_single (c0 : ascii) (new s : string) :
  Str.replace (String c0 EmptyString) new s = Str.subst_char c0 new s.
Proof.
  apply replace_go_single.
Qed.

Lemma chars_app (a b : string) :
  Str.chars (a ++ b) = Str.chars a ++ Str.chars b.
Proof.
  induction a as [|c a IH]; simpl; [reflexivity | now rewrite <- IH].
Qed.

(** Removing occurrences cannot bring in a character. *)
Lemma replace_go_erase_chars (old : string) (skip : nat) (s : string) (c : ascii) :
  In c (Str.chars (Str.replace_go old EmptyString skip s)) -> In c (Str.chars s).
Proof.
  revert skip. induction s as [|a s IH]; intros skip; [exact (fun H => H)|].
  destruct skip as [|k]; cbn [Str.replace_go].
  - destruct (prefix old (String a s)).
    + cbn [append]. intros H. right. exact (IH _ H).
    + intros [H|H]; [now left | right; exact (IH _ H)].
  - intros H. right. exact (IH _ H).
Qed.

Lemma replace_erase_chars (old s : string) (c : ascii) :
  old <> EmptyString ->
  In c (Str.chars (Str.replace old EmptyString s)) -> In c (Str.chars s).
Proof.
  intros Hne. destruct old as [|o old]; [contradiction|].
  apply replace_go_erase_chars.
Qed.

Lemma app_assoc_str (a b c : string) : ((a ++ b) ++ c = a ++ (b ++ c))%string.
Proof.
  induction a as [|x a IH]; simpl; [reflexivity | now rewrite IH].
Qed.

Lemma prefix_app (l rest : string) : prefix l (l ++ rest) = true.
Proof.
  induction l as [|c l IH]; simpl.
  - now destruct rest.
  - destruct (ascii_dec c c) as [_|Hne]; [exact IH | contradiction].
Qed.

Lemma drop_app (l rest : string) : Re.drop (String.length l) (l ++ rest) = rest.
Proof.
  induction l as [|c l IH]; simpl; [now destruct rest | exact IH].
Qed.

Lemma prefix_drop (l s : string) :
  prefix l s = true -> s = (l ++ Re.drop (String.length l) s)%string.
Proof.
  revert s. induction l as [|c l IH]; intros s H.
  - now destruct s.
  - destruct s as [|d s]; simpl in H; [discriminate|].
    destruct (ascii_dec c d) as [->|_]; [|discriminate].
    simpl. f_equal. exact (IH _ H).
Qed.

Lemma replace_go_skip (old new : string) (k : nat) (s : string) :
  Str.replace_go old new k s = Str.replace_go old new 0 (Re.drop k s).
Proof.
  revert k. induction s as [|c s IH]; intros [|k]; try reflexivity.
  cbn [Str.replace_go Re.drop]. apply IH.
Qed.

Lemma drop_length (k : nat) (s : string) :
  String.length (Re.drop k s) <= String.length s.
Proof.
  revert k. induction s as [|c s IH]; intros [|k]; simpl; try lia.
  specialize (IH k). lia.
Qed.

Lemma concat_cons (sep x : string) (xs : list string) :
  xs <> [] -> String.concat sep (x :: xs) = (x ++ sep ++ String.concat sep xs)%string.
Proof.
  destruct xs; [contradiction | reflexivity].
Qed.

Lemma concat_push (sep : string) (c : ascii) (p : string) (ps : list string) :
  String.concat sep (String c p :: ps) = String c (String.concat sep (p :: ps)).
Proof.
  destruct ps; reflexivity.
Qed.

(** [replace] cuts the text at occurrences of [old] and joins the pieces
    with [new]. *)
Lemma replace_go_pieces (old new : string) (n : nat) :
  old <> EmptyString ->
  forall s, String.length s <= n ->
    exists pieces,
      pieces <> []
      /\ s = String.concat old pieces
      /\ Str.replace_go old new 0 s = String.concat new pieces.
Proof.
  intros Hold. induction n as [|n IH]; intros s Hlen.
  - destruct s; [|simpl in Hlen; lia].
    exists [EmptyString]. repeat split. discriminate.
  - destruct s as [|c s]; [exists [EmptyString]; repeat split; discriminate|].
    cbn [Str.replace_go]. destruct (prefix old (String c s)) eqn:E.
    + rewrite replace_go_skip.
      destruct old as [|o old]; [contradiction|].
      pose proof (prefix_drop _ _ E) as Hs.
      cbn [String.length Nat.sub] in *. rewrite Nat.sub_0_r.
      cbn [Re.drop] in Hs.
      destruct (IH (Re.drop (String.length old) s)) as (pieces & Hne & Hp & Hr).
      { pose proof (drop_length (String.length old) s). simpl in Hlen. lia. }
      exists (EmptyString :: pieces). split; [discriminate|].
      rewrite !concat_cons by exact Hne. cbn [append].
      split; [|now rewrite Hr].
      rewrite Hs at 1. cbn [append]. now rewrite <- Hp.
    + destruct (IH s) as (pieces & Hne & Hp & Hr); [simpl in Hlen; lia|].
      destruct pieces as [|p ps]; [contradiction|].
      exists (String c p :: ps). split; [discriminate|].
      rewrite !concat_push. now rewrite <- Hp, Hr.
Qed.

Lemma replace_pieces (old new s : string) :
  old <> EmptyString ->
  exists pieces,
    s = String.concat old pieces
    /\ Str.replace old new s = String.concat new pieces.
Proof.
  intros Hold.
  destruct (replace_go_pieces old new (String.length s) Hold s (le_n _))
    as (pieces & _ & Hp & Hr).
  exists pieces. split; [exact Hp|].
  destruct old; [contradiction | exact Hr].
Qed.

(** The first four steps of [column_of], as one pass. *)
Lemma column_chars_fused (name : string) :
  Str.replace "-" "_" (Str.replace "." "" (Str.replace " " "_" (Str.lower name)))
  = column_chars name.
Proof.
  rewrite !replace_single.
  induction name as [|c s IH]; [reflexivity|].
  cbn [Str.lower Str.subst_char column_chars]. unfold column_char.
  destruct (Ascii.eqb " " (Str.lower_char c)) eqn:E1.
  - cbn. now rewrite IH.
  - cbn [Str.subst_char].
    destruct (Ascii.eqb "." (Str.lower_char c)) eqn:E2.
    + cbn [append]. exact IH.
    + cbn [Str.subst_char].
      destruct (Ascii.eqb "-" (Str.lower_char c)) eqn:E3; cbn; now rewrite IH.
Qed.

Lemma column_chars_clean (name : string) (c : ascii) :
  In c (Str.chars (column_chars name)) ->
  c <> " "%char /\ c <> "."%char /\ c <> "-"%char /\ is_upper c = false.
Proof.
  induction name as [|a s IH]; [intros []|].
  cbn [column_chars]. rewrite chars_app. intros H.
  apply in_app_or in H. destruct H as [H|H]; [|exact (IH H)].
  unfold column_char in H.
  destruct (Ascii.eqb " " (Str.lower_char a)) eqn:E1;
    [destruct H as [<-|[]]; repeat split; (discriminate || reflexivity)|].
  destruct (Ascii.eqb "." (Str.lower_char a)) eqn:E2; [destruct H|].
  destruct (Ascii.eqb "-" (Str.lower_char a)) eqn:E3;
    [destruct H as [<-|[]]; repeat split; (discriminate || reflexivity)|].
  destruct H as [<-|[]].
  apply Ascii.eqb_neq in E1, E2, E3.
  repeat split; try congruence. apply lower_char_not_upper.
Qed.

Lemma column_of_chars (name : string) :
  column_of name = Str.replace "_ds" "" (column_chars name).
Proof.
  unfold column_of. now rewrite column_chars_fused.
Qed.

Lemma column_of_clean (name : string) (c : ascii) :
  In c (Str.chars (column_of name)) ->
  c <> " "%char /\ c <> "."%char /\ c <> "-"%char /\ is_upper c = false.
Proof.
  rewrite column_of_chars. intros H.
  apply replace_erase_chars in H; [|discriminate].
  exact (column_chars_clean _ _ H).
Qed.

(** ** Dictionaries *)

Section DictFacts.
Variables (K V : Type) (keq : K -> K -> bool).
Hypothesis keq_eq : forall a b, keq a b = true <-> a = b.

Lemma keq_refl (a : K) : keq a a = true.
Proof using keq_eq. now apply keq_eq. Qed.

Lemma keq_neq (a b : K) : a <> b -> keq a b = false.
Proof using keq_eq.
  intros H. destruct (keq a b) eqn:E; [|reflexivity].
  apply keq_eq in E. contradiction.
Qed.

Lemma dict_get_set_same (k : K) (v : V) (d : dict K V) :
  dict_get keq k (dict_set keq k v d) = Some v.
Proof using keq_eq.
  induction d as [|[k' v'] d IH]; simpl.
  - now rewrite keq_refl.
  - destruct (keq k k') eqn:E; simpl; rewrite E; [reflexivity | exact IH].
Qed.

Lemma dict_get_set_other (k k' : K) (v : V) (d : dict K V) :
  k <> k' -> dict_get keq k (dict_set keq k' v d) = dict_get keq k d.
Proof using keq_eq.
  intros Hne. induction d as [|[k0 v0] d IH]; simpl.
  - now rewrite (keq_neq _ _ Hne).
  - destruct (keq k' k0) eqn:E; simpl.
    + apply keq_eq in E. subst k0. now rewrite (keq_neq _ _ Hne).
    + destruct (keq k k0); [reflexivity | exact IH].
Qed.

Lemma dict_mem_In (k : K) (d : dict K V) :
  dict_mem keq k d = true <-> In k (dict_keys d).
Proof using keq_eq.
  unfold dict_mem. induction d as [|[k' v'] d IH]; simpl.
  - split; [discriminate | intros []].
  - destruct (keq k k') eqn:E.
    + apply keq_eq in E. subst. split; auto.
    + rewrite IH. split; [auto|].
      intros [H|H]; [|exact H]. subst. rewrite keq_refl in E. discriminate.
Qed.

Lemma dict_keys_set_mem (k : K) (v : V) (d : dict K V) :
  dict_mem keq k d = true -> dict_keys (dict_set keq k v d) = dict_keys d.
Proof using Type.
  unfold dict_mem. induction d as [|[k' v'] d IH]; simpl; [discriminate|].
  destruct (keq k k') eqn:E; simpl; [reflexivity|].
  intros H. f_equal. exact (IH H).
Qed.

Lemma dict_keys_set_new (k : K) (v : V) (d : dict K V) :
  dict_mem keq k d = false -> dict_keys (dict_set keq k v d) = dict_keys d ++ [k].
Proof using Type.
  unfold dict_mem. induction d as [|[k' v'] d IH]; simpl; [reflexivity|].
  destruct (keq k k') eqn:E; simpl; [discriminate|].
  intros H. f_equal. exact (IH H).
Qed.

Lemma In_keys_set (k k' : K) (v : V) (d : dict K V) :
  In k' (dict_keys (dict_set keq k v d)) <-> k' = k \/ In k' (dict_keys d).
Proof using keq_eq.
  destruct (dict_mem keq k d) eqn:E.
  - rewrite dict_keys_set_mem by exact E. apply dict_mem_In in E.
    split; [auto|]. intros [->|H]; assumption.
  - rewrite dict_keys_set_new by exact E. rewrite in_app_iff. simpl.
    split; [intros [H|[H|[]]]; auto | intros [H|H]; auto].
Qed.

(** Replacing a value by one of the same measure leaves the measures. *)
Lemma measures_set (W : Type) (m : V -> W) (k : K) (v v0 : V) (d : dict K V) :
  dict_get keq k d = Some v0 -> m v = m v0 ->
  map (fun kv => m (snd kv)) (dict_set keq k v d) = map (fun kv => m (snd kv)) d.
Proof using Type.
  intros Hget Hm. induction d as [|[k' v'] d IH]; simpl in *; [discriminate|].
  destruct (keq k k') eqn:E; simpl.
  - inversion Hget; subst. now rewrite Hm.
  - f_equal. exact (IH Hget).
Qed.

Lemma dict_item_Return (k : K) (d : dict K V) (v : V) :
  dict_item keq k d = Return v <-> dict_get keq k d = Some v.
Proof using Type.
  unfold dict_item. destruct (dict_get keq k d); simpl; split; congruence.
Qed.

Lemma dict_get_mem (k : K) (d : dict K V) (v : V) :
  dict_get keq k d = Some v -> dict_mem keq k d = true.
Proof using Type.
  unfold dict_mem. now intros ->.
Qed.
End DictFacts.

Lemma label_eqb_eq (a b : label) : label_eqb a b = true <-> a = b.
Proof.
  destruct a as [s|k c], b as [t|k' c']; simpl.
  - rewrite String.eqb_eq. split; congruence.
  - split; discriminate.
  - split; discriminate.
  - rewrite andb_true_iff, !String.eqb_eq. split; [intros [-> ->] | intros H; inversion H]; auto.
Qed.

Lemma named_get (c : string) (data : list (string * ndarray)) :
  dict_get label_eqb (Name c) (named data) = dict_get String.eqb c data.
Proof.
  induction data as [|[k v] d IH]; simpl; [reflexivity|].
  destruct (String.eqb c k); [reflexivity | exact IH].
Qed.

Lemma named_keys (data : list (string * ndarray)) :
  map fst (named data) = map Name (dict_keys data).
Proof.
  unfold named, dict_keys. rewrite !map_map. reflexivity.
Qed.

(** ** The acquisition table *)

Lemma collect_keys (parent : group) (names : list string)
    (data data' : list (string * ndarray)) (k : string) :
  collect parent names data = Return data' ->
  (In k (dict_keys data') <->
   In k (dict_keys data)
   \/ exists name, In name names /\ excluded name = false /\ k = column_of name).
Proof.
  revert data. induction names as [|n names IH]; intros data H; simpl in H.
  - inversion H; subst. split; [auto|]. intros [H0|(x & [] & _)]. exact H0.
  - destruct (excluded n) eqn:E.
    + rewrite (IH _ H). split.
      * intros [H0|(x & Hx & Hex & ->)]; [auto|]. right. exists x. simpl. auto.
      * intros [H0|(x & [<-|Hx] & Hex & ->)]; [auto | congruence |].
        right. exists x. auto.
    + apply bind_Return_inv in H. destruct H as (entry & _ & H).
      apply bind_Return_inv in H. destruct H as (d & _ & H).
      rewrite (IH _ H). rewrite (@In_keys_set _ _ _ String.eqb_eq). split.
      * intros [[->|H0]|(x & Hx & Hex & ->)]; [| auto |].
        -- right. exists n. simpl. auto.
        -- right. exists x. simpl. auto.
      * intros [H0|(x & [<-|Hx] & Hex & ->)]; [auto | auto |].
        right. exists x. auto.
Qed.

(** Every array gathered by the loop is the stored array of a kept data
    product. *)
Lemma collect_values (parent : group) (names : list string)
    (data data' : list (string * ndarray)) (k : string) (a : ndarray) :
  collect parent names data = Return data' ->
  dict_get String.eqb k data' = Some a ->
  dict_get String.eqb k data = Some a
  \/ exists name ts, In name names /\ excluded name = false /\ k = column_of name
                     /\ get_data_interface parent name = Return (TimeSeries a ts).
Proof.
  revert data. induction names as [|n names IH]; intros data H Hget; simpl in H.
  - inversion H; subst. auto.
  - destruct (excluded n) eqn:E.
    + destruct (IH _ H Hget) as [H0|(x & ts & Hx & Hex & -> & Hi)]; [auto|].
      right. exists x, ts. simpl. auto.
    + apply bind_Return_inv in H. destruct H as (entry & Hentry & H).
      apply bind_Return_inv in H. destruct H as (d & Hd & H).
      destruct (IH _ H Hget) as [H0|(x & ts & Hx & Hex & -> & Hi)].
      * destruct (String.eqb_spec k (column_of n)) as [->|Hne].
        -- rewrite (@dict_get_set_same _ _ _ String.eqb_eq) in H0. inversion H0; subst.
           right. destruct entry; try discriminate. simpl in Hd. inversion Hd; subst.
           exists n, timestamps. simpl. auto.
        -- rewrite (@dict_get_set_other _ _ _ String.eqb_eq) in H0 by exact Hne. auto.
      * right. exists x, ts. simpl. auto.
Qed.

Lemma convert_keys (conv : ndarray -> ndarray) (cols : list string)
    (data data' : list (string * ndarray)) :
  convert conv cols data = Return data' -> dict_keys data' = dict_keys data.
Proof.
  revert data. induction cols as [|c cols IH]; intros data H; simpl in H.
  - now inversion H.
  - apply bind_Return_inv in H. destruct H as (v & Hv & H).
    rewrite (IH _ H). apply dict_keys_set_mem.
    apply dict_item_Return in Hv. eapply dict_get_mem. exact Hv.
Qed.

Lemma convert_spec (conv : ndarray -> ndarray) (cols : list string)
    (data data' : list (string * ndarray)) :
  NoDup cols ->
  convert conv cols data = Return data' ->
  (forall c, In c cols ->
     exists a, dict_get String.eqb c data = Some a
               /\ dict_get String.eqb c data' = Some (conv a))
  /\ (forall c, ~ In c cols ->
        dict_get String.eqb c data' = dict_get String.eqb c data).
Proof.
  revert data. induction cols as [|c0 cols IH]; intros data Hnd H; simpl in H.
  - inversion H; subst. split; [intros c [] | reflexivity].
  - inversion Hnd as [|? ? Hnotin Hnd']; subst.
    apply bind_Return_inv in H. destruct H as (v & Hv & H).
    apply dict_item_Return in Hv.
    destruct (IH _ Hnd' H) as [Hin Hout]. split.
    + intros c [<-|Hc].
      * exists v. split; [exact Hv|].
        rewrite (Hout _ Hnotin). apply (@dict_get_set_same _ _ _ String.eqb_eq).
      * destruct (Hin _ Hc) as (a & Ha & Ha'). exists a. split; [|exact Ha'].
        rewrite (@dict_get_set_other _ _ _ String.eqb_eq) in Ha; [exact Ha|].
        intros ->. contradiction.
    + intros c Hc. rewrite Hout by (intros Hc'; apply Hc; now right).
      apply (@dict_get_set_other _ _ _ String.eqb_eq).
      intros ->. apply Hc. now left.
Qed.

Lemma convert_sizes (conv : ndarray -> ndarray) (cols : list string)
    (data data' : list (string * ndarray)) :
  (forall a, size (conv a) = size a) ->
  convert conv cols data = Return data' ->
  map (fun kv => size (snd kv)) data' = map (fun kv => size (snd kv)) data.
Proof.
  intros Hsz. revert data. induction cols as [|c cols IH]; intros data H; simpl in H.
  - now inversion H.
  - apply bind_Return_inv in H. destruct H as (v & Hv & H).
    apply dict_item_Return in Hv. rewrite (IH _ H).
    apply (@measures_set _ _ String.eqb nat size c (conv v) v data Hv (Hsz v)).
Qed.

Lemma convert_returns (conv : ndarray -> ndarray) (cols : list string)
    (data : list (string * ndarray)) :
  (forall c, In c cols -> In c (dict_keys data)) ->
  exists data', convert conv cols data = Return data'.
Proof.
  revert data. induction cols as [|c cols IH]; intros data H; simpl.
  - eauto.
  - assert (Hc : In c (dict_keys data)) by (apply H; now left).
    apply (@dict_mem_In _ _ _ String.eqb_eq) in Hc. unfold dict_mem in Hc.
    unfold dict_item. destruct (dict_get String.eqb c data) as [v|]; [|discriminate].
    simpl. apply IH. intros c' Hc'.
    apply (@In_keys_set _ _ _ String.eqb_eq). right. apply H. now right.
Qed.

Lemma size_gt0 (a : ndarray) : size (gt0 a) = size a.
Proof.
  destruct a; simpl; now rewrite !length_map.
Qed.

Lemma size_astype_int16 (a : ndarray) : size (astype_int16 a) = size a.
Proof.
  destruct a; simpl; now rewrite !length_map.
Qed.

Lemma same_sizes_measures (a b : list (label * ndarray)) :
  map (fun c => size (snd c)) a = map (fun c => size (snd c)) b ->
  same_sizes a = same_sizes b.
Proof.
  destruct a as [|[ka va] a], b as [|[kb vb] b]; simpl; try discriminate; [reflexivity|].
  intros H. inversion H as [[Hv Hrest]]. rewrite Hv. clear H Hv.
  revert b Hrest. induction a as [|x a IH]; intros [|y b] Hrest; simpl in *;
    try discriminate; [reflexivity|].
  inversion Hrest as [[Hx Hr]]. rewrite Hx. f_equal. exact (IH _ Hr).
Qed.

Lemma named_sizes (data : list (string * ndarray)) :
  map (fun c => size (snd c)) (named data) = map (fun kv => size (snd kv)) data.
Proof.
  unfold named. rewrite map_map. reflexivity.
Qed.

Lemma DataFrame_of_dict_Return (data : list (label * ndarray)) (df : DataFrame) :
  DataFrame_of_dict data = Return df -> same_sizes data = true /\ df = MkFrame data.
Proof.
  unfold DataFrame_of_dict. destruct (same_sizes data); [|discriminate].
  intros H. inversion H. auto.
Qed.

Lemma wrap16_range (z : Z) : (-32768 <= wrap16 z < 32768)%Z.
Proof.
  unfold wrap16. pose proof (Z.mod_pos_bound (z + 32768) 65536 eq_refl). lia.
Qed.

Lemma to_int16_range (x : scalar) : (-32768 <= to_int16 x < 32768)%Z.
Proof.
  destruct x as [[]|z|f]; simpl; try lia; try apply wrap16_range.
  destruct (SFtrunc f) as [z|]; [|apply wrap16_range].
  destruct (in_int16 z) eqn:E; [|apply wrap16_range].
  unfold in_int16 in E. apply andb_true_iff in E. lia.
Qed.

(** Membership in a longer literal list, from membership in a part. *)
Ltac in_part H :=
  simpl in H |- *; repeat (destruct H as [H|H]; [auto 8|]); destruct H.

(** A membership among distinct literals is absurd. *)
Ltac absurd_in H :=
  simpl in H; repeat (destruct H as [H|H]; [discriminate H|]); exact H.

Ltac not_in := let Hx := fresh "Hx" in intros Hx; absurd_in Hx.

Lemma read_acquisition_unfold (f : NWBFile) (downsampled isSensory : bool)
    (df : DataFrame) :
  read_acquisition f downsampled isSensory = Return df ->
  exists parent src data,
    acquisition_parent f downsampled = Return parent
    /\ collect parent (dict_keys parent) [] = Return src
    /\ (if isSensory then data = src
        else exists mid,
            convert gt0 ["reward"; "state_lever"; "tone"] src = Return mid
            /\ convert astype_int16 ["state_task"] mid = Return data)
    /\ same_sizes (named data) = true
    /\ df = MkFrame (named data).
Proof.
  unfold read_acquisition. intros H.
  apply bind_Return_inv in H. destruct H as (parent & Hp & H).
  apply bind_Return_inv in H. destruct H as (src & Hsrc & H).
  apply bind_Return_inv in H. destruct H as (data & Hdata & H).
  apply DataFrame_of_dict_Return in H. destruct H as [Hs ->].
  exists parent, src, data. repeat split; try assumption.
  destruct isSensory; simpl in Hdata.
  - now inversion Hdata.
  - apply bind_Return_inv in Hdata. destruct Hdata as (mid & Hmid & Hdata). eauto.
Qed.

(** C1 (as amended).  The columns of the table that [read_acquisition]
    returns are the identifiers of the kept names of the group, and nothing
    else.  The identifier of a name is the name in lower case, with every
    space and every hyphen turned into an underscore and every period
    removed, and with the occurrences of ["_ds"] then removed wherever they
    stand: the text is cut at occurrences of ["_ds"] and the pieces are put
    together.  It holds no space, period, hyphen or capital letter. *)
Theorem acquisition_column_identifiers
    (f : NWBFile) (downsampled isSensory : bool) (parent : group) (df : DataFrame) :
  acquisition_parent f downsampled = Return parent ->
  read_acquisition f downsampled isSensory = Return df ->
  (forall l, In l (map fst (columns df)) <->
             exists name, In name (dict_keys parent) /\ excluded name = false
                          /\ l = Name (column_of name))
  /\ (forall name, column_of name = Str.replace "_ds" "" (column_chars name))
  /\ (forall name, exists pieces,
        column_chars name = String.concat "_ds" pieces
        /\ column_of name = String.concat "" pieces)
  /\ (forall name c, In c (Str.chars (column_of name)) ->
        c <> " "%char /\ c <> "."%char /\ c <> "-"%char /\ is_upper c = false).
Proof.
  intros Hparent H.
  apply read_acquisition_unfold in H.
  destruct H as (parent' & src & data & Hp & Hsrc & Hdata & _ & ->).
  rewrite Hparent in Hp. inversion Hp; subst parent'. clear Hp.
  split; [|split; [exact column_of_chars | split; [|exact column_of_clean]]].
  2: { intros name. rewrite column_of_chars. apply replace_pieces. discriminate. }
  assert (Hkeys : dict_keys data = dict_keys src).
  { destruct isSensory.
    - now subst.
    - destruct Hdata as (mid & Hmid & Hdata).
      rewrite (convert_keys _ _ _ _ Hdata). exact (convert_keys _ _ _ _ Hmid). }
  intros l. simpl. rewrite named_keys, Hkeys, in_map_iff. split.
  - intros (k & <- & Hk).
    apply (collect_keys _ _ _ _ k Hsrc) in Hk.
    destruct Hk as [[]|(name & Hn & Hex & ->)]. eauto.
  - intros (name & Hn & Hex & ->). exists (column_of name). split; [reflexivity|].
    apply (collect_keys _ _ _ _ (column_of name) Hsrc). right. eauto.
Qed.

(** C4.  The table that [read_acquisition] returns for a non-sensory
    session holds, under 'reward', 'state_lever' and 'tone', booleans that
    are true exactly where the stored value is above zero, and under
    'state_task' the stored values cast to 16-bit signed integers; every
    other column is the stored array.  The stored arrays are those of the
    kept data products, and they are what a sensory session gets,
    unchanged. *)
Theorem acquisition_coercion (f : NWBFile) (downsampled : bool) (df : DataFrame) :
  read_acquisition f downsampled false = Return df ->
  exists parent src,
    acquisition_parent f downsampled = Return parent
    /\ source_data f downsampled = Return src
    /\ (forall c a, dict_get String.eqb c src = Some a ->
          exists name ts, In name (dict_keys parent) /\ excluded name = false
                          /\ c = column_of name
                          /\ get_data_interface parent name = Return (TimeSeries a ts))
    /\ (forall c, In c ["reward"; "state_lever"; "tone"] ->
          exists a, dict_get String.eqb c src = Some a
                    /\ column df (Name c) = Some (Bools (map positive (values a))))
    /\ (exists a, dict_get String.eqb "state_task" src = Some a
                  /\ column df (Name "state_task")
                     = Some (Ints Int16 (map to_int16 (values a)))
                  /\ Forall (fun z => (-32768 <= z < 32768)%Z)
                            (map to_int16 (values a)))
    /\ (forall c, ~ In c ["reward"; "state_lever"; "tone"; "state_task"] ->
          column df (Name c) = dict_get String.eqb c src)
    /\ read_acquisition f downsampled true = Return (MkFrame (named src)).
Proof.
  intros H. apply read_acquisition_unfold in H.
  destruct H as (parent & src & data & Hp & Hsrc & (mid & Hmid & Hdata) & Hs & ->).
  assert (Hnd3 : NoDup ["reward"; "state_lever"; "tone"]).
  { repeat constructor; not_in. }
  assert (Hnd1 : NoDup ["state_task"]).
  { repeat constructor; not_in. }
  destruct (@convert_spec _ _ _ _ Hnd3 Hmid) as [Hin3 Hout3].
  destruct (@convert_spec _ _ _ _ Hnd1 Hdata) as [Hin1 Hout1].
  exists parent, src. unfold source_data, column. cbn [columns].
  rewrite Hp. cbn [bind]. repeat split.
  - exact Hsrc.
  - intros c a Ha.
    destruct (@collect_values _ _ _ _ _ _ Hsrc Ha) as [Hnil|(name & ts & Hx)];
      [discriminate | eauto].
  - intros c Hc. destruct (Hin3 _ Hc) as (a & Ha & Ha'). exists a.
    split; [exact Ha|]. rewrite named_get, Hout1, Ha'; [reflexivity|].
    simpl. intros [<-|[]]. absurd_in Hc.
  - destruct (Hin1 "state_task" (or_introl eq_refl)) as (a & Ha & Ha').
    rewrite Hout3 in Ha by not_in.
    exists a. split; [exact Ha|]. split.
    + rewrite named_get. exact Ha'.
    + apply Forall_forall. intros z Hz. apply in_map_iff in Hz.
      destruct Hz as (x & <- & _). apply to_int16_range.
  - intros c Hc. rewrite named_get, Hout1, Hout3; [reflexivity| |];
      intros Hin; apply Hc; in_part Hin.
  - unfold read_acquisition. change (if downsampled
                                     then get_processing_module f "downsampled"
                                     else Return (acquisition f))
      with (acquisition_parent f downsampled).
    rewrite Hp. cbn [bind]. rewrite Hsrc. cbn [bind negb].
    unfold DataFrame_of_dict.
    rewrite (@same_sizes_measures (named src) (named data)), Hs; [reflexivity|].
    rewrite !named_sizes.
    rewrite (@convert_sizes _ _ _ _ size_astype_int16 Hdata).
    now rewrite (@convert_sizes _ _ _ _ size_gt0 Hmid).
Qed.

(** The coercion goes through whenever the four columns are there and
    the stored arrays have one length. *)
Lemma acquisition_coercion_returns (f : NWBFile) (downsampled : bool)
    (src : list (string * ndarray)) :
  source_data f downsampled = Return src ->
  same_sizes (named src) = true ->
  (forall c, In c ["reward"; "state_lever"; "tone"; "state_task"] ->
             In c (dict_keys src)) ->
  exists df, read_acquisition f downsampled false = Return df.
Proof.
  unfold source_data. intros Hsrc Hs Hcols.
  apply bind_Return_inv in Hsrc. destruct Hsrc as (parent & Hp & Hsrc).
  destruct (@convert_returns gt0 ["reward"; "state_lever"; "tone"] src)
    as (mid & Hmid).
  { intros c Hc. apply Hcols. in_part Hc. }
  destruct (@convert_returns astype_int16 ["state_task"] mid) as (data & Hdata).
  { intros c Hc. rewrite (@convert_keys _ _ _ _ Hmid). apply Hcols. in_part Hc. }
  exists (MkFrame (named data)).
  unfold read_acquisition. change (if downsampled
                                   then get_processing_module f "downsampled"
                                   else Return (acquisition f))
    with (acquisition_parent f downsampled).
  rewrite Hp. cbn [bind]. rewrite Hsrc. cbn [bind negb]. rewrite Hmid. cbn [bind].
  rewrite Hdata. cbn [bind]. unfold DataFrame_of_dict.
  rewrite (@same_sizes_measures (named data) (named src)), Hs; [reflexivity|].
  rewrite !named_sizes.
  rewrite (@convert_sizes _ _ _ _ size_astype_int16 Hdata).
  now rewrite (@convert_sizes _ _ _ _ size_gt0 Hmid).
Qed.

(** ** Loading a session *)

Lemma read_roi_dFF_missing (f : NWBFile) :
  roi_product f = None -> raises (read_roi_dFF f).
Proof.
  unfold roi_product, read_roi_dFF, get_processing_module, get_data_interface,
    dict_item.
  destruct (dict_get String.eqb "ophys" (processing f)) as [m|]; simpl;
    [|intros _; eexists; reflexivity].
  destruct (dict_get String.eqb "DfOverF" m) as [i|]; simpl;
    [|intros _; eexists; reflexivity].
  destruct i; simpl; try (intros _; eexists; reflexivity).
  unfold dict_item. intros ->. eexists; reflexivity.
Qed.

Lemma read_all_raises (f : NWBFile) (downsampled isResting isSensory : bool) :
  missing_required f downsampled isSensory ->
  raises (read_all f downsampled isResting isSensory).
Proof.
  intros H. unfold read_all.
  destruct H as [H|[(subj & Hs & Hd)|[H|[H|(-> & -> & H)]]]].
  - apply bind_raises_l. unfold read_metadata. rewrite H. eexists; reflexivity.
  - apply bind_raises_l. unfold read_metadata. rewrite Hs. cbn [of_option bind].
    rewrite Hd. eexists; reflexivity.
  - apply bind_raises_r; intros md. apply bind_raises_l.
    unfold read_timebases, get_acquisition, dict_item. rewrite H.
    eexists; reflexivity.
  - do 4 (apply bind_raises_r; intros ?).
    apply bind_raises_l. exact (read_roi_dFF_missing f H).
  - do 3 (apply bind_raises_r; intros ?).
    apply bind_raises_l. cbn [negb]. apply bind_raises_l.
    unfold read_acquisition, get_processing_module, dict_item. rewrite H.
    eexists; reflexivity.
Qed.

Lemma load_trace (fs : string -> option NWBFile) (path : string)
    (downsampled isResting isSensory : bool) :
  snd (load_from_file fs path downsampled isResting isSensory)
  = match fs path with
    | Some _ => [NwbOpen path; NwbClose path]
    | None => []
    end.
Proof.
  unfold load_from_file, io_bind, with_nwb.
  destruct (fs path) as [f|]; [|reflexivity].
  cbn [fst snd].
  destruct (read_all f downsampled isResting isSensory); reflexivity.
Qed.

Lemma load_result (fs : string -> option NWBFile) (path : string) (f : NWBFile)
    (downsampled isResting isSensory : bool) :
  fs path = Some f ->
  fst (load_from_file fs path downsampled isResting isSensory)
  = bind (read_all f downsampled isResting isSensory)
      (fun data =>
         if isResting then new_session NWBData_resting data
         else if isSensory then new_session NWBData_sensory data
         else new_session NWBData data).
Proof.
  intros Hf. unfold load_from_file, io_bind, with_nwb. rewrite Hf. cbn [fst snd].
  destruct (read_all f downsampled isResting isSensory); reflexivity.
Qed.

Lemma load_closes (fs : string -> option NWBFile) (path : string)
    (downsampled isResting isSensory : bool) :
  open_handles (snd (load_from_file fs path downsampled isResting isSensory)) [] = [].
Proof.
  rewrite load_trace. destruct (fs path); [|reflexivity].
  simpl. now rewrite String.eqb_refl.
Qed.

(** C5.  When the container lacks a required data product, such as the ROI
    fluorescence product, [load_from_file] raises, so that no record comes
    back, and the container that was opened is closed again; after any
    call, whatever its outcome, no container is left open. *)
Theorem load_missing_required
    (fs : string -> option NWBFile) (path : string) (f : NWBFile)
    (downsampled isResting isSensory : bool) :
  fs path = Some f ->
  missing_required f downsampled isSensory ->
  raises (fst (load_from_file fs path downsampled isResting isSensory))
  /\ snd (load_from_file fs path downsampled isResting isSensory)
     = [NwbOpen path; NwbClose path]
  /\ (forall fs' path' downsampled' isResting' isSensory',
        open_handles
          (snd (load_from_file fs' path' downsampled' isResting' isSensory')) []
        = []).
Proof.
  intros Hf Hroi. split; [|split].
  - rewrite (load_result _ _ _ _ _ _ Hf).
    apply bind_raises_l, read_all_raises, Hroi.
  - rewrite load_trace, Hf. reflexivity.
  - intros. apply load_closes.
Qed.

Lemma read_all_both_flags (f : NWBFile) (downsampled : bool)
    (data : list (string * pyval)) :
  read_all f downsampled true true = Return data ->
  dict_keys data = ["metadata"; "timebase"; "rois"; "roi_description"].
Proof.
  unfold read_all. intros H.
  apply bind_Return_inv in H. destruct H as (md & _ & H).
  apply bind_Return_inv in H. destruct H as (tb & _ & H).
  cbn [negb bind] in H.
  apply bind_Return_inv in H. destruct H as (roi & _ & H).
  inversion H. reflexivity.
Qed.

Lemma new_session_missing (sh : shape) (data : list (string * pyval)) (fld : string) :
  In fld (field_names sh) -> ~ In fld (dict_keys data) ->
  new_session sh data = Raise TypeError.
Proof.
  intros Hin Hnot. unfold new_session.
  destruct (forallb (fun k => existsb (String.eqb k) (field_names sh)) (dict_keys data));
    [|reflexivity].
  destruct (forallb (fun f => dict_mem String.eqb f data) (field_names sh)) eqn:E;
    [|reflexivity].
  rewrite forallb_forall in E. specialize (E _ Hin).
  apply (@dict_mem_In _ _ _ String.eqb_eq) in E. contradiction.
Qed.

(** C10.  With both flags set [load_from_file] raises: when the reading
    itself goes through, the fields read are 'metadata', 'timebase', 'rois'
    and 'roi_description' only, the resting-state record is the one that is
    built, and it is refused for its missing fields.  So a load that
    returns a record was not given both flags. *)
Theorem load_resting_and_sensory
    (fs : string -> option NWBFile) (path : string) (downsampled : bool) :
  raises (fst (load_from_file fs path downsampled true true))
  /\ (forall f data,
        fs path = Some f ->
        read_all f downsampled true true = Return data ->
        dict_keys data = ["metadata"; "timebase"; "rois"; "roi_description"]
        /\ fst (load_from_file fs path downsampled true true)
           = new_session NWBData_resting data
        /\ new_session NWBData_resting data = Raise TypeError)
  /\ (forall isResting isSensory record,
        fst (load_from_file fs path downsampled isResting isSensory) = Return record ->
        isResting && isSensory = false).
Proof.
  assert (Hboth : forall f data,
             fs path = Some f ->
             read_all f downsampled true true = Return data ->
             dict_keys data = ["metadata"; "timebase"; "rois"; "roi_description"]
             /\ fst (load_from_file fs path downsampled true true)
                = new_session NWBData_resting data
             /\ new_session NWBData_resting data = Raise TypeError).
  { intros f data Hf Hdata. pose proof (read_all_both_flags _ _ _ Hdata) as Hkeys.
    split; [exact Hkeys|]. split.
    - rewrite (load_result _ _ _ _ _ _ Hf), Hdata. reflexivity.
    - apply new_session_missing with (fld := "daq").
      + simpl. auto.
      + rewrite Hkeys. not_in. }
  assert (Hraises : raises (fst (load_from_file fs path downsampled true true))).
  { destruct (fs path) as [f|] eqn:Hf.
    - destruct (read_all f downsampled true true) as [data|e] eqn:Hdata.
      + destruct (Hboth _ _ eq_refl Hdata) as (_ & -> & ->). eexists; reflexivity.
      + rewrite (load_result _ _ _ _ _ _ Hf), Hdata. eexists; reflexivity.
    - unfold load_from_file, io_bind, with_nwb. rewrite Hf. eexists; reflexivity. }
  split; [exact Hraises|]. split; [exact Hboth|].
  intros [] [] record H; try reflexivity.
  exfalso. exact (raises_not_Return _ record Hraises H).
Qed.

(** ** Video tracking *)

Lemma views_cases (view : string) :
  In view views -> view = "body" \/ view = "face" \/ view = "eye" \/ view = "pupil".
Proof.
  unfold views. simpl. intros H.
  repeat (destruct H as [H|H]; [subst; auto 8|]). destruct H.
Qed.

Lemma behavior_parent_module (f : NWBFile) (downsampled : bool) :
  behavior_parent f downsampled
  = dict_item String.eqb (module_name downsampled) (processing f).
Proof.
  destruct downsampled; reflexivity.
Qed.

(** C8 (as amended).  For a view among body, face, eye and pupil,
    [read_video_tracking] returns [None] when the processing module it
    reads ('downsampled', or 'behavior' for raw data) is there and does not
    hold the data product of the view; when that module itself is missing
    it raises a [KeyError].  For any other view it raises a [ValueError],
    whatever the container holds. *)
Theorem video_tracking_absent (f : NWBFile) (view : string) (downsampled : bool) :
  (In view views ->
   forall parent,
     dict_get String.eqb (module_name downsampled) (processing f) = Some parent ->
     dict_mem String.eqb (product_name view) parent = false ->
     read_video_tracking f view downsampled = Return None)
  /\ (In view views ->
      dict_get String.eqb (module_name downsampled) (processing f) = None ->
      read_video_tracking f view downsampled = Raise KeyError)
  /\ (~ In view views ->
      forall f' downsampled', read_video_tracking f' view downsampled' = Raise ValueError).
Proof.
  split; [|split].
  - intros Hv parent Hparent Hmem.
    apply views_cases in Hv.
    destruct Hv as [-> | [-> | [-> | ->]]]; unfold read_video_tracking;
      cbn [existsb String.eqb Ascii.eqb Bool.eqb orb];
      rewrite behavior_parent_module; unfold dict_item; rewrite Hparent;
      cbn [of_option bind]; unfold product_name in Hmem; simpl in Hmem;
      simpl; rewrite Hmem; reflexivity.
  - intros Hv Hparent.
    apply views_cases in Hv.
    destruct Hv as [-> | [-> | [-> | ->]]]; unfold read_video_tracking;
      cbn [existsb String.eqb Ascii.eqb Bool.eqb orb];
      rewrite behavior_parent_module; unfold dict_item; rewrite Hparent;
      reflexivity.
  - intros Hv f' downsampled'. unfold read_video_tracking, views in *.
    simpl in Hv. cbn [existsb].
    destruct (String.eqb_spec view "body") as [->|_]; [exfalso; apply Hv; auto 8|].
    destruct (String.eqb_spec view "face") as [->|_]; [exfalso; apply Hv; auto 8|].
    destruct (String.eqb_spec view "eye") as [->|_]; [exfalso; apply Hv; auto 8|].
    destruct (String.eqb_spec view "pupil") as [->|_]; [exfalso; apply Hv; auto 8|].
    reflexivity.
Qed.

(** ** Statistics *)

Lemma stat_summary_absent (s : session) (df_name nwb_path : string) (verbose : bool) :
  getattr s df_name = Return VNone ->
  stat_summary s df_name nwb_path verbose
  = (Return None,
     if verbose
     then [Print ("***no " ++ df_name ++ " found in " ++ nwb_path)%string; Print ""]
     else []).
Proof.
  intros H. unfold stat_summary, io_bind, io_lift. rewrite H. cbn [fst snd].
  destruct verbose; reflexivity.
Qed.

(** C9.  When the field of the record is [None], [stat_summary] returns
    [None]; it does not raise, and all it does is to log the absence when
    asked to be verbose. *)
Theorem stat_summary_none (s : session) (df_name nwb_path : string) (verbose : bool) :
  getattr s df_name = Return VNone ->
  fst (stat_summary s df_name nwb_path verbose) = Return None
  /\ snd (stat_summary s df_name nwb_path verbose)
     = if verbose
       then [Print ("***no " ++ df_name ++ " found in " ++ nwb_path)%string; Print ""]
       else [].
Proof.
  intros H. rewrite (stat_summary_absent s df_name nwb_path verbose H).
  split; reflexivity.
Qed.

Lemma filter_all {A : Type} (p : A -> bool) (l : list A) :
  forallb p l = true -> filter p l = l.
Proof.
  induction l as [|x l IH]; simpl; [reflexivity|].
  destruct (p x); simpl; [|discriminate]. intros H. f_equal. exact (IH H).
Qed.

Lemma filter_same_length {A : Type} (p : A -> bool) (l : list A) :
  length (filter p l) = length l -> filter p l = l.
Proof.
  induction l as [|x l IH]; simpl; [reflexivity|].
  destruct (p x); simpl; intros H.
  - f_equal. apply IH. lia.
  - pose proof (filter_length_le p l). lia.
Qed.

Lemma labels_eqb_true (xs ys : list label) : labels_eqb xs ys = true -> xs = ys.
Proof.
  revert ys. induction xs as [|x xs IH]; intros [|y ys]; simpl; try discriminate;
    [reflexivity|].
  intros H. apply andb_true_iff in H. destruct H as [Hx Hr].
  apply label_eqb_eq in Hx. subst. f_equal. exact (IH _ Hr).
Qed.

Lemma labels_eqb_refl (xs : list label) : labels_eqb xs xs = true.
Proof.
  induction xs as [|x xs IH]; simpl; [reflexivity|].
  rewrite IH, andb_true_r. now apply label_eqb_eq.
Qed.

Lemma nodup_get (h : label * ndarray -> scalar) (cols : list (label * ndarray))
    (c : label * ndarray) :
  nodup_labels (map fst cols) = true -> In c cols ->
  dict_get label_eqb (fst c) (map (fun x => (fst x, h x)) cols) = Some (h c).
Proof.
  induction cols as [|x cols IH]; simpl; [intros _ []|].
  intros Hnd Hin. apply andb_true_iff in Hnd. destruct Hnd as [Hx Hnd].
  destruct Hin as [->|Hin].
  - now rewrite (proj2 (label_eqb_eq (fst c) (fst c)) eq_refl).
  - destruct (label_eqb (fst c) (fst x)) eqn:E; [|exact (IH Hnd Hin)].
    apply label_eqb_eq in E. exfalso.
    apply negb_true_iff in Hx.
    assert (Hex : existsb (label_eqb (fst x)) (map fst cols) = true).
    { apply existsb_exists. exists (fst c). split.
      - apply in_map. exact Hin.
      - apply label_eqb_eq. now symmetry. }
    congruence.
Qed.

Lemma combine_maps {A B C : Type} (g : A -> B) (h : A -> C) (l : list A) :
  combine (map g l) (map h l) = map (fun x => (g x, h x)) l.
Proof.
  induction l as [|x l IH]; simpl; [reflexivity | now rewrite IH].
Qed.

Lemma describe_T_numeric (tab : DataFrame) :
  numeric_columns tab <> [] ->
  describe_T tab
  = Return (MkStats numeric_stats
              (map (describe_column numeric_stats) (numeric_columns tab))).
Proof.
  unfold describe_T, numeric_columns. intros H.
  destruct (columns tab) as [|c cols]; [contradiction|].
  destruct (filter (fun c0 => is_numeric (snd c0)) (c :: cols)); [contradiction|].
  reflexivity.
Qed.

Lemma select_described (l : list (label * ndarray)) :
  select_columns ["mean"; "std"; "min"; "max"]
    (MkStats numeric_stats (map (describe_column numeric_stats) l))
  = Return (MkStats ["mean"; "std"; "min"; "max"]
              (map (fun c => (fst c,
                              [reduce "mean" (dropna (snd c));
                               reduce "std" (dropna (snd c));
                               reduce "min" (dropna (snd c));
                               reduce "max" (dropna (snd c))])) l)).
Proof.
  unfold select_columns. cbn [stat_columns stat_rows]. simpl positions.
  cbv iota beta. rewrite map_map. reflexivity.
Qed.

Lemma set_column_isna (tab : DataFrame) (names : list string)
    (g : label * ndarray -> list scalar) :
  forallb (fun c => is_numeric (snd c)) (columns tab) = true
  \/ nodup_labels (map fst (columns tab)) = true ->
  set_column "nan_count" (isna_sum tab)
    (MkStats names (map (fun c => (fst c, g c)) (numeric_columns tab)))
  = Return (MkStats (names ++ ["nan_count"])
              (map (fun c => (fst c, g c ++ [SInt (Z.of_nat (nan_count (snd c)))]))
                   (numeric_columns tab))).
Proof.
  intros Hcols. unfold set_column, stat_index, isna_sum, numeric_columns.
  cbn [stat_rows stat_columns]. rewrite !map_map. cbn [fst snd].
  set (numeric := fun c : label * ndarray => is_numeric (snd c)).
  set (cols := columns tab) in *.
  assert (Hsame : filter numeric cols = cols ->
                  labels_eqb (map fst cols) (map fst (filter numeric cols)) = true).
  { intros ->. apply labels_eqb_refl. }
  destruct (labels_eqb (map fst cols) (map fst (filter numeric cols))) eqn:E.
  - apply labels_eqb_true in E.
    assert (Hall : filter numeric cols = cols).
    { apply filter_same_length. apply (f_equal (@length label)) in E.
      rewrite !length_map in E. now symmetry. }
    rewrite Hall. do 2 f_equal.
    rewrite (combine_maps (fun c => (fst c, g c))
               (fun c => (fst c, SInt (Z.of_nat (nan_count (snd c))))) cols).
    rewrite map_map. reflexivity.
  - destruct Hcols as [Hall|Hnd].
    + specialize (Hsame (filter_all numeric cols Hall)). discriminate.
    + change (map (fun x : label * ndarray => fst x) cols) with (map fst cols).
      rewrite Hnd. do 2 f_equal. apply map_ext_in. intros c Hc.
      apply filter_In in Hc. destruct Hc as [Hc _].
      pose proof (nodup_get (fun x => SInt (Z.of_nat (nan_count (snd x))))
                    cols c Hnd Hc) as Hget.
      cbv beta in Hget. cbn [fst snd]. rewrite Hget. reflexivity.
Qed.

(** C6 (as amended).  For a table field that has a numeric column, and
    whose columns are all numeric or carry distinct labels, [stat_summary]
    returns a table with the columns mean, std, min, max and nan_count and
    with one row per numeric column of the field, in order; a boolean
    column gets no row.  In the row of a column, nan_count is the number of
    its missing elements and the four statistics are taken over its
    non-missing elements. *)
Theorem stat_summary_table
    (s : session) (df_name nwb_path : string) (verbose : bool) (tab : DataFrame) :
  getattr s df_name = Return (VFrame tab) ->
  numeric_columns tab <> [] ->
  forallb (fun c => is_numeric (snd c)) (columns tab) = true
  \/ nodup_labels (map fst (columns tab)) = true ->
  exists summary,
    fst (stat_summary s df_name nwb_path verbose) = Return (Some summary)
    /\ stat_columns summary = ["mean"; "std"; "min"; "max"; "nan_count"]
    /\ stat_rows summary = map summary_row (numeric_columns tab)
    /\ (forall c k, In c (numeric_columns tab) ->
          length (filter is_nan (values (snd c))) = k ->
          nth 4 (snd (summary_row c)) (SInt 0) = SInt (Z.of_nat k)).
Proof.
  intros Hget Hnum Hcols.
  exists (MkStats ["mean"; "std"; "min"; "max"; "nan_count"]
            (map summary_row (numeric_columns tab))).
  split; [|split; [reflexivity | split; [reflexivity|]]].
  - unfold stat_summary, io_bind, io_lift. rewrite Hget. cbn [fst snd].
    rewrite (describe_T_numeric tab Hnum). cbn [fst snd].
    rewrite select_described. cbn [fst snd].
    rewrite (set_column_isna tab _ _ Hcols). cbn [fst snd].
    destruct verbose; reflexivity.
  - intros c k _ <-. reflexivity.
Qed.

(** ** The pattern matcher *)

Lemma lit_rests_app (l rest : string) : Re.lit_rests l (l ++ rest) = [rest].
Proof.
  unfold Re.lit_rests. now rewrite prefix_app, drop_app.
Qed.

Lemma lit_rests_sound (l s rest : string) :
  In rest (Re.lit_rests l s) -> s = (l ++ rest)%string.
Proof.
  unfold Re.lit_rests. destruct (prefix l s) eqn:E; [|intros []].
  intros [<-|[]]. exact (prefix_drop _ _ E).
Qed.

Lemma plus_rests_complete (cls : ascii -> bool) (w rest : string) :
  w <> EmptyString ->
  Forall (fun c => cls c = true) (list_ascii_of_string w) ->
  In rest (Re.plus_rests cls (w ++ rest)).
Proof.
  induction w as [|c w IH]; intros Hne Hall; [contradiction|].
  simpl in *. inversion Hall as [|? ? Hc Hrest]; subst. rewrite Hc.
  apply in_or_app. destruct w as [|d w].
  - right. simpl. auto.
  - left. apply IH; [discriminate | exact Hrest].
Qed.

Lemma plus_rests_sound (cls : ascii -> bool) (s rest : string) :
  In rest (Re.plus_rests cls s) ->
  exists w, s = (w ++ rest)%string /\ w <> EmptyString
            /\ Forall (fun c => cls c = true) (list_ascii_of_string w).
Proof.
  induction s as [|c s IH]; simpl; [intros []|].
  destruct (cls c) eqn:Hc; [|intros []].
  intros H. apply in_app_or in H. destruct H as [H|[<-|[]]].
  - destruct (IH H) as (w & -> & Hne & Hall).
    exists (String c w). repeat split; [discriminate|]. simpl. now constructor.
  - exists (String c EmptyString). repeat split; [discriminate|].
    simpl. constructor; [exact Hc | constructor].
Qed.

(** Every word of the pattern at the start of a text is found. *)
Lemma run_complete (r : Re.regex) (w rest : string) :
  Re.lang r w -> exists gs, In (gs, rest) (Re.run r (w ++ rest)).
Proof.
  revert w rest. induction r as [l|cls|alts|r IH|r1 IH1 r2 IH2]; intros w rest H;
    simpl in H.
  - subst. exists []. simpl. rewrite lit_rests_app. simpl. auto.
  - destruct H as [Hne Hall]. exists []. simpl.
    apply in_map_iff. exists rest. split; [reflexivity|].
    now apply plus_rests_complete.
  - exists []. simpl. apply in_map_iff. exists rest. split; [reflexivity|].
    apply in_flat_map. exists w. split; [exact H|].
    rewrite lit_rests_app. simpl. auto.
  - destruct (IH w rest H) as (gs & Hgs). simpl.
    eexists. apply in_map_iff. exists (gs, rest). split; [reflexivity | exact Hgs].
  - destruct H as (u & v & -> & Hu & Hv).
    destruct (IH1 u (v ++ rest)%string Hu) as (g1 & Hg1).
    destruct (IH2 v rest Hv) as (g2 & Hg2).
    exists (g1 ++ g2). simpl. rewrite app_assoc_str.
    apply in_flat_map. exists (g1, (v ++ rest)%string). split; [exact Hg1|].
    apply in_map_iff. exists (g2, rest). split; [reflexivity | exact Hg2].
Qed.

(** Everything found is a word of the pattern at the start of the text. *)
Lemma run_sound (r : Re.regex) (s : string) (gs : list string) (rest : string) :
  In (gs, rest) (Re.run r s) -> exists w, s = (w ++ rest)%string /\ Re.lang r w.
Proof.
  revert s gs rest.
  induction r as [l|cls|alts|r IH|r1 IH1 r2 IH2]; intros s gs rest H; simpl in H.
  - apply in_map_iff in H. destruct H as (x & Hx & Hin). inversion Hx; subst.
    exists l. split; [exact (lit_rests_sound _ _ _ Hin) | reflexivity].
  - apply in_map_iff in H. destruct H as (x & Hx & Hin). inversion Hx; subst.
    destruct (plus_rests_sound _ _ _ Hin) as (w & Hw & Hne & Hall).
    exists w. simpl. auto.
  - apply in_map_iff in H. destruct H as (x & Hx & Hin). inversion Hx; subst.
    apply in_flat_map in Hin. destruct Hin as (a & Ha & Hin).
    exists a. split; [exact (lit_rests_sound _ _ _ Hin) | exact Ha].
  - apply in_map_iff in H. destruct H as ([g x] & Hx & Hin). inversion Hx; subst.
    destruct (IH _ _ _ Hin) as (w & Hw & Hl). exists w. auto.
  - apply in_flat_map in H. destruct H as ([g1 mid] & H1 & H2).
    apply in_map_iff in H2. destruct H2 as ([g2 x] & Hx & H2). inversion Hx; subst.
    destruct (IH1 _ _ _ H1) as (u & -> & Hu).
    destruct (IH2 _ _ _ H2) as (v & Hv & Hl). simpl in Hv. subst mid.
    exists (u ++ v)%string. split; [now rewrite app_assoc_str|].
    simpl. exists u, v. auto.
Qed.

Lemma lang_file_matcher (w : string) :
  Re.lang file_matcher w <->
  exists subj date ty day,
    w = (subj ++ "_" ++ date ++ "_" ++ ty ++ "-day" ++ day)%string
    /\ word subject_char subj /\ word date_char date
    /\ In ty type_indexer /\ word Re.is_digit day.
Proof.
  unfold file_matcher, word, type_indexer. cbn [Re.lang]. split.
  - intros (subj & v1 & -> & Hsubj & u2 & v2 & -> & -> & date & v3 & -> & Hdate
            & u4 & v4 & -> & -> & ty & v5 & -> & Hty & u6 & day & -> & -> & Hday).
    exists subj, date, ty, day. auto.
  - intros (subj & date & ty & day & -> & Hsubj & Hdate & Hty & Hday).
    exists subj. eexists. split; [reflexivity|]. split; [exact Hsubj|].
    exists "_". eexists. split; [reflexivity|]. split; [reflexivity|].
    exists date. eexists. split; [reflexivity|]. split; [exact Hdate|].
    exists "_". eexists. split; [reflexivity|]. split; [reflexivity|].
    exists ty. eexists. split; [reflexivity|]. split; [exact Hty|].
    exists "-day", day. auto.
Qed.

(** The matcher finds a match exactly on the stems that follow the
    convention. *)
Lemma re_match_convention (st : string) :
  Re.re_match file_matcher st = None <-> ~ starts_as_convention st.
Proof.
  unfold Re.re_match, starts_as_convention. split.
  - intros H (subj & date & ty & day & rest & -> & Hw).
    assert (Hl : Re.lang file_matcher
                   (subj ++ "_" ++ date ++ "_" ++ ty ++ "-day" ++ day)%string).
    { apply lang_file_matcher. exists subj, date, ty, day. auto. }
    destruct (run_complete _ _ rest Hl) as (gs & Hin).
    repeat (rewrite app_assoc_str in Hin; cbn [append] in Hin).
    destruct (Re.run file_matcher _); [destruct Hin | discriminate].
  - intros H. destruct (Re.run file_matcher st) as [|[gs rest] ms] eqn:E;
      [reflexivity|].
    exfalso. apply H.
    destruct (run_sound file_matcher st gs rest) as (w & -> & Hl).
    { rewrite E. now left. }
    apply lang_file_matcher in Hl.
    destruct Hl as (subj & date & ty & day & -> & Hw).
    exists subj, date, ty, day, rest. split; [|exact Hw].
    repeat (rewrite app_assoc_str; cbn [append]). reflexivity.
Qed.

Lemma last_char_app (a b : string) :
  b <> EmptyString -> last_char (a ++ b) = last_char b.
Proof.
  intros Hb. induction a as [|c a IH]; simpl; [reflexivity|].
  rewrite IH. destruct b as [|d b]; [contradiction|].
  simpl. destruct (last_char b); reflexivity.
Qed.

Lemma last_char_word (cls : ascii -> bool) (w : string) :
  word cls w -> exists c, last_char w = Some c /\ cls c = true.
Proof.
  intros [Hne Hall]. induction w as [|c w IH]; [contradiction|].
  simpl in Hall. inversion Hall as [|? ? Hc Hrest]; subst.
  destruct w as [|d w].
  - exists c. simpl. auto.
  - destruct IH as (e & He & Hcls); [discriminate | exact Hrest |].
    exists e. split; [|exact Hcls].
    change (last_char (String c (String d w)))
      with (match last_char (String d w) with Some x => Some x | None => Some c end).
    now rewrite He.
Qed.

(** A stem that follows the convention ends with a digit. *)
Lemma convention_ends_with_digit (st : string) :
  follows_convention st ->
  exists c, last_char st = Some c /\ Re.is_digit c = true.
Proof.
  intros (subj & date & ty & day & -> & _ & _ & _ & Hday).
  destruct (last_char_word _ _ Hday) as (c & Hc & Hd). exists c. split; [|exact Hd].
  assert (Hne : day <> EmptyString) by exact (proj1 Hday).
  assert (Hne' : forall a : string, (a ++ day)%string <> EmptyString).
  { intros a H. destruct a; [contradiction | discriminate]. }
  repeat (rewrite last_char_app;
          [|first [exact Hne | apply Hne' | discriminate
                   | intros H; destruct date; discriminate
                   | intros H; destruct ty; discriminate]]).
  exact Hc.
Qed.

(** C7 (as amended).  The two names of the specification are indexed as it
    says, and a name whose stem does not start as the convention says
    raises; what follows the day number in the stem is not looked at. *)
Theorem file_indexer_cases :
  nwb_file_indexer "mouse01_2021-01-05_task-day3.ext"
  = Return ("mouse01", "2021-01-05", 0, 3%N)
  /\ nwb_file_indexer "mouse01_2021-01-05_resting-state-day1.ext"
     = Return ("mouse01", "2021-01-05", 1, 1%N)
  /\ (forall name, ~ starts_as_convention (stem name) ->
        nwb_file_indexer name = Raise ValueError).
Proof.
  split; [vm_compute; reflexivity|]. split; [vm_compute; reflexivity|].
  intros name H. unfold nwb_file_indexer.
  apply re_match_convention in H. now rewrite H.
Qed.

(** ** Computations with events *)

Lemma io_bind_fst {A B : Type} (m : io A) (k : A -> io B) :
  fst (io_bind m k)
  = match fst m with
    | Return a => fst (k a)
    | Raise e => Raise e
    end.
Proof.
  unfold io_bind. destruct (fst m); reflexivity.
Qed.

Lemma io_bind_snd {A B : Type} (m : io A) (k : A -> io B) :
  snd (io_bind m k)
  = match fst m with
    | Return a => snd m ++ snd (k a)
    | Raise e => snd m
    end.
Proof.
  unfold io_bind. destruct (fst m); reflexivity.
Qed.

(** ** The text summary *)

Lemma write_summaries_none (s : session) (nwb_path out df_name : string)
    (rest : list string) :
  getattr s df_name = Return VNone ->
  fst (write_summaries s nwb_path out (df_name :: rest)) = Raise AttributeError.
Proof.
  intros H. cbn [write_summaries].
  rewrite io_bind_fst, (stat_summary_absent s df_name nwb_path true H).
  cbn [fst]. rewrite io_bind_fst. cbn [emit fst].
  rewrite io_bind_fst. reflexivity.
Qed.

(** A listed field that is [None] makes the loop raise: the summary comes
    back as [None] and the loop asks it for its text. *)
Lemma write_summaries_raises (s : session) (nwb_path out : string)
    (df_names : list string) :
  (exists n, In n df_names /\ getattr s n = Return VNone) ->
  raises (fst (write_summaries s nwb_path out df_names)).
Proof.
  induction df_names as [|n0 rest IH]; intros (n & Hin & Hn); [destruct Hin|].
  destruct Hin as [->|Hin].
  - rewrite (write_summaries_none s nwb_path out n rest Hn). eexists; reflexivity.
  - cbn [write_summaries]. rewrite io_bind_fst.
    destruct (fst (stat_summary s n0 nwb_path true)) as [[t|]|e];
      [| |eexists; reflexivity].
    + rewrite io_bind_fst. cbn [emit fst]. rewrite io_bind_fst. cbn [io_lift fst].
      rewrite io_bind_fst. cbn [emit fst]. apply IH. eauto.
    + rewrite io_bind_fst. cbn [emit fst]. rewrite io_bind_fst. cbn [io_lift fst].
      eexists; reflexivity.
Qed.

Lemma sanity_check_raises_on_none
    (fs : string -> option NWBFile) (nwb_path : string) (out : option string)
    (isResting : bool) (s : session) :
  fst (load_from_file fs nwb_path true isResting false) = Return s ->
  (exists n, In n ["rois"; "daq"; "body_video_tracking"; "face_video_tracking";
                   "eye_video_tracking"; "pupil_tracking"]
             /\ getattr s n = Return VNone) ->
  raises (fst (sanity_check_nwb fs nwb_path out isResting false)).
Proof.
  intros Hload Hnone. unfold sanity_check_nwb.
  destruct (fs nwb_path); [|eexists; reflexivity].
  rewrite io_bind_fst, Hload. unfold with_txt. cbn [fst].
  apply write_summaries_raises. exact Hnone.
Qed.

(** ** The comparison plots *)

Lemma stat_summary_quiet (s : session) (df_name nwb_path : string) :
  snd (stat_summary s df_name nwb_path false) = [].
Proof.
  unfold stat_summary. rewrite io_bind_snd. cbn [io_lift fst snd].
  destruct (getattr s df_name) as [[| | | |tab|]|]; try reflexivity.
  cbn [app]. rewrite io_bind_snd. cbn [io_lift fst snd].
  destruct (describe_T tab) as [d|]; [|reflexivity].
  cbn [app]. rewrite io_bind_snd. cbn [io_lift fst snd].
  destruct (select_columns _ d) as [d'|]; [|reflexivity].
  cbn [app]. rewrite io_bind_snd. cbn [io_lift fst snd].
  destruct (set_column _ _ d') as [d''|]; reflexivity.
Qed.

Lemma stat_summary_has_field (s : session) (df_name nwb_path : string) :
  match fst (stat_summary s df_name nwb_path false) with
  | Return (Some _) => has_field df_name s = true
  | Return None => has_field df_name s = false
  | Raise _ => True
  end.
Proof.
  unfold stat_summary, has_field. rewrite io_bind_fst. cbn [io_lift fst].
  destruct (getattr s df_name) as [[| | | |tab|]|]; try exact I; try reflexivity.
  rewrite io_bind_fst. cbn [io_lift fst].
  destruct (describe_T tab) as [d|]; [|exact I].
  rewrite io_bind_fst. cbn [io_lift fst].
  destruct (select_columns _ d) as [d'|]; [|exact I].
  rewrite io_bind_fst. cbn [io_lift fst].
  destruct (set_column _ _ d') as [d''|]; [|exact I]. reflexivity.
Qed.

Lemma gather_spec (sessions : list session) (df_name : string) (idxs : list nat) :
  forall summarys rows summarys' rows',
    fst (gather idxs sessions df_name summarys rows) = Return (summarys', rows') ->
    Forall (fun o => o <> None) summarys ->
    Forall (fun o => o <> None) summarys'
    /\ length summarys'
       = length summarys + length (present df_name sessions idxs).
Proof.
  induction idxs as [|i rest IH]; intros summarys rows summarys' rows' H Hall.
  - cbn in H. inversion H; subst. split; [exact Hall | simpl; lia].
  - cbn [gather] in H. rewrite io_bind_fst in H. cbn [io_lift fst] in H.
    unfold present. cbn [filter].
    destruct (nth_error sessions i) as [s|]; cbn [of_option] in H; [|discriminate].
    rewrite io_bind_fst in H.
    pose proof (stat_summary_has_field s df_name "None") as Hf.
    destruct (fst (stat_summary s df_name "None" false)) as [[t|]|e];
      [| |discriminate]; rewrite Hf.
    + apply IH in H.
      * destruct H as [H1 H2]. split; [exact H1|].
        rewrite H2, length_app. unfold present. simpl. lia.
      * apply Forall_app. split; [exact Hall|]. constructor; [discriminate|constructor].
    + apply IH in H; [|exact Hall]. exact H.
Qed.

Lemma gather_quiet (sessions : list session) (df_name : string) (idxs : list nat) :
  forall summarys rows, snd (gather idxs sessions df_name summarys rows) = [].
Proof.
  induction idxs as [|i rest IH]; intros summarys rows; [reflexivity|].
  cbn [gather]. rewrite io_bind_snd. cbn [io_lift fst snd].
  destruct (nth_error sessions i) as [s|]; cbn [of_option]; [|reflexivity].
  cbn [app]. rewrite io_bind_snd, stat_summary_quiet.
  destruct (fst (stat_summary s df_name "None" false)) as [[t|]|e];
    [apply IH | apply IH | reflexivity].
Qed.

Lemma present_count (df_name : string) (l pre : list session) :
  length (present df_name (pre ++ l) (seq (length pre) (length l)))
  = length (filter (has_field df_name) l).
Proof.
  revert pre. induction l as [|x l IH]; intros pre; [reflexivity|].
  unfold present in *. cbn [length seq filter].
  rewrite nth_error_app2 by lia. rewrite Nat.sub_diag. cbn [nth_error].
  specialize (IH (pre ++ [x])). rewrite <- app_assoc, length_app in IH.
  change ([x] ++ l) with (x :: l) in IH. change (length [x]) with 1 in IH.
  rewrite Nat.add_1_r in IH.
  destruct (has_field df_name x); cbn [length]; now rewrite IH.
Qed.

Lemma select_rows_positions (i : nat) (summarys : list (option StatFrame)) :
  forall start selected idx selected' idx',
    Forall (fun o => o <> None) summarys ->
    select_rows i summarys start selected idx = Return (selected', idx') ->
    idx' = idx ++ seq start (length summarys).
Proof.
  induction summarys as [|o rest IH]; intros start selected idx selected' idx' Hall H.
  - cbn in H. inversion H; subst. now rewrite app_nil_r.
  - inversion Hall as [|? ? Ho Hrest]; subst.
    destruct o as [df|]; [|contradiction]. cbn [select_rows] in H.
    apply bind_Return_inv in H. destruct H as (r & _ & H).
    rewrite (IH _ _ _ _ _ Hrest H), <- app_assoc. reflexivity.
Qed.

Lemma plot_single_trace (iRow : nat) (js : list (nat * string)) (idx : list nat)
    (result : series) :
  Forall (plot_at idx) (snd (plot_single iRow js idx result)).
Proof.
  induction js as [|[j stat] rest IH]; [constructor|].
  cbn [plot_single]. rewrite io_bind_snd. cbn [io_lift fst snd].
  destruct (stat_values stat result) as [ys|]; [|constructor].
  cbn [app]. rewrite io_bind_snd. cbn [emit fst snd app].
  constructor; [reflexivity | exact IH].
Qed.

Lemma plot_row_trace (i : nat) (rows : list label)
    (summarys : list (option StatFrame)) :
  Forall (fun o => o <> None) summarys ->
  Forall (plot_at (seq 1 (length summarys))) (snd (plot_row i false rows summarys)).
Proof.
  intros Hall. unfold plot_row. rewrite io_bind_snd. cbn [io_lift fst snd].
  destruct (of_option IndexError (nth_error rows i)) as [row|]; [|constructor].
  cbn [app]. rewrite io_bind_snd. cbn [io_lift fst snd].
  destruct (select_rows i summarys 1 [] []) as [[selected idx]|] eqn:E; [|constructor].
  cbn [app]. rewrite io_bind_snd. cbn [io_lift fst snd].
  destruct (concat_series selected) as [result|]; [|constructor].
  cbn [app]. rewrite (select_rows_positions _ _ _ _ _ _ _ Hall E).
  apply plot_single_trace.
Qed.

Lemma finish_page_trace (nwb_files : list string) (base : string) (i : nat)
    (idx : list nat) :
  Forall (plot_at idx) (snd (finish_page nwb_files base i)).
Proof.
  unfold finish_page, io_bind, emit. cbn [fst snd app].
  repeat constructor.
Qed.

Lemma plot_rows_trace (todo : list nat) (nRow : nat) (rows : list label)
    (summarys : list (option StatFrame)) (nwb_files : list string) (base : string) :
  Forall (fun o => o <> None) summarys ->
  Forall (plot_at (seq 1 (length summarys)))
         (snd (plot_rows todo nRow false rows summarys nwb_files base)).
Proof.
  intros Hall. induction todo as [|i rest IH]; [constructor|].
  cbn [plot_rows]. rewrite io_bind_snd.
  pose proof (plot_row_trace i rows summarys Hall) as Hrow.
  destruct (fst (plot_row i false rows summarys)); [|exact Hrow].
  apply Forall_app. split; [exact Hrow|].
  rewrite io_bind_snd. unfold when.
  destruct ((i mod maxRow =? maxRow - 1)%nat || (i =? nRow - 1)%nat).
  - pose proof (finish_page_trace nwb_files base i (seq 1 (length summarys))) as Hp.
    destruct (fst (finish_page nwb_files base i)); [|exact Hp].
    apply Forall_app. split; [exact Hp | exact IH].
  - cbn [io_ret fst snd app]. exact IH.
Qed.

Lemma plotted_xs_at (idx : list nat) (t : list event) :
  Forall (plot_at idx) t -> forall xs, In xs (plotted_xs t) -> xs = idx.
Proof.
  intros Hall xs Hin. unfold plotted_xs in Hin.
  apply in_flat_map in Hin. destruct Hin as (e & He & Hin).
  rewrite Forall_forall in Hall. specialize (Hall e He).
  destruct e; simpl in Hin; try contradiction.
  destruct Hin as [<-|[]]. exact Hall.
Qed.

(** For a field other than the ROI table, every series is drawn at the
    positions 1, 2, ..., k, where k is the number of sessions that have
    the field: the sessions that have it are renumbered. *)
Lemma plot_positions_renumbered
    (nwb_files : list string) (sessions : list session) (base df_name : string) :
  df_name <> "rois" ->
  length nwb_files = length sessions ->
  forall xs,
    In xs (plotted_xs (snd (plot_stats_across_sessions nwb_files sessions base df_name))) ->
    xs = seq 1 (length (filter (has_field df_name) sessions)).
Proof.
  intros Hname Hlen. unfold plot_stats_across_sessions.
  rewrite io_bind_snd, gather_quiet. cbn [app].
  destruct (fst (gather (seq 0 (length nwb_files)) sessions df_name [] None))
    as [[summarys rows]|e] eqn:E; [|intros xs []].
  apply gather_spec in E; [|constructor]. destruct E as [Hall Hcount].
  rewrite Hlen in Hcount.
  pose proof (present_count df_name sessions []) as Hp.
  change ([] ++ sessions) with sessions in Hp.
  change (@length session []) with 0 in Hp. rewrite Hp in Hcount.
  cbn [length Nat.add] in Hcount. rewrite <- Hcount.
  rewrite io_bind_snd. cbn [io_lift fst snd].
  destruct (of_option TypeError rows) as [rs|]; [|intros xs []].
  cbn [app]. apply String.eqb_neq in Hname. rewrite Hname.
  apply plotted_xs_at. apply plot_rows_trace. exact Hall.
Qed.


(** * Further properties of the code *)

(** ** Tables have one row count *)

Lemma same_sizes_all (cols : list (label * ndarray)) :
  same_sizes cols = true ->
  forall c1 c2, In c1 cols -> In c2 cols -> size (snd c1) = size (snd c2).
Proof.
  destruct cols as [|[k a] rest]; simpl; [intros _ c1 c2 []|].
  intros H c1 c2 H1 H2. rewrite forallb_forall in H.
  assert (Ha : forall c, (k, a) = c \/ In c rest -> size (snd c) = size a).
  { intros c [<-|Hc]; [reflexivity | apply Nat.eqb_eq, H, Hc]. }
  now rewrite (Ha c1 H1), (Ha c2 H2).
Qed.

Lemma read_video_tracking_sizes (f : NWBFile) (view : string) (downsampled : bool)
    (df : DataFrame) :
  read_video_tracking f view downsampled = Return (Some df) ->
  same_sizes (columns df) = true.
Proof.
  unfold read_video_tracking. intros H.
  destruct (existsb (String.eqb view) ["body"; "face"; "eye"]).
  - apply bind_Return_inv in H. destruct H as (parent & _ & H).
    destruct (negb (dict_mem String.eqb (view ++ "_video_keypoints")%string parent));
      [discriminate|].
    apply bind_Return_inv in H. destruct H as (entries & _ & H).
    apply bind_Return_inv in H. destruct H as (series & _ & H).
    apply bind_Return_inv in H. destruct H as (data & _ & H).
    apply bind_Return_inv in H. destruct H as (df' & Hdf & H).
    inversion H; subst df'. apply DataFrame_of_dict_Return in Hdf.
    destruct Hdf as [Hs ->]. exact Hs.
  - destruct (String.eqb view "pupil"); [|discriminate].
    apply bind_Return_inv in H. destruct H as (parent & _ & H).
    destruct (negb (dict_mem String.eqb "pupil_tracking" parent)); [discriminate|].
    do 6 (apply bind_Return_inv in H; destruct H as (? & _ & H)).
    apply bind_Return_inv in H. destruct H as (df' & Hdf & H).
    inversion H; subst df'. apply DataFrame_of_dict_Return in Hdf.
    destruct Hdf as [Hs ->]. exact Hs.
Qed.

(** X1.  Every table built by [read_acquisition] or [read_video_tracking]
    has one row count: any two of its columns have the same length. *)
Theorem tables_have_one_length
    (f : NWBFile) (view : string) (downsampled isSensory : bool) (df : DataFrame)
    (c1 c2 : label * ndarray) :
  read_acquisition f downsampled isSensory = Return df
  \/ read_video_tracking f view downsampled = Return (Some df) ->
  In c1 (columns df) -> In c2 (columns df) ->
  size (snd c1) = size (snd c2).
Proof.
  intros [H|H].
  - apply read_acquisition_unfold in H.
    destruct H as (parent & src & data & _ & _ & _ & Hs & ->).
    exact (same_sizes_all _ Hs c1 c2).
  - exact (same_sizes_all _ (read_video_tracking_sizes _ _ _ _ H) c1 c2).
Qed.

(** ** The outcomes of [read_acquisition] *)







(** ** Keypoint and pupil tables *)

Lemma dict_set_fresh_keys (k : label) (v : ndarray) (d : list (label * ndarray)) :
  ~ In k (dict_keys d) ->
  dict_keys (dict_set label_eqb k v d) = dict_keys d ++ [k].
Proof.
  intros H. apply dict_keys_set_new.
  destruct (dict_mem label_eqb k d) eqn:E; [|reflexivity].
  apply (@dict_mem_In _ _ _ label_eqb_eq) in E. contradiction.
Qed.

Lemma keypoint_step_keys (downsampled : bool) (kpt : string) (x y conf : ndarray)
    (data : list (label * ndarray)) :
  (forall c, ~ In (Pair kpt c) (dict_keys data)) ->
  dict_keys (keypoint_step downsampled kpt x y conf data)
  = dict_keys data ++ keypoint_labels downsampled kpt.
Proof.
  intros Hfresh. unfold keypoint_step, keypoint_labels.
  assert (H1 : dict_keys (dict_set label_eqb (Pair kpt "x") x data)
               = dict_keys data ++ [Pair kpt "x"]).
  { apply dict_set_fresh_keys, Hfresh. }
  assert (H2 : dict_keys (dict_set label_eqb (Pair kpt "y") y
                            (dict_set label_eqb (Pair kpt "x") x data))
               = dict_keys data ++ [Pair kpt "x"; Pair kpt "y"]).
  { rewrite dict_set_fresh_keys, H1, <- app_assoc; [reflexivity|].
    rewrite H1, in_app_iff. intros [H|[H|[]]]; [exact (Hfresh _ H) | discriminate]. }
  destruct downsampled; cbn [negb].
  - exact H2.
  - rewrite dict_set_fresh_keys, H2, <- app_assoc; [reflexivity|].
    rewrite H2, in_app_iff.
    intros [H|[H|[H|[]]]]; [exact (Hfresh _ H) | discriminate | discriminate].
Qed.

Lemma keypoint_step_other (downsampled : bool) (kpt : string) (x y conf : ndarray)
    (data : list (label * ndarray)) (l : label) :
  (forall c, l <> Pair kpt c) ->
  dict_get label_eqb l (keypoint_step downsampled kpt x y conf data)
  = dict_get label_eqb l data.
Proof.
  intros Hl. unfold keypoint_step.
  destruct downsampled; cbn [negb];
    rewrite !(@dict_get_set_other _ _ _ label_eqb_eq) by apply Hl; reflexivity.
Qed.

Lemma keypoint_step_same (downsampled : bool) (kpt : string) (x y conf : ndarray)
    (data : list (label * ndarray)) :
  let data' := keypoint_step downsampled kpt x y conf data in
  dict_get label_eqb (Pair kpt "x") data' = Some x
  /\ dict_get label_eqb (Pair kpt "y") data' = Some y
  /\ (downsampled = false ->
      dict_get label_eqb (Pair kpt "likelihood") data' = Some conf).
Proof.
  unfold keypoint_step. destruct downsampled; cbn [negb]; repeat split.
  - rewrite (@dict_get_set_other _ _ _ label_eqb_eq) by discriminate.
    apply (@dict_get_set_same _ _ _ label_eqb_eq).
  - apply (@dict_get_set_same _ _ _ label_eqb_eq).
  - discriminate.
  - rewrite !(@dict_get_set_other _ _ _ label_eqb_eq) by discriminate.
    apply (@dict_get_set_same _ _ _ label_eqb_eq).
  - rewrite (@dict_get_set_other _ _ _ label_eqb_eq) by discriminate.
    apply (@dict_get_set_same _ _ _ label_eqb_eq).
  - intros _. apply (@dict_get_set_same _ _ _ label_eqb_eq).
Qed.

Lemma keypoints_unfold (series : list (string * PoseEstimationSeries))
    (kpt : string) (rest : list string) (downsampled : bool)
    (data data' : list (label * ndarray)) :
  keypoints series (kpt :: rest) downsampled data = Return data' ->
  exists s x y,
    dict_get String.eqb kpt series = Some s
    /\ nth_error (pose_data s) 0 = Some x
    /\ nth_error (pose_data s) 1 = Some y
    /\ keypoints series rest downsampled
         (keypoint_step downsampled kpt x y (confidence s) data) = Return data'.
Proof.
  cbn [keypoints]. intros H.
  apply bind_Return_inv in H. destruct H as (s & Hs & H).
  apply bind_Return_inv in H. destruct H as (x & Hx & H).
  apply bind_Return_inv in H. destruct H as (y & Hy & H).
  exists s, x, y. apply dict_item_Return in Hs.
  destruct (nth_error (pose_data s) 0); [|discriminate].
  destruct (nth_error (pose_data s) 1); [|discriminate].
  inversion Hx; inversion Hy; subst. repeat split; try assumption.
Qed.

Lemma keypoints_keys (series : list (string * PoseEstimationSeries))
    (downsampled : bool) (kpts : list string) :
  forall data data',
    NoDup kpts ->
    (forall k c, In k kpts -> ~ In (Pair k c) (dict_keys data)) ->
    keypoints series kpts downsampled data = Return data' ->
    dict_keys data' = dict_keys data ++ flat_map (keypoint_labels downsampled) kpts.
Proof.
  induction kpts as [|k rest IH]; intros data data' Hnd Hfresh H.
  - cbn in H. inversion H. cbn. now rewrite app_nil_r.
  - apply keypoints_unfold in H. destruct H as (s & x & y & _ & _ & _ & H).
    inversion Hnd as [|? ? Hk Hnd']; subst.
    rewrite (IH _ _ Hnd') with (2 := H).
    + rewrite keypoint_step_keys by (intros c; apply Hfresh; now left).
      cbn [flat_map]. now rewrite <- app_assoc.
    + intros k' c Hk'. rewrite keypoint_step_keys by (intros c'; apply Hfresh; now left).
      rewrite in_app_iff. intros [Hin|Hin].
      * exact (Hfresh k' c (or_intror Hk') Hin).
      * assert (k' = k); [|subst; contradiction].
        unfold keypoint_labels in Hin. apply in_app_or in Hin.
        destruct Hin as [[Hin|[Hin|[]]]|Hin]; try (inversion Hin; reflexivity).
        destruct downsampled; [destruct Hin|].
        destruct Hin as [Hin|[]]. inversion Hin; reflexivity.
Qed.

Lemma keypoints_other (series : list (string * PoseEstimationSeries))
    (downsampled : bool) (kpts : list string) (l : label) :
  forall data data',
    (forall k c, In k kpts -> l <> Pair k c) ->
    keypoints series kpts downsampled data = Return data' ->
    dict_get label_eqb l data' = dict_get label_eqb l data.
Proof.
  induction kpts as [|k rest IH]; intros data data' Hl H.
  - cbn in H. now inversion H.
  - apply keypoints_unfold in H. destruct H as (s & x & y & _ & _ & _ & H).
    rewrite (IH _ _ (fun k' c Hk' => Hl k' c (or_intror Hk')) H).
    apply keypoint_step_other. intros c. apply Hl. now left.
Qed.

Lemma keypoints_values (series : list (string * PoseEstimationSeries))
    (downsampled : bool) (kpts : list string) :
  forall data data' k,
    NoDup kpts -> In k kpts ->
    keypoints series kpts downsampled data = Return data' ->
    exists s x y,
      dict_get String.eqb k series = Some s
      /\ nth_error (pose_data s) 0 = Some x
      /\ nth_error (pose_data s) 1 = Some y
      /\ dict_get label_eqb (Pair k "x") data' = Some x
      /\ dict_get label_eqb (Pair k "y") data' = Some y
      /\ (downsampled = false ->
          dict_get label_eqb (Pair k "likelihood") data' = Some (confidence s)).
Proof.
  induction kpts as [|k0 rest IH]; intros data data' k Hnd Hin H; [destruct Hin|].
  inversion Hnd as [|? ? Hk0 Hnd']; subst.
  pose proof H as H0. apply keypoints_unfold in H0.
  destruct H0 as (s & x & y & Hs & Hx & Hy & Hrest).
  destruct Hin as [<-|Hin].
  - exists s, x, y. repeat split; try assumption.
    + rewrite (keypoints_other series downsampled rest _ _ _) with (2 := Hrest).
      * apply keypoint_step_same.
      * intros k' c Hk' Heq. inversion Heq; subst. contradiction.
    + rewrite (keypoints_other series downsampled rest _ _ _) with (2 := Hrest).
      * apply keypoint_step_same.
      * intros k' c Hk' Heq. inversion Heq; subst. contradiction.
    + intros Hd.
      rewrite (keypoints_other series downsampled rest _ _ _) with (2 := Hrest).
      * apply keypoint_step_same. exact Hd.
      * intros k' c Hk' Heq. inversion Heq; subst. contradiction.
  - exact (IH _ _ k Hnd' Hin Hrest).
Qed.

Lemma read_video_keypoints_inv (f : NWBFile) (view : string) (downsampled : bool)
    (df : DataFrame) :
  In view ["body"; "face"; "eye"] ->
  read_video_tracking f view downsampled = Return (Some df) ->
  exists parent series,
    behavior_parent f downsampled = Return parent
    /\ dict_get String.eqb (view ++ "_video_keypoints")%string parent
       = Some (PoseEstimation series)
    /\ keypoints series (dict_keys series) downsampled [] = Return (columns df).
Proof.
  intros Hview H. unfold read_video_tracking in H.
  assert (Hex : existsb (String.eqb view) ["body"; "face"; "eye"] = true).
  { apply existsb_exists. exists view. split; [exact Hview | apply String.eqb_refl]. }
  rewrite Hex in H.
  apply bind_Return_inv in H. destruct H as (parent & Hp & H).
  destruct (negb (dict_mem String.eqb (view ++ "_video_keypoints")%string parent));
    [discriminate|].
  apply bind_Return_inv in H. destruct H as (entries & He & H).
  apply bind_Return_inv in H. destruct H as (series & Hs & H).
  apply bind_Return_inv in H. destruct H as (data & Hd & H).
  apply bind_Return_inv in H. destruct H as (df' & Hdf & H).
  inversion H; subst df'. apply DataFrame_of_dict_Return in Hdf.
  destruct Hdf as [_ ->]. exists parent, series.
  destruct entries; try discriminate. inversion Hs; subst.
  apply dict_item_Return in He. auto.
Qed.

(** X4.  The keypoint table of a view has, for each keypoint of the data
    product and in their order, a column (keypoint, x) holding the first
    column of its pose data and a column (keypoint, y) holding the second;
    raw data adds a column (keypoint, likelihood) holding its confidence,
    downsampled data does not. *)
Theorem keypoint_table_columns
    (f : NWBFile) (view : string) (downsampled : bool) (df : DataFrame)
    (parent : group) (series : list (string * PoseEstimationSeries)) :
  In view ["body"; "face"; "eye"] ->
  behavior_parent f downsampled = Return parent ->
  dict_get String.eqb (view ++ "_video_keypoints")%string parent
  = Some (PoseEstimation series) ->
  NoDup (dict_keys series) ->
  read_video_tracking f view downsampled = Return (Some df) ->
  map fst (columns df) = flat_map (keypoint_labels downsampled) (dict_keys series)
  /\ forall k, In k (dict_keys series) ->
       exists s x y,
         dict_get String.eqb k series = Some s
         /\ nth_error (pose_data s) 0 = Some x
         /\ nth_error (pose_data s) 1 = Some y
         /\ column df (Pair k "x") = Some x
         /\ column df (Pair k "y") = Some y
         /\ (downsampled = false ->
             column df (Pair k "likelihood") = Some (confidence s)).
Proof.
  intros Hview Hparent Hseries Hnd H.
  destruct (read_video_keypoints_inv _ _ _ _ Hview H)
    as (parent' & series' & Hp & Hs & Hk).
  rewrite Hparent in Hp. inversion Hp; subst parent'.
  rewrite Hseries in Hs. inversion Hs; subst series'. split.
  - exact (keypoints_keys series downsampled _ [] _ Hnd (fun _ _ _ H0 => H0) Hk).
  - intros k Hin. unfold column.
    exact (keypoints_values series downsampled _ [] _ k Hnd Hin Hk).
Qed.

Ltac pupil_fails :=
  repeat split; try discriminate; try reflexivity;
  let df := fresh "df" in let H := fresh "H" in intros df H; discriminate H.

(** X5.  The pupil table has the columns diameter, center_x and center_y,
    in this order: the 'diameter' series of 'pupil_tracking' and the two
    spatial series of 'eye_position'.  When 'pupil_tracking' is there and
    'eye_position' is not, the call raises instead of returning [None]. *)
Theorem pupil_table
    (f : NWBFile) (downsampled : bool) (parent : group)
    (ts : list (string * ndarray)) :
  behavior_parent f downsampled = Return parent ->
  dict_get String.eqb "pupil_tracking" parent = Some (PupilTracking ts) ->
  (forall df, read_video_tracking f "pupil" downsampled = Return (Some df) ->
     exists ss d x y,
       dict_get String.eqb "eye_position" parent = Some (EyeTracking ss)
       /\ dict_get String.eqb "diameter" ts = Some d
       /\ dict_get String.eqb "center_x" ss = Some x
       /\ dict_get String.eqb "center_y" ss = Some y
       /\ columns df = [(Name "diameter", d); (Name "center_x", x);
                        (Name "center_y", y)])
  /\ read_video_tracking f "pupil" downsampled <> Return None
  /\ (dict_get String.eqb "eye_position" parent = None ->
      read_video_tracking f "pupil" downsampled = Raise KeyError).
Proof.
  intros Hparent Hpt.
  assert (Hmem : dict_mem String.eqb "pupil_tracking" parent = true).
  { unfold dict_mem. now rewrite Hpt. }
  unfold read_video_tracking. cbn [existsb String.eqb Ascii.eqb Bool.eqb orb].
  rewrite Hparent. cbn [bind]. rewrite Hmem. cbn [negb].
  unfold get_data_interface, dict_item. rewrite Hpt. cbn [of_option bind get_timeseries].
  unfold dict_item.
  destruct (dict_get String.eqb "diameter" ts) as [d|]; cbn [of_option bind];
    [|pupil_fails].
  destruct (dict_get String.eqb "eye_position" parent) as [ep|]; cbn [of_option bind];
    [|pupil_fails].
  destruct ep as [| | |ss| |]; cbn [get_spatial_series bind]; try pupil_fails.
  unfold dict_item.
  destruct (dict_get String.eqb "center_x" ss) as [x|] eqn:Ex; cbn [of_option bind];
    [|pupil_fails].
  destruct (dict_get String.eqb "center_y" ss) as [y|] eqn:Ey; cbn [of_option bind];
    [|pupil_fails].
  unfold DataFrame_of_dict.
  destruct (same_sizes _); cbn [bind]; [|pupil_fails].
  repeat split; try discriminate.
  intros df H. inversion H; subst. exists ss, d, x, y. auto.
Qed.


(** ** The ROI table and its descriptions *)

Lemma NoDup_dict_set (k : string) (v : string) (d : list (string * string)) :
  NoDup (dict_keys d) -> NoDup (dict_keys (dict_set String.eqb k v d)).
Proof.
  intros Hnd. destruct (dict_mem String.eqb k d) eqn:E.
  - now rewrite dict_keys_set_mem.
  - rewrite dict_keys_set_new by exact E.
    apply NoDup_app; [exact Hnd | repeat constructor; intros [] |].
    intros x Hx [<-|[]]. apply (@dict_mem_In _ _ _ String.eqb_eq) in Hx. congruence.
Qed.

Lemma zip_fold (pairs : list (string * string)) :
  forall d,
    NoDup (dict_keys d) ->
    let d' := fold_left (fun acc nd => dict_set String.eqb (fst nd) (snd nd) acc)
                        pairs d in
    NoDup (dict_keys d')
    /\ (forall n, In n (dict_keys d') <-> In n (dict_keys d) \/ In n (map fst pairs))
    /\ (forall n v, dict_get String.eqb n d' = Some v ->
          In (n, v) pairs \/ dict_get String.eqb n d = Some v).
Proof.
  induction pairs as [|[k v] pairs IH]; intros d Hnd; cbn [fold_left].
  - repeat split; auto. intros [H|[]]. exact H.
  - destruct (IH (dict_set String.eqb k v d) (NoDup_dict_set k v d Hnd))
      as (H1 & H2 & H3).
    cbn [fst snd] in *. split; [exact H1|]. split.
    + intros n. rewrite H2, (@In_keys_set _ _ _ String.eqb_eq). simpl.
      split; [intros [[->|H]|H] | intros [H|[<-|H]]]; auto.
    + intros n w Hget. destruct (H3 n w Hget) as [H|H]; [left; now right|].
      destruct (String.eqb_spec n k) as [->|Hne].
      * rewrite (@dict_get_set_same _ _ _ String.eqb_eq) in H. inversion H; subst.
        left. now left.
      * rewrite (@dict_get_set_other _ _ _ String.eqb_eq) in H by exact Hne. now right.
Qed.

Lemma combine_fst {A B : Type} (xs : list A) (ys : list B) :
  map fst (combine xs ys) = firstn (length ys) xs.
Proof.
  revert ys. induction xs as [|x xs IH]; intros [|y ys]; simpl; try reflexivity.
  now rewrite IH.
Qed.

Lemma combine_snd {A B : Type} (xs : list A) (ys : list B) :
  length xs = length ys -> map snd (combine xs ys) = ys.
Proof.
  revert ys. induction xs as [|x xs IH]; intros [|y ys]; simpl; try discriminate;
    [reflexivity|].
  intros H. f_equal. apply IH. lia.
Qed.

(** X6.  When [read_roi_dFF] returns, the table has one column per ROI
    name, in the order of the names, holding the columns of the stored
    array; the description mapping has distinct keys, its keys are the
    names that have a description beside them, and every entry is a pair
    of a name and the description at the same place. *)
Theorem roi_table_and_descriptions
    (f : NWBFile) (roidata : DataFrame) (roidescs : list (string * string)) :
  read_roi_dFF f = Return (roidata, roidescs) ->
  exists entry names descs,
    roi_product f = Some entry
    /\ roi_name entry = Some names
    /\ roi_description entry = Some descs
    /\ map fst (columns roidata) = map Name names
    /\ map snd (columns roidata) = roi_data entry
    /\ NoDup (dict_keys roidescs)
    /\ (forall n, In n (dict_keys roidescs) <-> In n (firstn (length descs) names))
    /\ (forall n d, dict_get String.eqb n roidescs = Some d ->
          In (n, d) (combine names descs)).
Proof.
  unfold read_roi_dFF, roi_product, get_processing_module, get_data_interface,
    dict_item. intros H.
  destruct (dict_get String.eqb "ophys" (processing f)) as [m|]; [|discriminate].
  cbn [of_option bind] in H.
  destruct (dict_get String.eqb "DfOverF" m) as [i|]; [|discriminate].
  cbn [of_option bind] in H.
  destruct i as [| | | |rs|]; try discriminate. cbn [get_roi_response_series] in H.
  unfold dict_item in H.
  destruct (dict_get String.eqb "dFF" rs) as [entry|]; [|discriminate].
  cbn [of_option bind] in H.
  destruct (roi_name entry) as [names|] eqn:Hn; [|discriminate].
  destruct (roi_description entry) as [descs|] eqn:Hd; [|discriminate].
  cbn [of_option bind] in H.
  destruct (length (roi_data entry) =? length names)%nat eqn:Hlen; [|discriminate].
  apply Nat.eqb_eq in Hlen. inversion H; subst. clear H.
  exists entry, names, descs.
  destruct (zip_fold (combine names descs) [] (NoDup_nil _)) as (H1 & H2 & H3).
  repeat split; try assumption.
  - cbn [columns]. rewrite combine_fst.
    rewrite Hlen, <- (length_map Name names). apply firstn_all.
  - cbn [columns]. apply combine_snd. rewrite length_map. now symmetry.
  - intros Hin. apply H2 in Hin. destruct Hin as [[]|Hin].
    now rewrite combine_fst in Hin.
  - intros Hin. apply H2. right. now rewrite combine_fst.
  - intros n d Hget. destruct (H3 n d Hget) as [H|H]; [exact H | discriminate].
Qed.

(** X7.  A table with as many ROI names as the stored array has columns is
    all [read_roi_dFF] asks for; with another number of names it raises a
    [ValueError]. *)
Theorem roi_names_must_fit (f : NWBFile) (entry : RoiResponseSeries)
    (names descs : list string) :
  roi_product f = Some entry ->
  roi_name entry = Some names ->
  roi_description entry = Some descs ->
  (length (roi_data entry) = length names ->
   exists roidata roidescs, read_roi_dFF f = Return (roidata, roidescs))
  /\ (length (roi_data entry) <> length names ->
      read_roi_dFF f = Raise ValueError).
Proof.
  unfold read_roi_dFF, roi_product, get_processing_module, get_data_interface,
    dict_item. intros H Hn Hd.
  destruct (dict_get String.eqb "ophys" (processing f)) as [m|]; [|discriminate].
  cbn [of_option bind].
  destruct (dict_get String.eqb "DfOverF" m) as [i|]; [|discriminate].
  cbn [of_option bind].
  destruct i as [| | | |rs|]; try discriminate. cbn [get_roi_response_series].
  unfold dict_item. rewrite H. cbn [of_option bind]. rewrite Hn, Hd.
  cbn [of_option bind]. split; intros Hlen.
  - apply Nat.eqb_eq in Hlen. rewrite Hlen. eauto.
  - apply Nat.eqb_neq in Hlen. now rewrite Hlen.
Qed.


(** ** Loading: the record that comes back *)

Lemma read_roi_dFF_product (f : NWBFile) (entry : RoiResponseSeries) :
  roi_product f = Some entry ->
  read_roi_dFF f
  = bind (of_option TypeError (roi_name entry)) (fun names =>
    bind (of_option TypeError (roi_description entry)) (fun descs =>
    if (length (roi_data entry) =? length names)%nat
    then Return (MkFrame (combine (map Name names) (roi_data entry)),
                 zip_dict names descs)
    else Raise ValueError)).
Proof.
  unfold read_roi_dFF, roi_product, get_processing_module, get_data_interface,
    dict_item. intros H.
  destruct (dict_get String.eqb "ophys" (processing f)) as [m|]; [|discriminate].
  cbn [of_option bind].
  destruct (dict_get String.eqb "DfOverF" m) as [i|]; [|discriminate].
  cbn [of_option bind].
  destruct i as [| | | |rs|]; try discriminate. cbn [get_roi_response_series].
  unfold dict_item. rewrite H. reflexivity.
Qed.

Lemma new_session_exact (sh : shape) (data : list (string * pyval)) :
  dict_keys data = field_names sh ->
  NoDup (field_names sh) ->
  new_session sh data = Return (MkSession sh data).
Proof.
  intros Hkeys Hnd. unfold new_session. rewrite Hkeys.
  assert (H1 : forallb (fun k => existsb (String.eqb k) (field_names sh))
                 (field_names sh) = true).
  { apply forallb_forall. intros k Hk. apply existsb_exists. exists k.
    split; [exact Hk | apply String.eqb_refl]. }
  assert (H2 : forallb (fun fld => dict_mem String.eqb fld data) (field_names sh)
               = true).
  { apply forallb_forall. intros k Hk.
    apply (@dict_mem_In _ _ _ String.eqb_eq). now rewrite Hkeys. }
  rewrite H1, H2. cbn [andb]. do 2 f_equal.
  rewrite <- Hkeys in Hnd |- *. clear H1 H2 Hkeys.
  induction data as [|[k v] data IH]; [reflexivity|].
  cbn [dict_keys map fst] in *. inversion Hnd as [|? ? Hk Hnd']; subst.
  cbn [dict_get]. rewrite String.eqb_refl. f_equal.
  rewrite <- (IH Hnd') at 2. apply map_ext_in. intros a Ha.
  destruct (String.eqb_spec a k) as [->|_]; [contradiction | reflexivity].
Qed.

Lemma field_names_NoDup (sh : shape) : NoDup (field_names sh).
Proof.
  destruct sh; repeat constructor; not_in.
Qed.

(** X8.  Loading composes the readers.  For a session that is not sensory,
    when every reader returns, [load_from_file] returns the record of the
    shape the resting flag selects, holding what the readers returned in
    the declared order of the fields (a resting-state record has no
    'trials'); a tracking table that is absent is a [None] field.  The
    container is opened once and closed. *)
Theorem load_composes_readers
    (fs : string -> option NWBFile) (path : string) (f : NWBFile)
    (downsampled isResting : bool)
    (md : Metadata) (tb : pyval) (tr : option DataFrame) (daq : DataFrame)
    (body face eye pupil : option DataFrame)
    (roi : DataFrame * list (string * string)) :
  fs path = Some f ->
  read_metadata f = Return md ->
  read_timebases f downsampled = Return tb ->
  (isResting = false -> read_trials f downsampled = Return tr) ->
  read_acquisition f downsampled false = Return daq ->
  read_video_tracking f "body" downsampled = Return body ->
  read_video_tracking f "face" downsampled = Return face ->
  read_video_tracking f "eye" downsampled = Return eye ->
  read_video_tracking f "pupil" downsampled = Return pupil ->
  read_roi_dFF f = Return roi ->
  load_from_file fs path downsampled isResting false
  = (Return
       (MkSession (if isResting then NWBData_resting else NWBData)
          ([("metadata", VMetadata md); ("timebase", tb)]
           ++ (if isResting then [] else [("trials", of_frame tr)])
           ++ [("daq", VFrame daq);
               ("body_video_tracking", of_frame body);
               ("face_video_tracking", of_frame face);
               ("eye_video_tracking", of_frame eye);
               ("pupil_tracking", of_frame pupil);
               ("rois", VFrame (fst roi));
               ("roi_description", VDescriptions (snd roi))])),
     [NwbOpen path; NwbClose path]).
Proof.
  intros Hf Hmd Htb Htr Hdaq Hbody Hface Heye Hpupil Hroi.
  unfold load_from_file, io_bind, with_nwb. rewrite Hf. cbn [fst snd].
  unfold read_all. rewrite Hmd, Htb. cbn [bind].
  destruct isResting; cbn [negb bind].
  - rewrite Hdaq. cbn [bind]. rewrite Hbody. cbn [bind]. rewrite Hface. cbn [bind].
    rewrite Heye. cbn [bind]. rewrite Hpupil. cbn [bind]. rewrite Hroi. cbn [bind].
    cbn [io_lift fst snd app dict_set String.eqb Ascii.eqb Bool.eqb].
    rewrite new_session_exact; [reflexivity | reflexivity | apply field_names_NoDup].
  - rewrite (Htr eq_refl). cbn [bind].
    rewrite Hdaq. cbn [bind]. rewrite Hbody. cbn [bind]. rewrite Hface. cbn [bind].
    rewrite Heye. cbn [bind]. rewrite Hpupil. cbn [bind]. rewrite Hroi. cbn [bind].
    cbn [io_lift fst snd app dict_set String.eqb Ascii.eqb Bool.eqb].
    rewrite new_session_exact; [reflexivity | reflexivity | apply field_names_NoDup].
Qed.

(** X9.  A sensory session needs little: with a subject and its date of
    birth, the imaging series 'widefield_blue', no trial table and a ROI
    product whose names fit its array, the downsampled load returns the
    five-field record, whatever processing modules the container has
    besides. *)
Theorem load_sensory_returns
    (fs : string -> option NWBFile) (path : string) (f : NWBFile)
    (subj : Subject) (dob : string) (d ts : ndarray)
    (entry : RoiResponseSeries) (names descs : list string) :
  fs path = Some f ->
  subject f = Some subj ->
  date_of_birth subj = Some dob ->
  dict_get String.eqb "widefield_blue" (acquisition f) = Some (TimeSeries d ts) ->
  trials f = None ->
  roi_product f = Some entry ->
  roi_name entry = Some names ->
  roi_description entry = Some descs ->
  length (roi_data entry) = length names ->
  load_from_file fs path true false true
  = (Return
       (MkSession NWBData_sensory
          [("metadata",
            VMetadata (MkMetadata (session_id f) (session_description f) (notes f)
                         (subject_id subj) dob (age subj) (sex subj)));
           ("timebase", VArray ts);
           ("trials", VNone);
           ("rois", VFrame (MkFrame (combine (map Name names) (roi_data entry))));
           ("roi_description", VDescriptions (zip_dict names descs))]),
     [NwbOpen path; NwbClose path]).
Proof.
  intros Hf Hsubj Hdob Hwf Htr Hroi Hn Hd Hlen.
  unfold load_from_file, io_bind, with_nwb. rewrite Hf. cbn [fst snd].
  unfold read_all, read_metadata. rewrite Hsubj. cbn [of_option bind].
  rewrite Hdob. cbn [of_option bind].
  unfold read_timebases, get_acquisition, dict_item. rewrite Hwf.
  cbn [of_option bind interface_timestamps negb].
  unfold read_trials. rewrite Htr. cbn [bind of_frame].
  rewrite (read_roi_dFF_product f entry Hroi), Hn, Hd. cbn [of_option bind].
  apply Nat.eqb_eq in Hlen. rewrite Hlen. cbn [bind fst snd].
  cbn [io_lift fst snd app dict_set String.eqb Ascii.eqb Bool.eqb].
  rewrite new_session_exact; [reflexivity | reflexivity | apply field_names_NoDup].
Qed.

Lemma new_session_Return (sh : shape) (data : list (string * pyval)) (s : session) :
  new_session sh data = Return s ->
  session_shape s = sh
  /\ map fst (session_fields s) = field_names sh
  /\ forall n, In n (field_names sh) ->
       exists v, dict_get String.eqb n data = Some v /\ getattr s n = Return v.
Proof.
  unfold new_session. 
  destruct (forallb (fun k => existsb (String.eqb k) (field_names sh)) (dict_keys data));
    [|discriminate].
  destruct (forallb (fun fld => dict_mem String.eqb fld data) (field_names sh)) eqn:E;
    [|discriminate].
  cbn [andb]. intros H. inversion H; subst s. clear H. cbn [session_shape session_fields].
  split; [reflexivity|]. split.
  - rewrite map_map. cbn [fst]. apply map_id.
  - intros n Hn. rewrite forallb_forall in E. specialize (E n Hn).
    unfold dict_mem in E. destruct (dict_get String.eqb n data) as [v|] eqn:Hv;
      [|discriminate].
    exists v. split; [reflexivity|]. unfold getattr. cbn [session_fields].
    pose proof (field_names_NoDup sh) as Hnd.
    induction (field_names sh) as [|k l IH]; [destruct Hn|].
    cbn [map dict_get]. destruct (String.eqb_spec n k) as [->|Hne].
    + now rewrite Hv.
    + inversion Hnd; subst. destruct Hn as [->|Hn]; [contradiction|].
      apply IH; assumption.
Qed.

(** X10.  A record that [load_from_file] returns has the shape the flags
    select and exactly the fields of that shape, in the declared order; its
    'rois' field is the ROI table and is never [None], and its 'metadata'
    field is what [read_metadata] returned. *)
Theorem load_record_shape
    (fs : string -> option NWBFile) (path : string)
    (downsampled isResting isSensory : bool) (record : session) :
  fst (load_from_file fs path downsampled isResting isSensory) = Return record ->
  session_shape record
  = (if isResting then NWBData_resting
     else if isSensory then NWBData_sensory else NWBData)
  /\ map fst (session_fields record) = field_names (session_shape record)
  /\ exists f md roi,
       fs path = Some f
       /\ read_metadata f = Return md
       /\ read_roi_dFF f = Return roi
       /\ getattr record "metadata" = Return (VMetadata md)
       /\ getattr record "rois" = Return (VFrame (fst roi))
       /\ getattr record "roi_description" = Return (VDescriptions (snd roi)).
Proof.
  intros H. destruct (fs path) as [f|] eqn:Hf.
  2: { unfold load_from_file, io_bind, with_nwb in H. rewrite Hf in H. discriminate. }
  rewrite (load_result _ _ _ _ _ _ Hf) in H.
  apply bind_Return_inv in H. destruct H as (data & Hdata & H).
  set (sh := if isResting then NWBData_resting
             else if isSensory then NWBData_sensory else NWBData).
  assert (Hnew : new_session sh data = Return record).
  { unfold sh. destruct isResting; [exact H|]. destruct isSensory; exact H. }
  destruct (new_session_Return _ _ _ Hnew) as (Hsh & Hfields & Hget).
  split; [exact Hsh|]. split; [now rewrite Hsh|].
  unfold read_all in Hdata.
  apply bind_Return_inv in Hdata. destruct Hdata as (md & Hmd & Hdata).
  apply bind_Return_inv in Hdata. destruct Hdata as (tb & _ & Hdata).
  apply bind_Return_inv in Hdata. destruct Hdata as (d1 & Hd1 & Hdata).
  apply bind_Return_inv in Hdata. destruct Hdata as (d2 & Hd2 & Hdata).
  apply bind_Return_inv in Hdata. destruct Hdata as (roi & Hroi & Hdata).
  inversion Hdata; subst data. clear Hdata.
  exists f, md, roi. repeat split; try assumption.
  - destruct (Hget "metadata") as (v & Hv & Hattr); [unfold sh; destruct isResting, isSensory; simpl; auto|].
    rewrite Hattr. f_equal.
    rewrite !(@dict_get_set_other _ _ _ String.eqb_eq) in Hv by discriminate.
    assert (Hd1m : dict_get String.eqb "metadata" d1 = Some (VMetadata md)).
    { destruct (negb isResting).
      - apply bind_Return_inv in Hd1. destruct Hd1 as (tr & _ & Hd1).
        inversion Hd1. reflexivity.
      - inversion Hd1. reflexivity. }
    assert (Hd2m : dict_get String.eqb "metadata" d2 = Some (VMetadata md)).
    { destruct (negb isSensory).
      - do 5 (apply bind_Return_inv in Hd2; destruct Hd2 as (? & _ & Hd2)).
        inversion Hd2.
        rewrite !(@dict_get_set_other _ _ _ String.eqb_eq) by discriminate.
        exact Hd1m.
      - inversion Hd2; subst. exact Hd1m. }
    congruence.
  - destruct (Hget "rois") as (v & Hv & Hattr); [unfold sh; destruct isResting, isSensory; simpl; auto 12|].
    rewrite Hattr. f_equal.
    rewrite (@dict_get_set_other _ _ _ String.eqb_eq) in Hv by discriminate.
    rewrite (@dict_get_set_same _ _ _ String.eqb_eq) in Hv. congruence.
  - destruct (Hget "roi_description") as (v & Hv & Hattr); [unfold sh; destruct isResting, isSensory; simpl; auto 12|].
    rewrite Hattr. f_equal.
    rewrite (@dict_get_set_same _ _ _ String.eqb_eq) in Hv. congruence.
Qed.


(** ** What [stat_summary] returns and when it raises *)

Lemma combine_fst_map {A B C : Type} (g : A -> C) (xs : list A) (ys : list B) :
  length xs = length ys ->
  map (fun p => g (fst p)) (combine xs ys) = map g xs.
Proof.
  revert ys. induction xs as [|x xs IH]; intros [|y ys]; simpl; try discriminate;
    [reflexivity|].
  intros H. f_equal. apply IH. lia.
Qed.

Lemma labels_eqb_length (xs ys : list label) :
  labels_eqb xs ys = true -> length xs = length ys.
Proof.
  intros H. apply labels_eqb_true in H. now subst.
Qed.

Lemma set_column_shape (name : string) (series : list (label * scalar))
    (s t : StatFrame) (n : nat) :
  set_column name series s = Return t ->
  Forall (fun r => length (snd r) = n) (stat_rows s) ->
  stat_columns t = stat_columns s ++ [name]
  /\ stat_index t = stat_index s
  /\ Forall (fun r => length (snd r) = S n) (stat_rows t).
Proof.
  unfold set_column, stat_index. intros H Hall.
  destruct (labels_eqb (map fst series) (map fst (stat_rows s))) eqn:E.
  - inversion H; subst t. clear H. cbn [stat_columns stat_rows].
    apply labels_eqb_length in E. rewrite !length_map in E.
    split; [reflexivity|]. split.
    + rewrite map_map. cbn [fst]. apply combine_fst_map. now symmetry.
    + apply Forall_forall. intros r Hr. apply in_map_iff in Hr.
      destruct Hr as ([r0 v] & <- & Hin). cbn [fst snd].
      apply in_combine_l in Hin. rewrite Forall_forall in Hall.
      rewrite length_app, (Hall _ Hin). simpl. lia.
  - destruct (nodup_labels (map fst series)); [|discriminate].
    inversion H; subst t. clear H. cbn [stat_columns stat_rows].
    split; [reflexivity|]. split.
    + rewrite map_map. reflexivity.
    + apply Forall_forall. intros r Hr. apply in_map_iff in Hr.
      destruct Hr as (r0 & <- & Hin). cbn [fst snd].
      rewrite Forall_forall in Hall.
      rewrite length_app, (Hall _ Hin). simpl. lia.
Qed.

Lemma describe_T_cases (tab : DataFrame) :
  (columns tab = [] /\ describe_T tab = Raise ValueError)
  \/ (columns tab <> [] /\ numeric_columns tab = []
      /\ describe_T tab
         = Return (MkStats object_stats
                     (map (describe_column object_stats) (columns tab))))
  \/ (numeric_columns tab <> []
      /\ describe_T tab
         = Return (MkStats numeric_stats
                     (map (describe_column numeric_stats) (numeric_columns tab)))).
Proof.
  unfold describe_T, numeric_columns.
  destruct (columns tab) as [|c cols] eqn:E; [left; auto|].
  destruct (filter (fun c0 => is_numeric (snd c0)) (c :: cols)) eqn:E2.
  - right. left. repeat split. discriminate.
  - right. right. split; [discriminate | reflexivity].
Qed.

Lemma stat_summary_frame (s : session) (df_name nwb_path : string) (verbose : bool)
    (tab : DataFrame) :
  getattr s df_name = Return (VFrame tab) ->
  fst (stat_summary s df_name nwb_path verbose)
  = bind (describe_T tab) (fun d =>
    bind (select_columns ["mean"; "std"; "min"; "max"] d) (fun d' =>
    bind (set_column "nan_count" (isna_sum tab) d') (fun d'' =>
    Return (Some d'')))).
Proof.
  intros H. unfold stat_summary. rewrite io_bind_fst. cbn [io_lift fst]. rewrite H.
  rewrite io_bind_fst. cbn [io_lift fst].
  destruct (describe_T tab) as [d|]; [|reflexivity]. cbn [bind].
  rewrite io_bind_fst. cbn [io_lift fst].
  destruct (select_columns _ d) as [d'|]; [|reflexivity]. cbn [bind].
  rewrite io_bind_fst. cbn [io_lift fst].
  destruct (set_column _ _ d') as [d''|]; [|reflexivity]. cbn [bind].
  rewrite io_bind_fst. destruct verbose; reflexivity.
Qed.

Lemma stat_summary_Some_inv (s : session) (df_name nwb_path : string)
    (verbose : bool) (t : StatFrame) :
  fst (stat_summary s df_name nwb_path verbose) = Return (Some t) ->
  exists tab,
    getattr s df_name = Return (VFrame tab)
    /\ numeric_columns tab <> []
    /\ stat_columns t = ["mean"; "std"; "min"; "max"; "nan_count"]
    /\ stat_index t = map fst (numeric_columns tab)
    /\ Forall (fun r => length (snd r) = 5) (stat_rows t).
Proof.
  intros H.
  destruct (getattr s df_name) as [[| | | |tab|]|] eqn:Hget;
    try (unfold stat_summary in H; rewrite io_bind_fst in H;
         cbn [io_lift fst] in H; rewrite Hget in H; discriminate).
  - pose proof (stat_summary_absent s df_name nwb_path verbose Hget) as Ha.
    rewrite Ha in H. discriminate.
  - exists tab. split; [reflexivity|].
    rewrite (stat_summary_frame _ _ _ _ _ Hget) in H.
    destruct (describe_T_cases tab) as [[_ Hd]|[(_ & _ & Hd)|[Hnum Hd]]];
      rewrite Hd in H; try discriminate.
    cbn [bind] in H. rewrite select_described in H. cbn [bind] in H.
    apply bind_Return_inv in H. destruct H as (t' & Hset & H).
    inversion H; subst t'. clear H.
    apply set_column_shape with (n := 4) in Hset.
    + destruct Hset as (Hc & Hi & Hr). cbn [stat_columns] in Hc.
      unfold stat_index in Hi at 2. cbn [stat_rows] in Hi. rewrite map_map in Hi.
      repeat split; assumption.
    + cbn [stat_rows]. apply Forall_forall. intros r Hr.
      apply in_map_iff in Hr. destruct Hr as (c & <- & _). reflexivity.
Qed.

Lemma stat_summary_rows
    (s : session) (df_name nwb_path : string) (verbose : bool) (t : StatFrame) :
  fst (stat_summary s df_name nwb_path verbose) = Return (Some t) ->
  stat_columns t = ["mean"; "std"; "min"; "max"; "nan_count"]
  /\ stat_rows t <> []
  /\ Forall (fun r => length (snd r) = 5) (stat_rows t).
Proof.
  intros H. destruct (stat_summary_Some_inv _ _ _ _ _ H)
    as (tab & Hget & Hnum & Hc & Hi & Hr).
  repeat split; try assumption.
  intros Hnil. unfold stat_index in Hi. rewrite Hnil in Hi.
  destruct (numeric_columns tab); [contradiction | discriminate].
Qed.

(** X11.  Whatever the field, a table that [stat_summary] returns has the
    columns mean, std, min, max and nan_count, five cells in every row, and
    one row for each numeric column of the field, of which there is at
    least one: an empty summary is never returned. *)
Theorem stat_summary_shape
    (s : session) (df_name nwb_path : string) (verbose : bool) (t : StatFrame) :
  fst (stat_summary s df_name nwb_path verbose) = Return (Some t) ->
  stat_columns t = ["mean"; "std"; "min"; "max"; "nan_count"]
  /\ stat_rows t <> []
  /\ Forall (fun r => length (snd r) = 5) (stat_rows t)
  /\ exists tab,
       getattr s df_name = Return (VFrame tab)
       /\ stat_index t = map fst (numeric_columns tab).
Proof.
  intros H. destruct (stat_summary_Some_inv _ _ _ _ _ H)
    as (tab & Hget & Hnum & Hc & Hi & Hr).
  repeat split; try assumption.
  - intros Hnil. unfold stat_index in Hi. rewrite Hnil in Hi.
    destruct (numeric_columns tab); [contradiction | discriminate].
  - exists tab. auto.
Qed.

(** X12.  [stat_summary] raises on a field it cannot summarise: an
    [AttributeError] when the record has no such field or the field is
    neither a table nor [None], a [ValueError] for a table without columns,
    and a [KeyError] for a table whose columns are all boolean.  Nothing is
    logged in these cases. *)
Theorem stat_summary_raises
    (s : session) (df_name nwb_path : string) (verbose : bool) :
  (getattr s df_name = Raise AttributeError ->
   stat_summary s df_name nwb_path verbose = (Raise AttributeError, []))
  /\ (forall v, getattr s df_name = Return v ->
        v <> VNone -> (forall tab, v <> VFrame tab) ->
        stat_summary s df_name nwb_path verbose = (Raise AttributeError, []))
  /\ (forall tab, getattr s df_name = Return (VFrame tab) ->
        columns tab = [] ->
        stat_summary s df_name nwb_path verbose = (Raise ValueError, []))
  /\ (forall tab, getattr s df_name = Return (VFrame tab) ->
        columns tab <> [] -> numeric_columns tab = [] ->
        stat_summary s df_name nwb_path verbose = (Raise KeyError, [])).
Proof.
  unfold stat_summary, io_bind, io_lift. repeat split.
  - intros H. rewrite H. reflexivity.
  - intros v H Hnone Hframe. rewrite H. cbn [fst snd].
    destruct v; try reflexivity; [contradiction | exfalso; exact (Hframe _ eq_refl)].
  - intros tab H Hcols. rewrite H. cbn [fst snd].
    destruct (describe_T_cases tab) as [[_ Hd]|[(Hne & _)|[Hnum _]]].
    + rewrite Hd. reflexivity.
    + contradiction.
    + unfold numeric_columns in Hnum. rewrite Hcols in Hnum. contradiction.
  - intros tab H Hcols Hnum. rewrite H. cbn [fst snd].
    destruct (describe_T_cases tab) as [[Hnil _]|[(_ & _ & Hd)|[Hne _]]].
    + contradiction.
    + rewrite Hd. reflexivity.
    + contradiction.
Qed.


(** ** The text report *)

Lemma file_writes_report (out : string) (t : list event) :
  Forall (report_event out) t ->
  forall acc, file_writes out t (Some acc) = Some (acc ++ written out t).
Proof.
  induction t as [|e t IH]; intros Hall acc.
  - cbn. now rewrite app_nil_r.
  - inversion Hall as [|? ? He Ht]; subst.
    destruct e; try (now destruct He); cbn [file_writes written flat_map].
    + exact (IH Ht acc).
    + cbn in He. subst. rewrite String.eqb_refl. cbn [option_map].
      rewrite (IH Ht). cbn [app]. now rewrite <- app_assoc.
Qed.

Lemma stat_summary_prints (s : session) (df_name nwb_path : string) (out : string) :
  Forall (report_event out) (snd (stat_summary s df_name nwb_path true))
  /\ written out (snd (stat_summary s df_name nwb_path true)) = [].
Proof.
  unfold stat_summary, io_bind, io_lift.
  destruct (getattr s df_name) as [[| | | |tab|]|]; cbn; auto.
  - repeat constructor.
  - destruct (describe_T tab) as [d|]; cbn; auto.
    destruct (select_columns _ d) as [d'|]; cbn; auto.
    destruct (set_column _ _ d') as [d''|]; cbn; auto.
    repeat constructor.
Qed.

Lemma written_write (out text : string) (t : list event) :
  written out (TxtWrite out text :: t) = text :: written out t.
Proof.
  unfold written. cbn [flat_map]. now rewrite String.eqb_refl.
Qed.

Lemma file_writes_app (path : string) (a b : list event) :
  forall acc, file_writes path (a ++ b) acc = file_writes path b (file_writes path a acc).
Proof.
  induction a as [|e a IH]; intros acc; [reflexivity|].
  destruct e; cbn [app file_writes]; apply IH.
Qed.

Lemma file_writes_open (path : string) (acc : option (list string)) :
  file_writes path [TxtOpen path] acc = Some [].
Proof.
  cbn [file_writes]. now rewrite String.eqb_refl.
Qed.

Lemma written_app (out : string) (a b : list event) :
  written out (a ++ b) = written out a ++ written out b.
Proof.
  unfold written. apply flat_map_app.
Qed.

Lemma write_summaries_events (s : session) (nwb_path out : string)
    (df_names : list string) :
  Forall (report_event out) (snd (write_summaries s nwb_path out df_names)).
Proof.
  induction df_names as [|n rest IH]; [constructor|].
  cbn [write_summaries]. rewrite io_bind_snd.
  destruct (stat_summary_prints s n nwb_path out) as [Hp _].
  destruct (fst (stat_summary s n nwb_path true)) as [summary|]; [|exact Hp].
  apply Forall_app. split; [exact Hp|].
  rewrite io_bind_snd. cbn [emit fst snd]. constructor; [reflexivity|].
  rewrite io_bind_snd. cbn [io_lift fst snd].
  destruct summary as [t|]; [|constructor]. cbn [app].
  rewrite io_bind_snd. cbn [emit fst snd]. constructor; [reflexivity | exact IH].
Qed.

Lemma write_summaries_all (s : session) (nwb_path out : string)
    (df_names : list string) (tables : list StatFrame) :
  Forall2 (fun n t => fst (stat_summary s n nwb_path true) = Return (Some t))
          df_names tables ->
  fst (write_summaries s nwb_path out df_names) = Return tt
  /\ written out (snd (write_summaries s nwb_path out df_names))
     = flat_map (fun nt => [header (Str.upper (fst nt)); to_string (snd nt)])
                (combine df_names tables).
Proof.
  induction 1 as [|n t names ts Hn _ IH]; [split; reflexivity|].
  destruct IH as [IH1 IH2].
  destruct (stat_summary_prints s n nwb_path out) as [_ Hw].
  cbn [write_summaries]. split.
  - rewrite io_bind_fst, Hn, io_bind_fst. cbn [emit fst].
    rewrite io_bind_fst. cbn [io_lift fst]. rewrite io_bind_fst. cbn [emit fst].
    exact IH1.
  - rewrite io_bind_snd, Hn, written_app, Hw. cbn [app].
    rewrite io_bind_snd. cbn [emit fst snd].
    rewrite io_bind_snd. cbn [io_lift fst snd app].
    rewrite io_bind_snd. cbn [emit fst snd app].
    rewrite !written_app, !written_write, IH2. reflexivity.
Qed.

Lemma sanity_check_trace (fs : string -> option NWBFile) (nwb_path : string)
    (output_txt_path : option string) (isResting isSensory : bool) (s : session) :
  fst (load_from_file fs nwb_path true isResting isSensory) = Return s ->
  let out := summary_path nwb_path output_txt_path in
  fst (sanity_check_nwb fs nwb_path output_txt_path isResting isSensory)
  = fst (write_summaries s nwb_path out (reported_fields isSensory))
  /\ snd (sanity_check_nwb fs nwb_path output_txt_path isResting isSensory)
     = [NwbOpen nwb_path; NwbClose nwb_path]
       ++ [TxtOpen out]
       ++ snd (write_summaries s nwb_path out (reported_fields isSensory))
       ++ [TxtClose out].
Proof.
  intros Hload out. unfold sanity_check_nwb.
  pose proof (load_trace fs nwb_path true isResting isSensory) as Ht.
  destruct (fs nwb_path) as [f|] eqn:Hf.
  - rewrite io_bind_fst, io_bind_snd, Hload, Ht. unfold with_txt. cbn [fst snd].
    split; reflexivity.
  - unfold load_from_file, io_bind, with_nwb in Hload. rewrite Hf in Hload.
    discriminate.
Qed.

(** X13.  When the session loads and every reported field has a summary,
    [sanity_check_nwb] returns and the output file holds, for each field in
    the order of the list, the header with the field name in capitals
    followed by the text of its summary; a sensory session reports the
    ROI table only. *)
Theorem sanity_check_writes_blocks
    (fs : string -> option NWBFile) (nwb_path : string)
    (output_txt_path : option string) (isResting isSensory : bool)
    (s : session) (tables : list StatFrame) :
  fst (load_from_file fs nwb_path true isResting isSensory) = Return s ->
  Forall2 (fun n t => fst (stat_summary s n nwb_path true) = Return (Some t))
          (reported_fields isSensory) tables ->
  fst (sanity_check_nwb fs nwb_path output_txt_path isResting isSensory) = Return tt
  /\ file_writes (summary_path nwb_path output_txt_path)
       (snd (sanity_check_nwb fs nwb_path output_txt_path isResting isSensory)) None
     = Some (flat_map (fun nt => [header (Str.upper (fst nt)); to_string (snd nt)])
                      (combine (reported_fields isSensory) tables)).
Proof.
  intros Hload Hall.
  destruct (sanity_check_trace fs nwb_path output_txt_path isResting isSensory s Hload)
    as [Hfst Hsnd].
  destruct (write_summaries_all s nwb_path (summary_path nwb_path output_txt_path)
              _ _ Hall) as [Hw1 Hw2].
  split; [now rewrite Hfst|].
  rewrite Hsnd, !file_writes_app.
  change (file_writes (summary_path nwb_path output_txt_path)
            [NwbOpen nwb_path; NwbClose nwb_path] None) with (@None (list string)).
  rewrite file_writes_open, file_writes_report by apply write_summaries_events.
  now rewrite Hw2.
Qed.


(** X14.  What [sanity_check_nwb] does to the outside: nothing when the
    container file is missing (the assertion fails); only the opening and
    closing of the container when the load raises, so that no text file is
    made; otherwise the container is closed before the text file is opened,
    the text file is closed at the end whether or not the report raised,
    and in between there are only log lines and writes to that file. *)
Theorem sanity_check_events
    (fs : string -> option NWBFile) (nwb_path : string)
    (output_txt_path : option string) (isResting isSensory : bool) :
  match fs nwb_path with
  | None =>
      sanity_check_nwb fs nwb_path output_txt_path isResting isSensory
      = (Raise AssertionError, [])
  | Some _ =>
      match fst (load_from_file fs nwb_path true isResting isSensory) with
      | Raise e =>
          sanity_check_nwb fs nwb_path output_txt_path isResting isSensory
          = (Raise e, [NwbOpen nwb_path; NwbClose nwb_path])
      | Return s =>
          exists body,
            snd (sanity_check_nwb fs nwb_path output_txt_path isResting isSensory)
            = [NwbOpen nwb_path; NwbClose nwb_path;
               TxtOpen (summary_path nwb_path output_txt_path)]
              ++ body ++ [TxtClose (summary_path nwb_path output_txt_path)]
            /\ Forall (report_event (summary_path nwb_path output_txt_path)) body
      end
  end.
Proof.
  destruct (fs nwb_path) as [f|] eqn:Hf.
  - destruct (fst (load_from_file fs nwb_path true isResting isSensory))
      as [s|e] eqn:Hload.
    + destruct (sanity_check_trace fs nwb_path output_txt_path isResting isSensory
                  s Hload) as [_ Hsnd].
      eexists. split; [exact Hsnd | apply write_summaries_events].
    + unfold sanity_check_nwb. rewrite Hf.
      pose proof (load_trace fs nwb_path true isResting isSensory) as Ht.
      rewrite Hf in Ht. unfold io_bind. rewrite Hload, Ht. reflexivity.
  - unfold sanity_check_nwb. now rewrite Hf.
Qed.

(** ** The default output path *)

Lemma length_app_str (a b : string) :
  String.length (a ++ b) = String.length a + String.length b.
Proof.
  induction a as [|c a IH]; simpl; [reflexivity | now rewrite IH].
Qed.

Lemma replace_go_absent (old new s : string) :
  Str.contains old s = false -> Str.replace_go old new 0 s = s.
Proof.
  induction s as [|c s IH]; [reflexivity|].
  cbn [Str.contains Str.replace_go]. intros H.
  apply orb_false_iff in H. destruct H as [Hp Hc]. rewrite Hp.
  now rewrite (IH Hc).
Qed.

Lemma replace_go_grows (old new : string) (n : nat) :
  old <> EmptyString ->
  String.length old < String.length new ->
  forall s, String.length s <= n ->
    String.length s <= String.length (Str.replace_go old new 0 s)
    /\ (Str.contains old s = true ->
        String.length s < String.length (Str.replace_go old new 0 s)).
Proof.
  intros Hold Hlt. induction n as [|n IH]; intros s Hlen.
  - destruct s; [|simpl in Hlen; lia]. split; [reflexivity|].
    cbn. destruct old; [contradiction | discriminate].
  - destruct s as [|c s].
    { split; [reflexivity|]. cbn. destruct old; [contradiction | discriminate]. }
    cbn [Str.replace_go Str.contains]. destruct (prefix old (String c s)) eqn:E.
    + rewrite replace_go_skip. pose proof (prefix_drop _ _ E) as Hs.
      destruct old as [|o old]; [contradiction|].
      cbn [String.length Nat.sub] in *. rewrite Nat.sub_0_r.
      cbn [Re.drop] in Hs.
      assert (Hlen' : String.length (String c s)
                      = S (String.length old)
                        + String.length (Re.drop (String.length old) s)).
      { rewrite Hs at 1. rewrite length_app_str. reflexivity. }
      destruct (IH (Re.drop (String.length old) s)) as [IHle _].
      { cbn [String.length] in Hlen'. simpl in Hlen. lia. }
      rewrite length_app_str. cbn [String.length] in Hlen'.
      cbn [String.length]. split; [lia | intros _; lia].
    + destruct (IH s) as [IHle IHlt]; [simpl in Hlen; lia|].
      cbn [String.length orb]. split; [lia|].
      intros Hc. specialize (IHlt Hc). lia.
Qed.

(** X15.  The default output path is the container path with every '.nwb'
    turned into '_summary.txt'.  It is another path exactly when the
    container path holds '.nwb'; for a path without '.nwb' the two are the
    same, and a run whose load succeeds opens the container path itself
    for writing. *)
Theorem default_summary_path
    (fs : string -> option NWBFile) (nwb_path : string)
    (isResting isSensory : bool) :
  (summary_path nwb_path None = nwb_path <-> Str.contains ".nwb" nwb_path = false)
  /\ (Str.contains ".nwb" nwb_path = false ->
      forall s, fst (load_from_file fs nwb_path true isResting isSensory) = Return s ->
      In (TxtOpen nwb_path)
         (snd (sanity_check_nwb fs nwb_path None isResting isSensory))).
Proof.
  assert (Hsame : Str.contains ".nwb" nwb_path = false ->
                  summary_path nwb_path None = nwb_path).
  { intros H. apply (replace_go_absent ".nwb" "_summary.txt" nwb_path H). }
  split; [split; [|exact Hsame]|].
  - intros H. destruct (Str.contains ".nwb" nwb_path) eqn:E; [|reflexivity].
    exfalso.
    destruct (replace_go_grows ".nwb" "_summary.txt" (String.length nwb_path)
                ltac:(discriminate) ltac:(simpl; lia) nwb_path (le_n _))
      as [_ Hlt].
    specialize (Hlt E). unfold summary_path, Str.replace in H.
    rewrite H in Hlt. lia.
  - intros Hc s Hload.
    destruct (sanity_check_trace fs nwb_path None isResting isSensory s Hload)
      as [_ Hsnd].
    rewrite Hsnd, (Hsame Hc). simpl. auto.
Qed.


(** ** When nothing is plotted *)

Lemma gather_none (sessions : list session) (df_name : string) (idxs : list nat) :
  (forall i, In i idxs ->
     exists s, nth_error sessions i = Some s /\ getattr s df_name = Return VNone) ->
  forall summarys rows,
    gather idxs sessions df_name summarys rows = (Return (summarys, rows), []).
Proof.
  induction idxs as [|i rest IH]; intros Hall summarys rows; [reflexivity|].
  destruct (Hall i (or_introl eq_refl)) as (s & Hs & Hnone).
  cbn [gather]. unfold io_bind at 1. cbn [io_lift fst snd]. rewrite Hs.
  cbn [of_option]. unfold io_bind at 1.
  rewrite (stat_summary_absent s df_name "None" false Hnone). cbn [fst snd].
  rewrite IH by (intros j Hj; apply Hall; now right). reflexivity.
Qed.

Lemma nth_error_in_range {A : Type} (l : list A) (i : nat) :
  In i (seq 0 (length l)) -> exists x, nth_error l i = Some x /\ In x l.
Proof.
  intros H. apply in_seq in H.
  destruct (nth_error l i) as [x|] eqn:E.
  - exists x. split; [reflexivity|]. exact (nth_error_In _ _ E).
  - apply nth_error_None in E. lia.
Qed.

(** X16.  When no session of the list has the field, which is the case of
    an empty list, [plot_stats_across_sessions] raises a [TypeError] (the
    row labels were never set) and draws and saves nothing. *)
Theorem plot_without_field
    (nwb_files : list string) (sessions : list session) (base df_name : string) :
  length nwb_files = length sessions ->
  Forall (fun s => getattr s df_name = Return VNone) sessions ->
  plot_stats_across_sessions nwb_files sessions base df_name
  = (Raise TypeError, []).
Proof.
  intros Hlen Hall. unfold plot_stats_across_sessions.
  rewrite gather_none.
  - reflexivity.
  - intros i Hi. rewrite Hlen in Hi.
    destruct (nth_error_in_range _ _ Hi) as (s & Hs & Hin).
    exists s. split; [exact Hs|]. rewrite Forall_forall in Hall. exact (Hall _ Hin).
Qed.

Lemma gather_raises (sessions : list session) (df_name : string) (idxs : list nat) :
  (exists i s, In i idxs /\ nth_error sessions i = Some s
               /\ raises (fst (stat_summary s df_name "None" false))) ->
  forall summarys rows, raises (fst (gather idxs sessions df_name summarys rows)).
Proof.
  induction idxs as [|i rest IH]; intros (j & s & Hin & Hs & Hr) summarys rows;
    [destruct Hin|].
  cbn [gather]. rewrite io_bind_fst. cbn [io_lift fst].
  destruct (nth_error sessions i) as [s0|] eqn:E; cbn [of_option];
    [|eexists; reflexivity].
  rewrite io_bind_fst.
  destruct Hin as [->|Hin].
  - rewrite Hs in E. inversion E; subst s0. destruct Hr as [e ->].
    eexists; reflexivity.
  - destruct (fst (stat_summary s0 df_name "None" false)) as [[t|]|e];
      [apply IH | apply IH | eexists; reflexivity]; eauto.
Qed.

Lemma In_nth_error_seq {A : Type} (l : list A) (x : A) :
  In x l -> exists i, In i (seq 0 (length l)) /\ nth_error l i = Some x.
Proof.
  intros H. apply In_nth_error in H. destruct H as (i & Hi).
  exists i. split; [|exact Hi]. apply in_seq.
  assert (i < length l) by (apply nth_error_Some; congruence). lia.
Qed.

(** X17.  A record without the attribute stops the plot: when some session
    of the list has no field of that name at all (a sensory record asked
    for 'daq'), or a field that is neither a table nor [None],
    [plot_stats_across_sessions] raises and draws and saves nothing. *)
Theorem plot_stops_on_bad_record
    (nwb_files : list string) (sessions : list session) (base df_name : string)
    (s : session) :
  length nwb_files = length sessions ->
  In s sessions ->
  raises (fst (stat_summary s df_name "None" false)) ->
  raises (fst (plot_stats_across_sessions nwb_files sessions base df_name))
  /\ snd (plot_stats_across_sessions nwb_files sessions base df_name) = [].
Proof.
  intros Hlen Hin Hr. unfold plot_stats_across_sessions.
  rewrite io_bind_fst, io_bind_snd, gather_quiet.
  destruct (gather_raises sessions df_name (seq 0 (length nwb_files))) with
    (summarys := @nil (option StatFrame)) (rows := @None (list label)) as [e He].
  { rewrite Hlen. destruct (In_nth_error_seq _ _ Hin) as (i & Hi & Hs). eauto. }
  rewrite He. split; [eexists; reflexivity | reflexivity].
Qed.

Lemma gather_gathered (P : StatFrame -> Prop) (sessions : list session)
    (df_name : string) :
  (forall s t, fst (stat_summary s df_name "None" false) = Return (Some t) -> P t) ->
  forall idxs summarys rows summarys' rows',
    fst (gather idxs sessions df_name summarys rows) = Return (summarys', rows') ->
    gathered P summarys rows -> gathered P summarys' rows'.
Proof.
  intros HP. induction idxs as [|i rest IH]; intros summarys rows summarys' rows' H Hg.
  - cbn in H. inversion H; subst. exact Hg.
  - cbn [gather] in H. rewrite io_bind_fst in H. cbn [io_lift fst] in H.
    destruct (nth_error sessions i) as [s|]; cbn [of_option] in H; [|discriminate].
    rewrite io_bind_fst in H.
    destruct (fst (stat_summary s df_name "None" false)) as [[t|]|e] eqn:E;
      [| |discriminate].
    + apply IH in H; [exact H|]. destruct Hg as [Hall Hrows]. split.
      * apply Forall_app. split; [exact Hall|]. constructor; [|constructor].
        exists t. split; [reflexivity | exact (HP _ _ E)].
      * destruct summarys as [|o rest']; cbn [app].
        -- subst rows. exists t. auto.
        -- destruct Hrows as (t0 & -> & ->). exists t0. auto.
    + exact (IH _ _ _ _ H Hg).
Qed.

Lemma plot_single_summary (t : StatFrame) (rows : list label)
    (nwb_files : list string) (base : string) (nRow : nat) (todo : list nat) :
  stat_columns t = ["mean"; "std"; "min"; "max"; "nan_count"] ->
  stat_rows t <> [] ->
  Forall (fun r => length (snd r) = 5) (stat_rows t) ->
  plot_rows (0 :: todo) nRow false (stat_index t) [Some t] nwb_files base
  = (Raise AttributeError, []).
Proof.
  intros Hc Hne Hall. destruct t as [cols trows]. cbn [stat_columns stat_rows] in *.
  subst cols. destruct trows as [|[l cells] trows]; [contradiction|].
  inversion Hall as [|? ? Hcells _]; subst. cbn [snd] in Hcells.
  destruct cells as [|a [|b [|c [|d [|e [|? ?]]]]]]; try discriminate.
  reflexivity.
Qed.

Lemma plot_few_sessions
    (nwb_files : list string) (sessions : list session) (base df_name : string) :
  df_name <> "rois" ->
  length nwb_files = length sessions ->
  length (filter (has_field df_name) sessions) < 2 ->
  exists e,
    plot_stats_across_sessions nwb_files sessions base df_name = (Raise e, []).
Proof.
  intros Hname Hlen Hfew.
  cut (raises (fst (plot_stats_across_sessions nwb_files sessions base df_name))
       /\ snd (plot_stats_across_sessions nwb_files sessions base df_name) = []).
  { intros [(e & He) Hs]. exists e.
    rewrite (surjective_pairing (plot_stats_across_sessions _ _ _ _)), He, Hs.
    reflexivity. }
  unfold plot_stats_across_sessions.
  rewrite io_bind_fst, io_bind_snd, gather_quiet. cbn [app].
  destruct (fst (gather (seq 0 (length nwb_files)) sessions df_name [] None))
    as [[summarys rows]|e] eqn:E; [|split; [eexists; reflexivity | reflexivity]].
  pose proof (gather_spec _ _ _ _ _ _ _ E (Forall_nil _)) as [_ Hcount].
  rewrite Hlen in Hcount.
  pose proof (present_count df_name sessions []) as Hp.
  change ([] ++ sessions) with sessions in Hp.
  change (@length session []) with 0 in Hp. rewrite Hp in Hcount.
  cbn [length Nat.add] in Hcount.
  pose proof (gather_gathered
                (fun t => stat_columns t = ["mean"; "std"; "min"; "max"; "nan_count"]
                          /\ stat_rows t <> []
                          /\ Forall (fun r => length (snd r) = 5) (stat_rows t))
                sessions df_name) as Hg.
  specialize (Hg (fun s t H => stat_summary_rows s df_name "None" false t H)).
  specialize (Hg _ _ _ _ _ E (conj (Forall_nil _) eq_refl)).
  destruct Hg as [Hall Hrows].
  destruct summarys as [|o [|o' rest]].
  - subst rows. split; [eexists; reflexivity | reflexivity].
  - destruct Hrows as (t & -> & ->).
    inversion Hall as [|? ? (t' & Ht' & Hc & Hne & Hcells) _]; subst.
    inversion Ht'; subst t'.
    rewrite io_bind_fst, io_bind_snd. cbn [io_lift of_option fst snd app].
    apply String.eqb_neq in Hname. rewrite Hname.
    assert (Hn : exists k, length (stat_index t) = S k).
    { unfold stat_index. destruct (stat_rows t); [contradiction|].
      simpl. eauto. }
    destruct Hn as (k & Hk). rewrite Hk. cbn [seq].
    rewrite (plot_single_summary t (stat_index t) nwb_files base (S k) _ Hc Hne Hcells).
    split; [eexists; reflexivity | reflexivity].
  - simpl in Hcount. lia.
Qed.

(** X18.  A comparison of a field other than the ROI table needs two
    sessions with the field: with fewer, [plot_stats_across_sessions]
    raises and draws and saves nothing (with a single summary the
    statistic taken out of it is one number, which has no values to
    plot). *)
Theorem plot_needs_two_sessions
    (nwb_files : list string) (sessions : list session) (base df_name : string) :
  df_name <> "rois" ->
  length nwb_files = length sessions ->
  length (filter (has_field df_name) sessions) < 2 ->
  raises (fst (plot_stats_across_sessions nwb_files sessions base df_name))
  /\ snd (plot_stats_across_sessions nwb_files sessions base df_name) = [].
Proof.
  intros Hname Hlen Hfew.
  destruct (plot_few_sessions nwb_files sessions base df_name Hname Hlen Hfew)
    as (e & He).
  rewrite He. split; [exists e; reflexivity | reflexivity].
Qed.


(** ** From the container to the summary of the acquisition table *)

Lemma NoDup_keys_set {V : Type} (k : string) (v : V) (d : list (string * V)) :
  NoDup (dict_keys d) -> NoDup (dict_keys (dict_set String.eqb k v d)).
Proof.
  intros Hnd. destruct (dict_mem String.eqb k d) eqn:E.
  - now rewrite dict_keys_set_mem.
  - rewrite dict_keys_set_new by exact E.
    apply NoDup_app; [exact Hnd | repeat constructor; intros [] |].
    intros x Hx [<-|[]]. apply (@dict_mem_In _ _ _ String.eqb_eq) in Hx. congruence.
Qed.

Lemma collect_NoDup (parent : group) (names : list string)
    (data data' : list (string * ndarray)) :
  collect parent names data = Return data' ->
  NoDup (dict_keys data) -> NoDup (dict_keys data').
Proof.
  revert data. induction names as [|n names IH]; intros data H Hnd; simpl in H.
  - inversion H; subst. exact Hnd.
  - destruct (excluded n); [exact (IH _ H Hnd)|].
    apply bind_Return_inv in H. destruct H as (entry & _ & H).
    apply bind_Return_inv in H. destruct H as (d & _ & H).
    apply (IH _ H). now apply NoDup_keys_set.
Qed.

Lemma nodup_labels_named (data : list (string * ndarray)) :
  NoDup (dict_keys data) -> nodup_labels (map fst (named data)) = true.
Proof.
  rewrite named_keys. induction (dict_keys data) as [|k ks IH]; intros Hnd;
    [reflexivity|].
  inversion Hnd as [|? ? Hk Hnd']; subst. cbn [map nodup_labels].
  rewrite (IH Hnd'), andb_true_r. apply negb_true_iff.
  destruct (existsb (label_eqb (Name k)) (map Name ks)) eqn:E; [|reflexivity].
  apply existsb_exists in E. destruct E as (x & Hx & Hxk).
  apply label_eqb_eq in Hxk. subst x. apply in_map_iff in Hx.
  destruct Hx as (k' & Hk' & Hin). inversion Hk'; subst. contradiction.
Qed.

Lemma dict_get_In {V : Type} (k : string) (v : V) (d : list (string * V)) :
  dict_get String.eqb k d = Some v -> In (k, v) d.
Proof.
  induction d as [|[k' v'] d IH]; simpl; [discriminate|].
  destruct (String.eqb_spec k k') as [->|_].
  - intros H. inversion H. auto.
  - auto.
Qed.

Lemma In_dict_get {V : Type} (k : string) (v : V) (d : list (string * V)) :
  NoDup (dict_keys d) -> In (k, v) d -> dict_get String.eqb k d = Some v.
Proof.
  induction d as [|[k' v'] d IH]; simpl; [intros _ []|].
  intros Hnd Hin. inversion Hnd as [|? ? Hk Hnd']; subst.
  destruct Hin as [Heq|Hin].
  - inversion Heq; subst. now rewrite String.eqb_refl.
  - destruct (String.eqb_spec k k') as [->|_]; [|exact (IH Hnd' Hin)].
    exfalso. apply Hk. apply in_map_iff. exists (k', v). auto.
Qed.

(** A record of a session that is not sensory holds what the readers of the
    behavioural data returned. *)
Lemma load_nonsensory_inv
    (fs : string -> option NWBFile) (path : string)
    (downsampled isResting : bool) (record : session) :
  fst (load_from_file fs path downsampled isResting false) = Return record ->
  exists f daq body face eye pupil,
    fs path = Some f
    /\ read_acquisition f downsampled false = Return daq
    /\ read_video_tracking f "body" downsampled = Return body
    /\ read_video_tracking f "face" downsampled = Return face
    /\ read_video_tracking f "eye" downsampled = Return eye
    /\ read_video_tracking f "pupil" downsampled = Return pupil
    /\ getattr record "daq" = Return (VFrame daq)
    /\ getattr record "body_video_tracking" = Return (of_frame body)
    /\ getattr record "face_video_tracking" = Return (of_frame face)
    /\ getattr record "eye_video_tracking" = Return (of_frame eye)
    /\ getattr record "pupil_tracking" = Return (of_frame pupil).
Proof.
  intros H. destruct (fs path) as [f|] eqn:Hf.
  2: { unfold load_from_file, io_bind, with_nwb in H. rewrite Hf in H. discriminate. }
  rewrite (load_result _ _ _ _ _ _ Hf) in H.
  apply bind_Return_inv in H. destruct H as (data & Hdata & H).
  set (sh := if isResting then NWBData_resting else NWBData).
  assert (Hnew : new_session sh data = Return record).
  { unfold sh. destruct isResting; exact H. }
  destruct (new_session_Return _ _ _ Hnew) as (_ & _ & Hget).
  unfold read_all in Hdata.
  apply bind_Return_inv in Hdata. destruct Hdata as (md & _ & Hdata).
  apply bind_Return_inv in Hdata. destruct Hdata as (tb & _ & Hdata).
  apply bind_Return_inv in Hdata. destruct Hdata as (d1 & _ & Hdata).
  apply bind_Return_inv in Hdata. destruct Hdata as (d2 & Hd2 & Hdata).
  apply bind_Return_inv in Hdata. destruct Hdata as (roi & _ & Hdata).
  inversion Hdata; subst data. clear Hdata. cbn [negb] in Hd2.
  apply bind_Return_inv in Hd2. destruct Hd2 as (daq & Hdaq & Hd2).
  apply bind_Return_inv in Hd2. destruct Hd2 as (body & Hbody & Hd2).
  apply bind_Return_inv in Hd2. destruct Hd2 as (face & Hface & Hd2).
  apply bind_Return_inv in Hd2. destruct Hd2 as (eye & Heye & Hd2).
  apply bind_Return_inv in Hd2. destruct Hd2 as (pupil & Hpupil & Hd2).
  inversion Hd2; subst d2. clear Hd2.
  assert (Hfield : forall n v,
             In n (field_names sh) ->
             dict_get String.eqb n
               (dict_set String.eqb "roi_description" (VDescriptions (snd roi))
                  (dict_set String.eqb "rois" (VFrame (fst roi))
                     (dict_set String.eqb "pupil_tracking" (of_frame pupil)
                        (dict_set String.eqb "eye_video_tracking" (of_frame eye)
                           (dict_set String.eqb "face_video_tracking" (of_frame face)
                              (dict_set String.eqb "body_video_tracking" (of_frame body)
                                 (dict_set String.eqb "daq" (VFrame daq) d1)))))))
             = Some v ->
             getattr record n = Return v).
  { intros n v Hn Hv. destruct (Hget n Hn) as (v' & Hv' & Hattr). congruence. }
  assert (Hin : forall n, In n ["daq"; "body_video_tracking"; "face_video_tracking";
                                "eye_video_tracking"; "pupil_tracking"] ->
                          In n (field_names sh)).
  { intros n Hn. unfold sh. destruct isResting; simpl in Hn |- *;
      repeat (destruct Hn as [<-|Hn]; [auto 12|]); destruct Hn. }
  exists f, daq, body, face, eye, pupil.
  repeat split; try assumption; apply Hfield;
    try (apply Hin; simpl; auto 8);
    repeat (rewrite (@dict_get_set_other _ _ _ String.eqb_eq) by discriminate);
    apply (@dict_get_set_same _ _ _ String.eqb_eq).
Qed.

(** X19.  The acquisition table of a loaded session always has a summary.
    For a record that [load_from_file] returned for a session that is not
    sensory, [stat_summary] of 'daq' returns a table and does not raise: the
    table has the row 'state_task', which the loader made 16-bit integers,
    and no row for 'reward', 'state_lever' or 'tone', which it made
    booleans. *)
Theorem loaded_daq_summary
    (fs : string -> option NWBFile) (path nwb_path : string)
    (downsampled isResting verbose : bool) (record : session) :
  fst (load_from_file fs path downsampled isResting false) = Return record ->
  exists t,
    fst (stat_summary record "daq" nwb_path verbose) = Return (Some t)
    /\ In (Name "state_task") (stat_index t)
    /\ forall c, In c ["reward"; "state_lever"; "tone"] ->
                 ~ In (Name c) (stat_index t).
Proof.
  intros H.
  destruct (load_nonsensory_inv _ _ _ _ _ H)
    as (f & daq & _ & _ & _ & _ & _ & Hdaq & _ & _ & _ & _ & Hget & _).
  destruct (read_acquisition_unfold _ _ _ _ Hdaq)
    as (parent & src & data & _ & Hsrc & (mid & Hmid & Hdata) & _ & ->).
  assert (Hnd3 : NoDup ["reward"; "state_lever"; "tone"]).
  { repeat constructor; not_in. }
  assert (Hnd1 : NoDup ["state_task"]).
  { repeat constructor; not_in. }
  destruct (convert_spec _ _ _ _ Hnd3 Hmid) as [Hbool Hkeep].
  destruct (convert_spec _ _ _ _ Hnd1 Hdata) as [Hint Hrest].
  assert (Hnd : NoDup (dict_keys data)).
  { rewrite (convert_keys _ _ _ _ Hdata), (convert_keys _ _ _ _ Hmid).
    apply (collect_NoDup _ _ _ _ Hsrc). constructor. }
  destruct (Hint "state_task") as (a & _ & Ha); [simpl; auto|].
  assert (Htask : In (Name "state_task", astype_int16 a)
                     (numeric_columns (MkFrame (named data)))).
  { unfold numeric_columns. apply filter_In. split; [|reflexivity].
    cbn [columns]. unfold named. apply in_map_iff.
    exists ("state_task", astype_int16 a). split; [reflexivity|].
    now apply dict_get_In. }
  assert (Hnum : numeric_columns (MkFrame (named data)) <> []).
  { intros Hnil. rewrite Hnil in Htask. destruct Htask. }
  rewrite (stat_summary_frame _ _ _ _ _ Hget).
  rewrite (describe_T_numeric _ Hnum). cbn [bind]. rewrite select_described.
  cbn [bind]. rewrite set_column_isna.
  2: { right. cbn [columns]. now apply nodup_labels_named. }
  cbn [bind]. eexists. split; [reflexivity|].
  unfold stat_index. cbn [stat_rows]. rewrite map_map. cbn [fst]. split.
  - apply in_map_iff. eexists. split; [|exact Htask]. reflexivity.
  - intros c Hc Hin. apply in_map_iff in Hin. destruct Hin as ([l v] & Hl & Hin).
    cbn [fst] in Hl. subst l. unfold numeric_columns in Hin.
    apply filter_In in Hin. destruct Hin as [Hin Hv]. cbn [columns snd] in *.
    unfold named in Hin. apply in_map_iff in Hin.
    destruct Hin as ([k v'] & Hkv & Hin). inversion Hkv; subst k v'. clear Hkv.
    apply (In_dict_get _ _ _ Hnd) in Hin.
    destruct (Hbool c Hc) as (b & _ & Hb).
    rewrite Hrest in Hin.
    2: { intros [<-|[]]. absurd_in Hc. }
    rewrite Hb in Hin. inversion Hin; subst v. discriminate.
Qed.


(** ** What the file indexer returns *)

Lemma take_app_length (w rest : string) :
  Re.take (String.length (w ++ rest) - String.length rest) (w ++ rest) = w.
Proof.
  rewrite length_app_str.
  replace (String.length w + String.length rest - String.length rest)
    with (String.length w) by lia.
  induction w as [|c w IH]; simpl.
  - destruct rest; reflexivity.
  - now rewrite IH.
Qed.

Lemma run_seq (r1 r2 : Re.regex) (s : string) (gs : list string) (rest : string) :
  In (gs, rest) (Re.run (Re.Seq r1 r2) s) ->
  exists g1 mid g2,
    In (g1, mid) (Re.run r1 s) /\ In (g2, rest) (Re.run r2 mid) /\ gs = g1 ++ g2.
Proof.
  cbn [Re.run]. intros H. apply in_flat_map in H. destruct H as ([g1 mid] & H1 & H).
  apply in_map_iff in H. destruct H as ([g2 rest'] & Heq & H2).
  cbn [fst snd] in *. inversion Heq; subst. exists g1, mid, g2. auto.
Qed.

Lemma run_lit (l s : string) (gs : list string) (rest : string) :
  In (gs, rest) (Re.run (Re.Lit l) s) -> s = (l ++ rest)%string /\ gs = [].
Proof.
  cbn [Re.run]. intros H. apply in_map_iff in H. destruct H as (x & Hx & Hin).
  inversion Hx; subst. split; [exact (lit_rests_sound _ _ _ Hin) | reflexivity].
Qed.

Lemma run_group_plus (cls : ascii -> bool) (s : string) (gs : list string)
    (rest : string) :
  In (gs, rest) (Re.run (Re.Group (Re.Plus cls)) s) ->
  exists w, s = (w ++ rest)%string /\ gs = [w] /\ word cls w.
Proof.
  cbn [Re.run]. intros H. apply in_map_iff in H. destruct H as ([g x] & Hx & Hin).
  apply in_map_iff in Hin. destruct Hin as (y & Hy & Hin).
  inversion Hy; subst. cbn [fst snd] in Hx. inversion Hx; subst. clear Hx Hy.
  destruct (plus_rests_sound _ _ _ Hin) as (w & -> & Hne & Hall).
  exists w. rewrite take_app_length. repeat split; assumption.
Qed.

Lemma run_group_alt (alts : list string) (s : string) (gs : list string)
    (rest : string) :
  In (gs, rest) (Re.run (Re.Group (Re.Alt alts)) s) ->
  exists w, s = (w ++ rest)%string /\ gs = [w] /\ In w alts.
Proof.
  cbn [Re.run]. intros H. apply in_map_iff in H. destruct H as ([g x] & Hx & Hin).
  apply in_map_iff in Hin. destruct Hin as (y & Hy & Hin).
  inversion Hy; subst. cbn [fst snd] in Hx. inversion Hx; subst. clear Hx Hy.
  apply in_flat_map in Hin. destruct Hin as (a & Ha & Hin).
  apply lit_rests_sound in Hin. subst s.
  exists a. rewrite take_app_length. auto.
Qed.

(** Every match of the file pattern splits the text into the four groups,
    the separators and what is left. *)
Lemma run_file_matcher (st : string) (gs : list string) (rest : string) :
  In (gs, rest) (Re.run file_matcher st) ->
  exists subj date ty day,
    st = (subj ++ "_" ++ date ++ "_" ++ ty ++ "-day" ++ day ++ rest)%string
    /\ gs = [subj; date; ty; day]
    /\ word subject_char subj /\ word date_char date
    /\ In ty type_indexer /\ word Re.is_digit day.
Proof.
  unfold file_matcher. intros H.
  apply run_seq in H. destruct H as (g1 & m1 & g1' & H1 & H & ->).
  apply run_seq in H. destruct H as (g2 & m2 & g2' & H2 & H & ->).
  apply run_seq in H. destruct H as (g3 & m3 & g3' & H3 & H & ->).
  apply run_seq in H. destruct H as (g4 & m4 & g4' & H4 & H & ->).
  apply run_seq in H. destruct H as (g5 & m5 & g6 & H5 & H6 & ->).
  apply run_group_plus in H1. destruct H1 as (subj & -> & -> & Hsubj).
  apply run_lit in H2. destruct H2 as [-> ->].
  apply run_group_plus in H3. destruct H3 as (date & -> & -> & Hdate).
  apply run_lit in H4. destruct H4 as [-> ->].
  apply run_group_alt in H5. destruct H5 as (ty & -> & -> & Hty).
  apply run_seq in H6. destruct H6 as (g7 & m7 & g8 & H7 & H8 & ->).
  apply run_lit in H7. destruct H7 as [-> ->].
  apply run_group_plus in H8. destruct H8 as (day & -> & -> & Hday).
  exists subj, date, ty, day. repeat split; try assumption; apply Hsubj || apply Hdate
    || apply Hday.
Qed.

(** The first match of a sequence ends with a first match of its second
    part. *)
Lemma run_seq_head (r1 r2 : Re.regex) (s : string) (m : list string * string)
    (ms : list (list string * string)) :
  Re.run (Re.Seq r1 r2) s = m :: ms ->
  exists mid g2 tl, Re.run r2 mid = (g2, snd m) :: tl.
Proof.
  cbn [Re.run]. induction (Re.run r1 s) as [|m1 l IH]; cbn [flat_map];
    [discriminate|].
  destruct (Re.run r2 (snd m1)) as [|[g2 rest] tl] eqn:E.
  - cbn [map app]. exact IH.
  - cbn [map app fst snd]. intros H. inversion H; subst. cbn [snd].
    exists (snd m1), g2, tl. exact E.
Qed.

(** The greedy [+] first takes every character of the class. *)
Lemma plus_rests_head (cls : ascii -> bool) (s r : string) (rs : list string) :
  Re.plus_rests cls s = r :: rs ->
  match r with
  | String c _ => cls c = false
  | EmptyString => True
  end.
Proof.
  revert r rs. induction s as [|c s IH]; intros r rs; cbn [Re.plus_rests];
    [discriminate|].
  destruct (cls c); [|discriminate].
  destruct (Re.plus_rests cls s) as [|r0 rs0] eqn:E.
  - cbn [app]. intros H. inversion H; subst. clear H.
    destruct r as [|d r]; [exact I|]. cbn [Re.plus_rests] in E.
    destruct (cls d); [|reflexivity].
    destruct (Re.plus_rests cls r); discriminate.
  - cbn [app]. intros H. inversion H; subst. exact (IH _ _ eq_refl).
Qed.

Lemma run_file_matcher_head (st : string) (m : list string * string)
    (ms : list (list string * string)) :
  Re.run file_matcher st = m :: ms ->
  match snd m with
  | String c _ => Re.is_digit c = false
  | EmptyString => True
  end.
Proof.
  unfold file_matcher. intros H.
  apply run_seq_head in H. destruct H as (? & ? & ? & H). cbn [snd] in H.
  apply run_seq_head in H. destruct H as (? & ? & ? & H). cbn [snd] in H.
  apply run_seq_head in H. destruct H as (? & ? & ? & H). cbn [snd] in H.
  apply run_seq_head in H. destruct H as (? & ? & ? & H). cbn [snd] in H.
  apply run_seq_head in H. destruct H as (? & ? & ? & H). cbn [snd] in H.
  apply run_seq_head in H. destruct H as (mid & ? & ? & H). cbn [snd] in H.
  cbn [Re.run] in H.
  destruct (Re.plus_rests Re.is_digit mid) as [|r rs] eqn:E; [discriminate|].
  cbn [map fst snd] in H. inversion H; subst.
  exact (plus_rests_head _ _ _ _ E).
Qed.

Lemma list_index_nth (x : string) (l : list string) (i : nat) :
  list_index x l = Return i -> nth_error l i = Some x.
Proof.
  revert i. induction l as [|y l IH]; intros i; cbn [list_index]; [discriminate|].
  destruct (String.eqb_spec x y) as [->|_].
  - intros H. inversion H. reflexivity.
  - intros H. apply bind_Return_inv in H. destruct H as (j & Hj & H).
    inversion H; subst. exact (IH _ Hj).
Qed.

(** X20.  What [nwb_file_indexer] returns is read off the name.  When it
    returns (subject, date, type index, day), the stem of the name is
    [{subject}_{date}_{type}-day{digits}] followed by text that does not
    start with a digit; the subject and the date are not empty and made of
    the characters of their classes, the type index is the place of
    {type} in [type_indexer], and the day is the number that the digits,
    all of them, write in base ten. *)
Theorem file_indexer_sound (name subj date : string) (ti : nat) (day : N) :
  nwb_file_indexer name = Return (subj, date, ti, day) ->
  exists ty digits rest,
    stem name = (subj ++ "_" ++ date ++ "_" ++ ty ++ "-day" ++ digits ++ rest)%string
    /\ word subject_char subj
    /\ word date_char date
    /\ nth_error type_indexer ti = Some ty
    /\ word Re.is_digit digits
    /\ int_of_digits digits = Return day
    /\ match rest with
       | String c _ => Re.is_digit c = false
       | EmptyString => True
       end.
Proof.
  unfold nwb_file_indexer, Re.re_match.
  destruct (Re.run file_matcher (stem name)) as [|[gs rest] ms] eqn:E; [discriminate|].
  pose proof (run_file_matcher_head _ _ _ E) as Hrest. cbn [snd] in Hrest.
  destruct (run_file_matcher (stem name) gs rest) as
    (subj' & date' & ty & digits & Hst & -> & Hsubj & Hdate & Hty & Hday).
  { rewrite E. now left. }
  cbn [fst nth]. intros H.
  apply bind_Return_inv in H. destruct H as (ti' & Hti & H).
  apply bind_Return_inv in H. destruct H as (day' & Hd & H).
  inversion H; subst. exists ty, digits, rest.
  repeat split; try assumption; try apply Hsubj; try apply Hdate; try apply Hday.
  exact (list_index_nth _ _ _ Hti).
Qed.


(** ** The pages of a comparison *)

Lemma saved_figures_app (a b : list event) :
  saved_figures (a ++ b) = saved_figures a ++ saved_figures b.
Proof.
  unfold saved_figures. apply flat_map_app.
Qed.

Lemma plot_single_saves (iRow : nat) (js : list (nat * string)) (idx : list nat)
    (result : series) :
  saved_figures (snd (plot_single iRow js idx result)) = [].
Proof.
  induction js as [|[j stat] rest IH]; [reflexivity|].
  cbn [plot_single]. rewrite io_bind_snd. cbn [io_lift fst snd].
  destruct (stat_values stat result) as [ys|]; [|reflexivity].
  cbn [app]. rewrite io_bind_snd. cbn [emit fst snd app].
  exact IH.
Qed.

Lemma plot_pair_saves (iRow : nat) (js : list (nat * string))
    (result_l result_r : series) :
  saved_figures (snd (plot_pair iRow js result_l result_r)) = [].
Proof.
  induction js as [|[j stat] rest IH]; [reflexivity|].
  cbn [plot_pair]. rewrite io_bind_snd. cbn [io_lift fst snd].
  destruct (stat_values stat result_l) as [ys|]; [|reflexivity].
  cbn [app]. rewrite io_bind_snd. cbn [emit fst snd].
  rewrite saved_figures_app. cbn [saved_figures flat_map app].
  rewrite io_bind_snd. cbn [io_lift fst snd].
  destruct (stat_values stat result_r) as [ys'|]; [|reflexivity].
  cbn [app]. rewrite io_bind_snd. cbn [emit fst snd].
  rewrite saved_figures_app. cbn [saved_figures flat_map app].
  exact IH.
Qed.

Lemma plot_row_saves (i : nat) (is_rois : bool) (rows : list label)
    (summarys : list (option StatFrame)) :
  saved_figures (snd (plot_row i is_rois rows summarys)) = [].
Proof.
  unfold plot_row. destruct is_rois.
  - rewrite io_bind_snd. cbn [io_lift fst snd].
    destruct (of_option IndexError (nth_error rows i)) as [row|]; [|reflexivity].
    cbn [app]. rewrite io_bind_snd. cbn [io_lift fst snd].
    destruct (loc_rows _ summarys) as [sl|]; [|reflexivity].
    cbn [app]. rewrite io_bind_snd. cbn [io_lift fst snd].
    destruct (concat_series sl) as [rl|]; [|reflexivity].
    cbn [app]. rewrite io_bind_snd. cbn [io_lift fst snd].
    destruct (loc_rows _ summarys) as [sr|]; [|reflexivity].
    cbn [app]. rewrite io_bind_snd. cbn [io_lift fst snd].
    destruct (concat_series sr) as [rr|]; [|reflexivity].
    cbn [app]. apply plot_pair_saves.
  - rewrite io_bind_snd. cbn [io_lift fst snd].
    destruct (of_option IndexError (nth_error rows i)) as [row|]; [|reflexivity].
    cbn [app]. rewrite io_bind_snd. cbn [io_lift fst snd].
    destruct (select_rows i summarys 1 [] []) as [[selected idx]|]; [|reflexivity].
    cbn [app]. rewrite io_bind_snd. cbn [io_lift fst snd].
    destruct (concat_series selected) as [result|]; [|reflexivity].
    cbn [app]. apply plot_single_saves.
Qed.

Lemma finish_page_saved (nwb_files : list string) (base : string) (i : nat) :
  fst (finish_page nwb_files base i) = Return tt
  /\ saved_figures (snd (finish_page nwb_files base i))
     = [page_name base (i / maxRow + 1)].
Proof.
  split; reflexivity.
Qed.

Lemma plot_rows_saved (todo : list nat) (nRow : nat) (is_rois : bool)
    (rows : list label) (summarys : list (option StatFrame))
    (nwb_files : list string) (base : string) :
  fst (plot_rows todo nRow is_rois rows summarys nwb_files base) = Return tt ->
  saved_figures (snd (plot_rows todo nRow is_rois rows summarys nwb_files base))
  = map (fun i => page_name base (i / maxRow + 1))
        (filter (fun i => (i mod maxRow =? maxRow - 1)%nat || (i =? nRow - 1)%nat) todo).
Proof.
  induction todo as [|i rest IH]; [reflexivity|].
  cbn [plot_rows filter]. rewrite io_bind_fst, io_bind_snd.
  pose proof (plot_row_saves i is_rois rows summarys) as Hrow.
  destruct (fst (plot_row i is_rois rows summarys)) as [[]|]; [|discriminate].
  rewrite io_bind_fst, io_bind_snd, saved_figures_app, Hrow. cbn [app].
  unfold when.
  destruct ((i mod maxRow =? maxRow - 1)%nat || (i =? nRow - 1)%nat).
  - destruct (finish_page_saved nwb_files base i) as [Hf Hs].
    rewrite Hf. intros H. rewrite saved_figures_app, Hs, (IH H). reflexivity.
  - cbn [io_ret fst snd app]. exact IH.
Qed.

Lemma pages_full (n : nat) :
  map (fun i => i / 10 + 1) (filter (fun i => (i mod 10 =? 9)%nat) (seq 0 n))
  = seq 1 (n / 10).
Proof.
  induction n as [|n IH]; [reflexivity|].
  rewrite seq_S, filter_app, map_app, IH. cbn [Nat.add filter].
  pose proof (Nat.div_mod_eq n 10) as Hn.
  pose proof (Nat.mod_upper_bound n 10 ltac:(lia)) as Hlt.
  destruct (Nat.eqb_spec (n mod 10) 9) as [E|E].
  - assert (Hs : S n / 10 = S (n / 10)).
    { symmetry. apply (Nat.div_unique (S n) 10 (S (n / 10)) 0); lia. }
    rewrite Hs, seq_S. cbn [map]. do 2 f_equal. lia.
  - assert (Hs : S n / 10 = n / 10).
    { symmetry. apply (Nat.div_unique (S n) 10 (n / 10) (S (n mod 10))); lia. }
    rewrite Hs. cbn [map]. apply app_nil_r.
Qed.

Lemma pages_count (n : nat) :
  map (fun i => i / 10 + 1)
      (filter (fun i => (i mod 10 =? 9)%nat || (i =? n - 1)%nat) (seq 0 n))
  = seq 1 ((n + 9) / 10).
Proof.
  destruct n as [|m]; [reflexivity|].
  rewrite seq_S, filter_app, map_app. cbn [Nat.add filter].
  replace (S m - 1) with m by lia. rewrite Nat.eqb_refl, orb_true_r. cbn [map].
  assert (Hf : filter (fun i => (i mod 10 =? 9)%nat || (i =? m)%nat) (seq 0 m)
               = filter (fun i => (i mod 10 =? 9)%nat) (seq 0 m)).
  { apply filter_ext_in. intros i Hi. apply in_seq in Hi.
    destruct (Nat.eqb_spec i m) as [E|_]; [lia|]. apply orb_false_r. }
  rewrite Hf, pages_full.
  assert (Hs : S (m + 9) / 10 = S (m / 10)).
  { pose proof (Nat.div_mod_eq m 10) as Hm.
    pose proof (Nat.mod_upper_bound m 10 ltac:(lia)) as Hlt.
    symmetry. apply (Nat.div_unique (S (m + 9)) 10 (S (m / 10)) (m mod 10)); lia. }
  change (S m + 9) with (S (m + 9)).
  rewrite Hs, seq_S. do 2 f_equal. lia.
Qed.

Lemma gather_rows_kept (sessions : list session) (df_name : string)
    (idxs : list nat) :
  forall summarys r summarys' rows',
    fst (gather idxs sessions df_name summarys (Some r)) = Return (summarys', rows') ->
    rows' = Some r.
Proof.
  induction idxs as [|i rest IH]; intros summarys r summarys' rows' H.
  - cbn in H. now inversion H.
  - cbn [gather] in H. rewrite io_bind_fst in H. cbn [io_lift fst] in H.
    destruct (nth_error sessions i) as [s|]; cbn [of_option] in H; [|discriminate].
    rewrite io_bind_fst in H.
    destruct (fst (stat_summary s df_name "None" false)) as [[t|]|e];
      [| |discriminate]; exact (IH _ _ _ _ H).
Qed.

Lemma gather_first_rows (sessions : list session) (df_name : string)
    (idxs : list nat) :
  forall summarys summarys' r,
    fst (gather idxs sessions df_name summarys None) = Return (summarys', Some r) ->
    exists s t,
      In s sessions
      /\ fst (stat_summary s df_name "None" false) = Return (Some t)
      /\ r = stat_index t.
Proof.
  induction idxs as [|i rest IH]; intros summarys summarys' r H.
  - cbn in H. inversion H.
  - cbn [gather] in H. rewrite io_bind_fst in H. cbn [io_lift fst] in H.
    destruct (nth_error sessions i) as [s|] eqn:Hs; cbn [of_option] in H;
      [|discriminate].
    rewrite io_bind_fst in H.
    destruct (fst (stat_summary s df_name "None" false)) as [[t|]|e] eqn:E;
      [| |discriminate].
    + apply gather_rows_kept in H. inversion H; subst.
      exists s, t. split; [exact (nth_error_In _ _ Hs)|]. auto.
    + exact (IH _ _ _ H).
Qed.

(** The images saved by a run that returns, by the rows that end a page. *)
Lemma plot_saved_rows
    (nwb_files : list string) (sessions : list session) (base df_name : string) :
  fst (plot_stats_across_sessions nwb_files sessions base df_name) = Return tt ->
  exists s t,
    In s sessions
    /\ fst (stat_summary s df_name "None" false) = Return (Some t)
    /\ saved_figures (snd (plot_stats_across_sessions nwb_files sessions base df_name))
       = let nRow := if String.eqb df_name "rois"
                     then length (stat_index t) / 2
                     else length (stat_index t) in
         map (fun i => page_name base (i / 10 + 1))
             (filter (fun i => (i mod 10 =? 9)%nat || (i =? nRow - 1)%nat)
                     (seq 0 nRow)).
Proof.
  unfold plot_stats_across_sessions.
  rewrite io_bind_fst, io_bind_snd, gather_quiet. cbn [app].
  destruct (fst (gather (seq 0 (length nwb_files)) sessions df_name [] None))
    as [[summarys rows]|e] eqn:E; [|discriminate].
  rewrite io_bind_fst, io_bind_snd. cbn [io_lift fst snd].
  destruct rows as [r|]; cbn [of_option]; [|discriminate].
  cbn [app]. intros H.
  destruct (gather_first_rows _ _ _ _ _ _ E) as (s & t & Hs & Ht & ->).
  exists s, t. split; [exact Hs|]. split; [exact Ht|].
  rewrite !app_nil_l, (plot_rows_saved _ _ _ _ _ _ _ H). reflexivity.
Qed.

(** X21.  The pages of a comparison.  When [plot_stats_across_sessions]
    returns, a session of the list that has the field fixed the rows; with
    nRow the number of rows of its summary (half of it, rounded down, for
    the ROI table), the run saved one image for every ten rows or part of
    ten, named [{base}_01.png], [{base}_02.png], ... in this order, and
    no other image. *)
Theorem plot_pages
    (nwb_files : list string) (sessions : list session) (base df_name : string) :
  fst (plot_stats_across_sessions nwb_files sessions base df_name) = Return tt ->
  exists s t,
    In s sessions
    /\ fst (stat_summary s df_name "None" false) = Return (Some t)
    /\ saved_figures (snd (plot_stats_across_sessions nwb_files sessions base df_name))
       = map (page_name base)
           (seq 1 (((if String.eqb df_name "rois"
                     then length (stat_index t) / 2
                     else length (stat_index t)) + 9) / 10)).
Proof.
  intros H. destruct (plot_saved_rows _ _ _ _ H) as (s & t & Hs & Ht & Hsaved).
  exists s, t. split; [exact Hs|]. split; [exact Ht|].
  rewrite Hsaved. cbv zeta.
  rewrite <- (map_map (fun i => i / 10 + 1) (page_name base)).
  now rewrite pages_count.
Qed.


(** ** The sessions of one animal: the order of the files *)

Lemma total_order_le_trans {A : Type} (cmp : A -> A -> comparison) :
  total_order cmp ->
  forall a b c, cmp a b <> Gt -> cmp b c <> Gt -> cmp a c <> Gt.
Proof.
  intros (Heq & Hanti & Htrans) a b c Hab Hbc.
  destruct (cmp a b) eqn:E1; [| |contradiction].
  - apply Heq in E1. subst. exact Hbc.
  - destruct (cmp b c) eqn:E2; [| |contradiction].
    + apply Heq in E2. subst. rewrite E1. discriminate.
    + rewrite (Htrans _ _ _ E1 E2). discriminate.
Qed.

Lemma total_order_le_total {A : Type} (cmp : A -> A -> comparison) :
  total_order cmp -> forall a b, cmp a b = Gt -> cmp b a <> Gt.
Proof.
  intros (_ & Hanti & _) a b H. rewrite Hanti, H. discriminate.
Qed.

Lemma total_order_ext {A : Type} (cmp cmp' : A -> A -> comparison) :
  (forall a b, cmp a b = cmp' a b) -> total_order cmp' -> total_order cmp.
Proof.
  intros Hext (Heq & Hanti & Htrans). split; [|split].
  - intros a b. rewrite Hext. apply Heq.
  - intros a b. rewrite !Hext. apply Hanti.
  - intros a b c. rewrite !Hext. apply Htrans.
Qed.

Lemma lex_total_order {A B : Type} (cmpA : A -> A -> comparison)
    (cmpB : B -> B -> comparison) :
  total_order cmpA -> total_order cmpB -> total_order (lex cmpA cmpB).
Proof.
  intros (HeqA & HantiA & HtransA) (HeqB & HantiB & HtransB). unfold lex.
  split; [|split].
  - intros [a1 a2] [b1 b2]. cbn [fst snd]. split.
    + intros H. destruct (cmpA a1 b1) eqn:E; try discriminate.
      apply HeqA in E. apply HeqB in H. congruence.
    + intros H. inversion H; subst.
      rewrite (proj2 (HeqA b1 b1) eq_refl). now apply HeqB.
  - intros a b. rewrite (HantiA (fst a) (fst b)).
    destruct (cmpA (fst b) (fst a)); cbn [CompOpp]; auto.
  - intros a b c. destruct (cmpA (fst a) (fst b)) eqn:E1; try discriminate.
    + apply HeqA in E1. rewrite E1.
      destruct (cmpA (fst b) (fst c)) eqn:E2; try discriminate; auto.
      apply HtransB.
    + intros _. destruct (cmpA (fst b) (fst c)) eqn:E2; try discriminate.
      * apply HeqA in E2. rewrite <- E2, E1. auto.
      * intros _. now rewrite (HtransA _ _ _ E1 E2).
Qed.

Lemma N_total_order : total_order N.compare.
Proof.
  split; [|split].
  - intros a b. apply N.compare_eq_iff.
  - intros a b. apply N.compare_antisym.
  - intros a b c H1 H2. rewrite N.compare_lt_iff in *. lia.
Qed.

Lemma nat_total_order : total_order Nat.compare.
Proof.
  split; [|split].
  - intros a b. apply Nat.compare_eq_iff.
  - intros a b. apply Nat.compare_antisym.
  - intros a b c H1 H2. rewrite Nat.compare_lt_iff in *. lia.
Qed.

Lemma ascii_total_order : total_order Ascii.compare.
Proof.
  split; [|split].
  - intros a b. split; [apply Ascii.compare_eq_iff|].
    intros ->. unfold Ascii.compare. apply N.compare_refl.
  - intros a b. apply Ascii.compare_antisym.
  - intros a b c. unfold Ascii.compare. rewrite !N.compare_lt_iff. lia.
Qed.

Lemma string_compare_refl (s : string) : String.compare s s = Eq.
Proof.
  induction s as [|c s IH]; [reflexivity|]. cbn [String.compare].
  now rewrite (proj2 (proj1 ascii_total_order c c) eq_refl).
Qed.

Lemma string_compare_trans (a b c : string) :
  String.compare a b = Lt -> String.compare b c = Lt -> String.compare a c = Lt.
Proof.
  destruct ascii_total_order as (Heq & _ & Htrans).
  revert b c. induction a as [|x a IH]; intros [|y b] [|z c];
    cbn [String.compare]; try discriminate; auto.
  destruct (Ascii.compare x y) eqn:E1; try discriminate.
  - apply Heq in E1. subst y.
    destruct (Ascii.compare x z); try discriminate; auto. apply IH.
  - intros _. destruct (Ascii.compare y z) eqn:E2; try discriminate.
    + apply Heq in E2. subst z. now rewrite E1.
    + intros _. now rewrite (Htrans _ _ _ E1 E2).
Qed.

Lemma string_total_order : total_order String.compare.
Proof.
  split; [|split].
  - intros a b. split; [apply String.compare_eq_iff|].
    intros ->. apply string_compare_refl.
  - intros a b. apply String.compare_antisym.
  - exact string_compare_trans.
Qed.

Lemma key_total_order : total_order key_compare.
Proof.
  apply (total_order_ext key_compare
           (lex (lex (lex String.compare String.compare) Nat.compare) N.compare)).
  - intros [[[s1 d1] t1] n1] [[[s2 d2] t2] n2]. unfold key_compare, lex.
    cbn [fst snd].
    destruct (String.compare s1 s2); try reflexivity.
    destruct (String.compare d1 d2); reflexivity.
  - apply lex_total_order; [|exact N_total_order].
    apply lex_total_order; [|exact nat_total_order].
    apply lex_total_order; exact string_total_order.
Qed.

Lemma insert_perm (x : key * string) (l : list (key * string)) :
  Permutation (x :: l) (insert_by_key x l).
Proof.
  induction l as [|y l IH]; cbn [insert_by_key]; [apply Permutation_refl|].
  destruct (key_compare (fst x) (fst y)); try apply Permutation_refl.
  apply perm_trans with (y :: x :: l); [apply perm_swap | now apply perm_skip].
Qed.

Lemma sort_perm (ks : list (key * string)) :
  Permutation ks (fold_right insert_by_key [] ks).
Proof.
  induction ks as [|x ks IH]; cbn [fold_right]; [apply perm_nil|].
  apply perm_trans with (x :: fold_right insert_by_key [] ks);
    [now apply perm_skip | apply insert_perm].
Qed.

Lemma insert_sorted (x : key * string) (l : list (key * string)) :
  StronglySorted key_le l -> StronglySorted key_le (insert_by_key x l).
Proof.
  induction 1 as [|y l Hl IH Hy]; cbn [insert_by_key].
  - constructor; constructor.
  - assert (Hcons : key_compare (fst x) (fst y) <> Gt ->
                    StronglySorted key_le (x :: y :: l)).
    { intros Hxy. constructor; [now constructor|].
      constructor; [exact Hxy|]. rewrite Forall_forall in Hy |- *.
      intros z Hz. unfold key_le.
      exact (total_order_le_trans key_compare key_total_order _ _ _ Hxy (Hy z Hz)). }
    destruct (key_compare (fst x) (fst y)) eqn:E;
      [apply Hcons; discriminate | apply Hcons; discriminate |].
    constructor; [exact IH|].
    rewrite Forall_forall in Hy |- *. intros z Hz.
    apply (Permutation_in z (Permutation_sym (insert_perm x l))) in Hz.
    destruct Hz as [<-|Hz]; [|exact (Hy z Hz)].
    unfold key_le. exact (total_order_le_total key_compare key_total_order _ _ E).
Qed.

Lemma sort_sorted (ks : list (key * string)) :
  StronglySorted key_le (fold_right insert_by_key [] ks).
Proof.
  induction ks as [|x ks IH]; cbn [fold_right]; [constructor|].
  now apply insert_sorted.
Qed.

Lemma list_index_raises (x : string) (l : list string) (e : exn) :
  list_index x l = Raise e -> e = ValueError.
Proof.
  induction l as [|y l IH]; cbn [list_index]; [now inversion 1|].
  destruct (String.eqb x y); [discriminate|].
  destruct (list_index x l) as [i|e']; cbn [bind]; [discriminate|].
  intros H. inversion H; subst. exact (IH eq_refl).
Qed.

Lemma nwb_file_indexer_raises (name : string) (e : exn) :
  nwb_file_indexer name = Raise e -> e = ValueError.
Proof.
  unfold nwb_file_indexer.
  destruct (Re.re_match file_matcher (stem name)) as [groups|]; [|now inversion 1].
  destruct (list_index (nth 2 groups "") type_indexer) as [ty|e'] eqn:E1; cbn [bind].
  - unfold int_of_digits. destruct (_ && _); cbn [bind]; [discriminate|].
    now inversion 1.
  - intros H. inversion H; subst. exact (list_index_raises _ _ _ E1).
Qed.

Lemma keys_of_Return (files : list string) (ks : list (key * string)) :
  keys_of files = Return ks -> map snd ks = files /\ Forall keyed ks.
Proof.
  revert ks. induction files as [|p files IH]; intros ks H; cbn [keys_of] in H.
  - inversion H. split; [reflexivity | constructor].
  - apply bind_Return_inv in H. destruct H as (k & Hk & H).
    apply bind_Return_inv in H. destruct H as (ks' & Hks & H).
    inversion H; subst. destruct (IH _ Hks) as [Hm Hall].
    cbn [map snd]. split; [now rewrite Hm|]. constructor; [exact Hk | exact Hall].
Qed.

Lemma keys_of_raises (files : list string) (e : exn) :
  keys_of files = Raise e -> e = ValueError.
Proof.
  induction files as [|p files IH]; cbn [keys_of]; [discriminate|].
  destruct (nwb_file_indexer (last_component p)) as [k|e'] eqn:E; cbn [bind].
  - destruct (keys_of files) as [ks|e'']; cbn [bind]; [discriminate|].
    intros H. inversion H; subst. exact (IH eq_refl).
  - intros H. inversion H; subst. exact (nwb_file_indexer_raises _ _ E).
Qed.

Lemma keys_of_malformed (files : list string) (p : string) :
  In p files ->
  nwb_file_indexer (last_component p) = Raise ValueError ->
  keys_of files = Raise ValueError.
Proof.
  intros Hin Hp. induction files as [|q files IH]; [destruct Hin|].
  cbn [keys_of]. destruct Hin as [->|Hin].
  - now rewrite Hp.
  - destruct (nwb_file_indexer (last_component q)) as [k|e] eqn:E; cbn [bind].
    + now rewrite (IH Hin).
    + now rewrite (nwb_file_indexer_raises _ _ E).
Qed.

Lemma sorted_paths (l : list (key * string)) :
  StronglySorted key_le l -> Forall keyed l -> StronglySorted path_le (map snd l).
Proof.
  induction 1 as [|a l Hl IH Ha]; intros Hg; cbn [map]; [constructor|].
  inversion Hg as [|? ? Hka Hgl]; subst. constructor; [exact (IH Hgl)|].
  rewrite Forall_forall in *. intros q Hq. apply in_map_iff in Hq.
  destruct Hq as (b & <- & Hb). unfold path_le.
  unfold keyed in Hka. rewrite Hka. specialize (Hgl b Hb). unfold keyed in Hgl.
  rewrite Hgl. exact (Ha b Hb).
Qed.

Lemma sorted_spec (files l : list string) :
  sorted files = Return l -> Permutation files l /\ StronglySorted path_le l.
Proof.
  unfold sorted. intros H. apply bind_Return_inv in H. destruct H as (ks & Hks & H).
  inversion H; subst. clear H. destruct (keys_of_Return _ _ Hks) as [<- Hall].
  split.
  - apply Permutation_map. apply sort_perm.
  - apply sorted_paths; [apply sort_sorted|].
    exact (Permutation_Forall (sort_perm ks) Hall).
Qed.

Lemma sorted_raises (files : list string) (e : exn) :
  sorted files = Raise e -> e = ValueError.
Proof.
  unfold sorted. destruct (keys_of files) as [ks|e'] eqn:E; cbn [bind];
    [discriminate|].
  intros H. inversion H; subst. exact (keys_of_raises _ _ E).
Qed.


(** ** The sessions of one animal: loading and drawing *)

Lemma reading_saves (t : list event) : Forall reading t -> saved_figures t = [].
Proof.
  induction 1 as [|e t He _ IH]; [reflexivity|].
  destruct e; cbn in He; try contradiction; exact IH.
Qed.

Lemma drawing_opened (t : list event) : Forall drawing t -> opened t = [].
Proof.
  induction 1 as [|e t He _ IH]; [reflexivity|].
  destruct e; cbn in He; try contradiction; exact IH.
Qed.

Lemma opened_app (a b : list event) : opened (a ++ b) = opened a ++ opened b.
Proof.
  unfold opened. apply flat_map_app.
Qed.

Lemma load_reading (fs : string -> option NWBFile) (path : string)
    (downsampled isResting isSensory : bool) :
  Forall reading (snd (load_from_file fs path downsampled isResting isSensory)).
Proof.
  rewrite load_trace. destruct (fs path); repeat constructor.
Qed.

Lemma load_opened (fs : string -> option NWBFile) (path : string)
    (downsampled isResting isSensory : bool) :
  match fst (load_from_file fs path downsampled isResting isSensory) with
  | Return _ =>
      opened (snd (load_from_file fs path downsampled isResting isSensory)) = [path]
  | Raise _ =>
      opened (snd (load_from_file fs path downsampled isResting isSensory)) = [path]
      \/ opened (snd (load_from_file fs path downsampled isResting isSensory)) = []
  end.
Proof.
  rewrite load_trace. destruct (fs path) as [f|] eqn:Hf.
  - destruct (fst (load_from_file _ _ _ _ _)); [reflexivity | left; reflexivity].
  - unfold load_from_file, io_bind, with_nwb. rewrite Hf. right. reflexivity.
Qed.

Lemma load_sessions_reading (fs : string -> option NWBFile) (l : list string) :
  Forall reading (snd (load_sessions fs l)).
Proof.
  induction l as [|p l IH]; [constructor|].
  cbn [load_sessions]. rewrite io_bind_snd. cbn [emit fst snd].
  apply Forall_app. split; [repeat constructor|].
  rewrite io_bind_snd.
  pose proof (load_reading fs p true (Str.contains "resting" (last_component p))
                (Str.contains "sensory" (last_component p))) as Hl.
  destruct (fst (load_from_file _ _ _ _ _)); [|exact Hl].
  apply Forall_app. split; [exact Hl|].
  rewrite io_bind_snd. destruct (fst (load_sessions fs l)); [|exact IH].
  cbn [io_ret snd]. rewrite app_nil_r. exact IH.
Qed.

Lemma load_sessions_opened (fs : string -> option NWBFile) (l : list string) :
  exists k, opened (snd (load_sessions fs l)) = firstn k l.
Proof.
  induction l as [|p l (k & IH)]; [exists 0; reflexivity|].
  cbn [load_sessions]. rewrite io_bind_snd. cbn [emit fst snd].
  rewrite opened_app. change (opened [Print ("loading " ++ p)]) with (@nil string).
  rewrite app_nil_l, io_bind_snd.
  pose proof (load_opened fs p true (Str.contains "resting" (last_component p))
                (Str.contains "sensory" (last_component p))) as Hl.
  destruct (fst (load_from_file _ _ _ _ _)).
  - rewrite opened_app, Hl, io_bind_snd.
    destruct (fst (load_sessions fs l)).
    + cbn [io_ret snd]. rewrite app_nil_r, IH. exists (S k). reflexivity.
    + rewrite IH. exists (S k). reflexivity.
  - destruct Hl as [-> | ->]; [exists 1 | exists 0]; reflexivity.
Qed.

Lemma load_sessions_Return (fs : string -> option NWBFile) (l : list string)
    (ss : list session) :
  fst (load_sessions fs l) = Return ss ->
  opened (snd (load_sessions fs l)) = l
  /\ Forall2 (fun p s =>
                fst (load_from_file fs p true
                       (Str.contains "resting" (last_component p))
                       (Str.contains "sensory" (last_component p)))
                = Return s) l ss.
Proof.
  revert ss. induction l as [|p l IH]; intros ss H.
  - cbn in H. inversion H. split; [reflexivity | constructor].
  - cbn [load_sessions] in H |- *. rewrite io_bind_fst in H. cbn [emit fst] in H.
    rewrite io_bind_fst in H. rewrite io_bind_snd. cbn [emit fst snd].
    rewrite opened_app. change (opened [Print ("loading " ++ p)]) with (@nil string).
    rewrite app_nil_l, io_bind_snd.
    pose proof (load_opened fs p true (Str.contains "resting" (last_component p))
                  (Str.contains "sensory" (last_component p))) as Hl.
    destruct (fst (load_from_file _ _ _ _ _)) as [s|] eqn:E; [|discriminate].
    rewrite io_bind_fst in H. rewrite opened_app, Hl, io_bind_snd.
    destruct (fst (load_sessions fs l)) as [ss'|]; [|discriminate].
    cbn [io_ret fst snd] in H |- *. inversion H; subst.
    destruct (IH _ eq_refl) as [Ho Hall]. rewrite app_nil_r, Ho.
    split; [reflexivity|]. constructor; [exact E | exact Hall].
Qed.



Lemma plot_single_drawing (iRow : nat) (js : list (nat * string)) (idx : list nat)
    (result : series) :
  Forall drawing (snd (plot_single iRow js idx result)).
Proof.
  induction js as [|[j stat] rest IH]; [constructor|].
  cbn [plot_single]. rewrite io_bind_snd. cbn [io_lift fst snd].
  destruct (stat_values stat result) as [ys|]; [|constructor].
  rewrite app_nil_l, io_bind_snd. cbn [emit fst snd].
  apply Forall_app. split; [repeat constructor | exact IH].
Qed.

Lemma plot_pair_drawing (iRow : nat) (js : list (nat * string))
    (result_l result_r : series) :
  Forall drawing (snd (plot_pair iRow js result_l result_r)).
Proof.
  induction js as [|[j stat] rest IH]; [constructor|].
  cbn [plot_pair]. rewrite io_bind_snd. cbn [io_lift fst snd].
  destruct (stat_values stat result_l) as [ys|]; [|constructor].
  rewrite app_nil_l, io_bind_snd. cbn [emit fst snd].
  apply Forall_app. split; [repeat constructor|].
  rewrite io_bind_snd. cbn [io_lift fst snd].
  destruct (stat_values stat result_r) as [ys'|]; [|constructor].
  rewrite app_nil_l, io_bind_snd. cbn [emit fst snd].
  apply Forall_app. split; [repeat constructor | exact IH].
Qed.

Lemma plot_row_drawing (i : nat) (is_rois : bool) (rows : list label)
    (summarys : list (option StatFrame)) :
  Forall drawing (snd (plot_row i is_rois rows summarys)).
Proof.
  unfold plot_row. destruct is_rois.
  - rewrite io_bind_snd. cbn [io_lift fst snd].
    destruct (of_option IndexError (nth_error rows i)) as [row|]; [|constructor].
    rewrite app_nil_l, io_bind_snd. cbn [io_lift fst snd].
    destruct (loc_rows _ summarys) as [sl|]; [|constructor].
    rewrite app_nil_l, io_bind_snd. cbn [io_lift fst snd].
    destruct (concat_series sl) as [rl|]; [|constructor].
    rewrite app_nil_l, io_bind_snd. cbn [io_lift fst snd].
    destruct (loc_rows _ summarys) as [sr|]; [|constructor].
    rewrite app_nil_l, io_bind_snd. cbn [io_lift fst snd].
    destruct (concat_series sr) as [rr|]; [|constructor].
    rewrite app_nil_l. apply plot_pair_drawing.
  - rewrite io_bind_snd. cbn [io_lift fst snd].
    destruct (of_option IndexError (nth_error rows i)) as [row|]; [|constructor].
    rewrite app_nil_l, io_bind_snd. cbn [io_lift fst snd].
    destruct (select_rows i summarys 1 [] []) as [[selected idx]|]; [|constructor].
    rewrite app_nil_l, io_bind_snd. cbn [io_lift fst snd].
    destruct (concat_series selected) as [result|]; [|constructor].
    rewrite app_nil_l. apply plot_single_drawing.
Qed.

Lemma plot_rows_drawing (todo : list nat) (nRow : nat) (is_rois : bool)
    (rows : list label) (summarys : list (option StatFrame))
    (nwb_files : list string) (base : string) :
  Forall drawing (snd (plot_rows todo nRow is_rois rows summarys nwb_files base)).
Proof.
  induction todo as [|i rest IH]; [constructor|].
  cbn [plot_rows]. rewrite io_bind_snd.
  pose proof (plot_row_drawing i is_rois rows summarys) as Hrow.
  destruct (fst (plot_row i is_rois rows summarys)); [|exact Hrow].
  apply Forall_app. split; [exact Hrow|].
  rewrite io_bind_snd. unfold when.
  destruct ((i mod maxRow =? maxRow - 1)%nat || (i =? nRow - 1)%nat).
  - destruct (finish_page_saved nwb_files base i) as [Hf _]. rewrite Hf.
    apply Forall_app. split; [|exact IH].
    unfold finish_page, io_bind, emit. cbn [fst snd]. repeat constructor.
  - cbn [io_ret fst snd]. rewrite app_nil_l. exact IH.
Qed.

Lemma plot_stats_drawing
    (nwb_files : list string) (sessions : list session) (base df_name : string) :
  Forall drawing (snd (plot_stats_across_sessions nwb_files sessions base df_name)).
Proof.
  unfold plot_stats_across_sessions. rewrite io_bind_snd, gather_quiet.
  destruct (fst (gather _ sessions df_name [] None)) as [[summarys rows]|];
    [|constructor].
  rewrite app_nil_l, io_bind_snd. cbn [io_lift fst snd].
  destruct (of_option TypeError rows) as [r|]; [|constructor].
  rewrite app_nil_l. apply plot_rows_drawing.
Qed.

Lemma plot_field_drawing (df_name folder_path : string)
    (output_folder : option string) (nwb_files : list string)
    (sessions : list session) :
  Forall drawing
    (snd (plot_field df_name folder_path output_folder nwb_files sessions)).
Proof.
  unfold plot_field. destruct (String.eqb df_name "rois"); apply plot_stats_drawing.
Qed.

Lemma plot_fields_drawing (names : list string) (folder_path : string)
    (output_folder : option string) (nwb_files : list string)
    (sessions : list session) :
  Forall drawing
    (snd (plot_fields names folder_path output_folder nwb_files sessions)).
Proof.
  induction names as [|n names IH]; [constructor|].
  cbn [plot_fields]. rewrite io_bind_snd.
  pose proof (plot_field_drawing n folder_path output_folder nwb_files sessions) as H.
  destruct (fst (plot_field n folder_path output_folder nwb_files sessions));
    [|exact H].
  apply Forall_app. split; [exact H | exact IH].
Qed.

(** The run of [plot_summary_within_animal] once the files are listed. *)
Lemma summary_unfold (rglob : string -> option (list string))
    (fs : string -> option NWBFile) (folder_path : string)
    (output_folder : option string) (files : list string) :
  rglob folder_path = Some files ->
  plot_summary_within_animal rglob fs folder_path output_folder
  = match sorted files with
    | Raise e => (Raise e, [])
    | Return l =>
        match fst (load_sessions fs l) with
        | Raise e => (Raise e, snd (load_sessions fs l))
        | Return ss =>
            (fst (plot_fields df_name_list folder_path output_folder l ss),
             snd (load_sessions fs l)
             ++ snd (plot_fields df_name_list folder_path output_folder l ss))
        end
    end.
Proof.
  intros H. unfold plot_summary_within_animal, io_bind. rewrite H.
  cbn [of_option io_lift fst snd].
  destruct (sorted files) as [l|e]; cbn [fst snd]; [|reflexivity].
  destruct (load_sessions fs l) as [[ss|e] t1]; cbn [fst snd]; [|reflexivity].
  reflexivity.
Qed.

(** X22.  One file that the indexer refuses stops everything.  When a
    '.nwb' file below the folder has a name whose stem does not start as
    the naming convention says, [plot_summary_within_animal] raises the
    [ValueError] of the indexer while it sorts the files: no file is
    opened, nothing is printed and nothing is drawn, whatever the other
    files are. *)
Theorem summary_malformed_name
    (rglob : string -> option (list string)) (fs : string -> option NWBFile)
    (folder_path : string) (output_folder : option string)
    (files : list string) (p : string) :
  rglob folder_path = Some files ->
  In p files ->
  ~ starts_as_convention (stem (last_component p)) ->
  plot_summary_within_animal rglob fs folder_path output_folder
  = (Raise ValueError, []).
Proof.
  intros Hfiles Hin Hp. rewrite (summary_unfold _ _ _ _ _ Hfiles).
  assert (Hk : nwb_file_indexer (last_component p) = Raise ValueError).
  { unfold nwb_file_indexer. apply re_match_convention in Hp. now rewrite Hp. }
  unfold sorted. now rewrite (keys_of_malformed _ _ Hin Hk).
Qed.

(** X23.  The sessions are loaded in the order of their keys.  When every
    name is indexed, the files are taken in an order that is a
    rearrangement of the listing in which the keys (subject, date, type
    index, day) never decrease, the day being compared as a number; the
    containers that a run opens are the first files of this order, and all
    of them when the run returns. *)
Theorem summary_load_order
    (rglob : string -> option (list string)) (fs : string -> option NWBFile)
    (folder_path : string) (output_folder : option string)
    (files l : list string) :
  rglob folder_path = Some files ->
  sorted files = Return l ->
  Permutation files l
  /\ StronglySorted path_le l
  /\ (exists k,
        opened (snd (plot_summary_within_animal rglob fs folder_path output_folder))
        = firstn k l)
  /\ (fst (plot_summary_within_animal rglob fs folder_path output_folder)
      = Return tt ->
      opened (snd (plot_summary_within_animal rglob fs folder_path output_folder))
      = l).
Proof.
  intros Hfiles Hl. destruct (sorted_spec _ _ Hl) as [Hperm Hsorted].
  split; [exact Hperm|]. split; [exact Hsorted|].
  rewrite (summary_unfold _ _ _ _ _ Hfiles), Hl.
  destruct (fst (load_sessions fs l)) as [ss|e] eqn:E; cbn [fst snd].
  - destruct (load_sessions_Return _ _ _ E) as [Ho _].
    rewrite opened_app, Ho, (drawing_opened _ (plot_fields_drawing _ _ _ _ _)),
      app_nil_r.
    split; [|reflexivity]. exists (length l). symmetry. apply firstn_all.
  - split; [apply load_sessions_opened | discriminate].
Qed.



Lemma no_sensory_length {A : Type} (xs : list A) (flags : list bool) :
  length xs = length flags ->
  length (no_sensory xs flags) = length (filter negb flags).
Proof.
  unfold no_sensory. revert flags.
  induction xs as [|x xs IH]; intros [|b flags]; cbn [combine filter map length];
    try discriminate; [reflexivity|].
  intros H. cbn [snd]. destruct b; cbn [negb map length].
  - apply IH. lia.
  - f_equal. apply IH. lia.
Qed.

Lemma flags_count (l : list string) :
  length (filter negb (map (Str.contains "sensory") (map last_component l)))
  = length (filter (fun p => negb (Str.contains "sensory" (last_component p))) l).
Proof.
  induction l as [|p l IH]; [reflexivity|]. cbn [map filter].
  destruct (Str.contains "sensory" (last_component p)); cbn [negb length];
    now rewrite IH.
Qed.

Lemma perm_filter_length {A : Type} (f : A -> bool) (l l' : list A) :
  Permutation l l' -> length (filter f l) = length (filter f l').
Proof.
  induction 1 as [|x l l' _ IH|x y l|l l' l'' _ IH1 _ IH2]; cbn [filter].
  - reflexivity.
  - destruct (f x); cbn [length]; now rewrite IH.
  - destruct (f x), (f y); reflexivity.
  - now rewrite IH1.
Qed.

Lemma filter_length_le {A : Type} (f : A -> bool) (l : list A) :
  length (filter f l) <= length l.
Proof.
  induction l as [|x l IH]; [apply Nat.le_refl|]. cbn [filter].
  destruct (f x); cbn [length]; lia.
Qed.

(** X25.  An animal needs two sessions that are not sensory.  The first
    comparison is that of the acquisition table over the sessions whose
    file name has no 'sensory' in it; with fewer than two such files the
    run raises, and all it did was to load and to print: no comparison is
    drawn, not even that of the ROI tables, whatever the number of sensory
    sessions. *)
Theorem summary_needs_two_sessions
    (rglob : string -> option (list string)) (fs : string -> option NWBFile)
    (folder_path : string) (output_folder : option string)
    (files : list string) :
  rglob folder_path = Some files ->
  length (filter (fun p => negb (Str.contains "sensory" (last_component p))) files)
  < 2 ->
  raises (fst (plot_summary_within_animal rglob fs folder_path output_folder))
  /\ Forall reading
       (snd (plot_summary_within_animal rglob fs folder_path output_folder)).
Proof.
  intros Hfiles Hfew. rewrite (summary_unfold _ _ _ _ _ Hfiles).
  destruct (sorted files) as [l|e] eqn:Hl;
    [|split; [eexists; reflexivity | constructor]].
  destruct (sorted_spec _ _ Hl) as [Hperm _].
  destruct (fst (load_sessions fs l)) as [ss|e] eqn:E;
    [|split; [eexists; reflexivity | apply load_sessions_reading]].
  destruct (load_sessions_Return _ _ _ E) as [_ Hall].
  apply Forall2_length in Hall.
  set (flags := map (Str.contains "sensory") (map last_component l)).
  assert (Hlen : length ss = length flags).
  { unfold flags. now rewrite !length_map. }
  assert (Hnames : length (map last_component l) = length flags).
  { unfold flags. now rewrite !length_map. }
  assert (Hcount : length (no_sensory ss flags) < 2).
  { rewrite (no_sensory_length _ _ Hlen). unfold flags. rewrite flags_count.
    now rewrite <- (perm_filter_length _ _ _ Hperm). }
  destruct (plot_few_sessions (no_sensory (map last_component l) flags)
              (no_sensory ss flags)
              (png_path_base folder_path output_folder "daq") "daq")
    as (e & He).
  - discriminate.
  - now rewrite (no_sensory_length _ _ Hlen), (no_sensory_length _ _ Hnames).
  - pose proof (filter_length_le (has_field "daq") (no_sensory ss flags)). lia.
  - assert (Hdaq : plot_field "daq" folder_path output_folder l ss
                   = (Raise e, [])).
    { unfold plot_field. change (String.eqb "daq" "rois") with false. cbv iota.
      fold flags. exact He. }
    unfold df_name_list. cbn [plot_fields]. rewrite io_bind_fst, io_bind_snd, Hdaq.
    cbn [fst snd]. split; [eexists; reflexivity|].
    rewrite app_nil_r. apply load_sessions_reading.
Qed.

Lemma plot_field_first_page (df_name folder_path : string)
    (output_folder : option string) (nwb_files : list string)
    (sessions : list session) :
  df_name <> "rois" ->
  fst (plot_field df_name folder_path output_folder nwb_files sessions) = Return tt ->
  In (page_name (png_path_base folder_path output_folder df_name) 1)
     (saved_figures
        (snd (plot_field df_name folder_path output_folder nwb_files sessions))).
Proof.
  intros Hne H. unfold plot_field in *. apply String.eqb_neq in Hne.
  rewrite Hne in *.
  destruct (plot_saved_rows _ _ _ _ H) as (s & t & _ & Ht & Hsaved).
  rewrite Hsaved, Hne. cbv zeta.
  rewrite <- (map_map (fun i => i / 10 + 1) (page_name _)), pages_count.
  destruct (stat_summary_rows _ _ _ _ _ Ht) as (_ & Hrows & _).
  assert (Hpos : 1 <= (length (stat_index t) + 9) / 10).
  { apply Nat.div_le_lower_bound; [discriminate|].
    unfold stat_index. destruct (stat_rows t); [contradiction|].
    cbn [map length]. lia. }
  destruct ((length (stat_index t) + 9) / 10) as [|m]; [lia|].
  cbn [seq map]. left. reflexivity.
Qed.

Lemma plot_fields_first_pages (names : list string) (folder_path : string)
    (output_folder : option string) (nwb_files : list string)
    (sessions : list session) :
  fst (plot_fields names folder_path output_folder nwb_files sessions) = Return tt ->
  forall df_name,
    In df_name names -> df_name <> "rois" ->
    In (page_name (png_path_base folder_path output_folder df_name) 1)
       (saved_figures
          (snd (plot_fields names folder_path output_folder nwb_files sessions))).
Proof.
  induction names as [|n names IH]; [intros _ df []|].
  cbn [plot_fields]. rewrite io_bind_fst, io_bind_snd.
  destruct (fst (plot_field n folder_path output_folder nwb_files sessions))
    as [[]|] eqn:E; [|discriminate].
  intros H df Hin Hne. rewrite saved_figures_app. apply in_or_app.
  destruct Hin as [<-|Hin].
  - left. now apply plot_field_first_page.
  - right. now apply IH.
Qed.

(** X26.  What a run that returns has saved.  When
    [plot_summary_within_animal] returns, the first page of each of the
    five comparisons of behavioural tables has been saved, under
    [{folder}/summary/{animal}_{field}_01.png] or under that name in the
    output folder; the animal is the last component of the folder path. *)
Theorem summary_saves_first_pages
    (rglob : string -> option (list string)) (fs : string -> option NWBFile)
    (folder_path : string) (output_folder : option string) (df_name : string) :
  fst (plot_summary_within_animal rglob fs folder_path output_folder) = Return tt ->
  In df_name ["daq"; "body_video_tracking"; "face_video_tracking";
              "eye_video_tracking"; "pupil_tracking"] ->
  In (page_name (png_path_base folder_path output_folder df_name) 1)
     (saved_figures
        (snd (plot_summary_within_animal rglob fs folder_path output_folder))).
Proof.
  destruct (rglob folder_path) as [files|] eqn:Hfiles.
  2: { unfold plot_summary_within_animal, io_bind. rewrite Hfiles.
       cbn [of_option io_lift fst snd]. discriminate. }
  rewrite (summary_unfold _ _ _ _ _ Hfiles).
  destruct (sorted files) as [l|e]; [|discriminate].
  destruct (fst (load_sessions fs l)) as [ss|e]; [|discriminate].
  cbn [fst snd]. intros E Hin.
  rewrite saved_figures_app, (reading_saves _ (load_sessions_reading fs l)),
    app_nil_l.
  apply (plot_fields_first_pages _ _ _ _ _ E).
  - unfold df_name_list. in_part Hin.
  - intros ->. absurd_in Hin.
Qed.

Lemma no_sensory_In (l : list string) (ss : list session)
    (P : string -> session -> Prop) (flag : string -> bool) (s : session) :
  Forall2 P l ss ->
  In s (no_sensory ss (map flag l)) ->
  exists p, In p l /\ flag p = false /\ P p s.
Proof.
  unfold no_sensory. induction 1 as [|p s' l ss Hp _ IH]; cbn [map combine filter];
    [intros []|].
  cbn [snd]. destruct (flag p) eqn:E; cbn [negb map].
  - intros Hin. destruct (IH Hin) as (q & Hq & Hf & HP). exists q.
    split; [now right | auto].
  - cbn [fst]. intros [<-|Hin].
    + exists p. split; [now left | auto].
    + destruct (IH Hin) as (q & Hq & Hf & HP). exists q.
      split; [now right | auto].
Qed.

(** X27.  Why the sensory sessions are left out.  Every session that
    [plot_summary_within_animal] passes to a comparison of a behavioural
    table was loaded as a session that is not sensory, so its record has
    the field: the acquisition table is there, and a tracking table is
    there or is [None].  No such comparison meets a record without the
    attribute. *)
Theorem compared_sessions_have_fields
    (fs : string -> option NWBFile) (l : list string) (ss : list session)
    (s : session) (df_name : string) :
  fst (load_sessions fs l) = Return ss ->
  In s (no_sensory ss (map (Str.contains "sensory") (map last_component l))) ->
  In df_name ["daq"; "body_video_tracking"; "face_video_tracking";
              "eye_video_tracking"; "pupil_tracking"] ->
  (exists tab, getattr s "daq" = Return (VFrame tab))
  /\ (getattr s df_name = Return VNone
      \/ exists tab, getattr s df_name = Return (VFrame tab)).
Proof.
  intros Hload Hin Hdf. destruct (load_sessions_Return _ _ _ Hload) as [_ Hall].
  rewrite map_map in Hin.
  destruct (no_sensory_In _ _ _ (fun p => Str.contains "sensory" (last_component p))
              _ Hall Hin) as (p & _ & Hflag & Hp).
  cbn beta in Hflag, Hp. rewrite Hflag in Hp.
  destruct (load_nonsensory_inv _ _ _ _ _ Hp)
    as (f & daq & body & face & eye & pupil & _ & _ & _ & _ & _ & _
        & Hdaq & Hbody & Hface & Heye & Hpupil).
  split; [eauto|].
  assert (Hof : forall o, of_frame o = VNone \/ exists tab, of_frame o = VFrame tab).
  { intros [tab|]; [right; exists tab; reflexivity | left; reflexivity]. }
  simpl in Hdf.
  destruct Hdf as [<-|[<-|[<-|[<-|[<-|[]]]]]].
  - right. eauto.
  - rewrite Hbody. destruct (Hof body) as [-> | (tab & ->)]; eauto.
  - rewrite Hface. destruct (Hof face) as [-> | (tab & ->)]; eauto.
  - rewrite Heye. destruct (Hof eye) as [-> | (tab & ->)]; eauto.
  - rewrite Hpupil. destruct (Hof pupil) as [-> | (tab & ->)]; eauto.
Qed.

End Program.

(** * Concrete cases *)

(** ** The demonstration container loads as the demonstration record *)

Example demo_loads :
  load_from_file demo_cast_ub demo_fs demo_path true false false
  = (Return (demo_record (VFrame demo_face)),
     [NwbOpen demo_path; NwbClose demo_path]).
Proof. vm_compute. reflexivity. Qed.

(** ** C1 *)

(** The name 'Running-speed_ds' is kept and becomes the column
    'running_speed', not 'runningspeed'; and an inner '_ds' goes too. *)
Lemma column_identifier_counterexample :
  excluded "Running-speed_ds" = false
  /\ column_of "Running-speed_ds" = "running_speed"
  /\ spec_column_of "Running-speed_ds" = "runningspeed"
  /\ column_of "Running-speed_ds" <> spec_column_of "Running-speed_ds"
  /\ column_of "a_dsb" = "ab"
  /\ spec_column_of "a_dsb" = "a_dsb"
  /\ (exists df, read_acquisition demo_cast_ub demo_file true false = Return df
                 /\ column df (Name "running_speed") <> None
                 /\ column df (Name "runningspeed") = None).
Proof.
  repeat split; try reflexivity; try discriminate.
  exists demo_daq. repeat split; try reflexivity. discriminate.
Qed.

Lemma acquisition_column_identifiers_witness :
  In (Name "running_speed") (map fst (columns demo_daq)) <->
  exists name, In name (dict_keys demo_downsampled)
               /\ excluded name = false
               /\ Name "running_speed" = Name (column_of name).
Proof.
  apply (acquisition_column_identifiers demo_cast_ub demo_file true false
           demo_downsampled demo_daq); reflexivity.
Defined.

(** ** C4 *)

Lemma acquisition_coercion_witness :
  exists src,
    source_data demo_file true = Return src
    /\ exists a, dict_get String.eqb "reward" src = Some a
                 /\ column demo_daq (Name "reward")
                    = Some (Bools (map positive (values a))).
Proof.
  destruct (acquisition_coercion demo_cast_ub demo_file true demo_daq eq_refl)
    as (parent & src & _ & Hsrc & _ & Hbool & _).
  exists src. split; [exact Hsrc|]. apply Hbool. simpl. auto.
Defined.

(** ** C5 *)

Lemma load_missing_required_witness :
  raises (fst (load_from_file demo_cast_ub bare_fs bare_path true false false))
  /\ snd (load_from_file demo_cast_ub bare_fs bare_path true false false)
     = [NwbOpen bare_path; NwbClose bare_path].
Proof.
  destruct (load_missing_required demo_cast_ub bare_fs bare_path bare_file
              true false false eq_refl) as (H1 & H2 & _).
  - right. right. right. left. reflexivity.
  - split; assumption.
Defined.

(** ** C6 *)

(** The acquisition table of the demonstration record has five columns,
    three of them boolean; its summary has two rows. *)
Lemma summary_rows_counterexample :
  getattr (demo_record VNone) "daq" = Return (VFrame demo_daq)
  /\ map fst (columns demo_daq)
     = [Name "running_speed"; Name "reward"; Name "state_lever"; Name "tone";
        Name "state_task"]
  /\ exists summary,
       fst (stat_summary demo_reduce demo_to_string (demo_record VNone)
              "daq" demo_path false) = Return (Some summary)
       /\ stat_index summary = [Name "running_speed"; Name "state_task"]
       /\ length (stat_rows summary) <> length (columns demo_daq).
Proof.
  split; [reflexivity|]. split; [reflexivity|].
  eexists. split; [vm_compute; reflexivity|].
  split; [reflexivity | discriminate].
Qed.

Lemma stat_summary_table_witness :
  exists summary,
    fst (stat_summary demo_reduce demo_to_string (demo_record VNone)
           "daq" demo_path false) = Return (Some summary)
    /\ stat_columns summary = ["mean"; "std"; "min"; "max"; "nan_count"]
    /\ stat_rows summary = map (summary_row demo_reduce) (numeric_columns demo_daq).
Proof.
  destruct (stat_summary_table demo_reduce demo_to_string (demo_record VNone)
              "daq" demo_path false demo_daq eq_refl)
    as (summary & H1 & H2 & H3 & _).
  - discriminate.
  - right. reflexivity.
  - exists summary. repeat split; assumption.
Defined.

(** ** C7 *)

(** A stem with text after the day number does not follow the convention,
    and the name is indexed all the same. *)
Lemma file_indexer_counterexample :
  ~ follows_convention (stem "mouse01_2021-01-05_task-day3abc.ext")
  /\ nwb_file_indexer "mouse01_2021-01-05_task-day3abc.ext"
     = Return ("mouse01", "2021-01-05", 0, 3%N).
Proof.
  split; [|vm_compute; reflexivity].
  intros H. apply convention_ends_with_digit in H.
  destruct H as (c & Hc & Hd). vm_compute in Hc. inversion Hc; subst c.
  discriminate Hd.
Qed.

Lemma file_indexer_cases_witness :
  nwb_file_indexer "notes_2021.txt" = Raise ValueError.
Proof.
  apply (proj2 (proj2 file_indexer_cases)).
  apply re_match_convention. reflexivity.
Defined.

(** ** C8 *)

(** A container without the 'downsampled' processing module does not hold
    the body keypoints, and reading them raises. *)
Lemma video_tracking_counterexample :
  In "body" views
  /\ has_product bare_file "body" true = false
  /\ read_video_tracking bare_file "body" true = Raise KeyError
  /\ read_video_tracking bare_file "body" true <> Return None.
Proof.
  repeat split; try reflexivity; [simpl; auto | discriminate].
Qed.

Lemma video_tracking_absent_witness :
  read_video_tracking demo_file "body" true = Return None
  /\ read_video_tracking bare_file "body" true = Raise KeyError
  /\ read_video_tracking demo_file "tail" true = Raise ValueError.
Proof.
  split; [|split].
  - apply (proj1 (video_tracking_absent demo_file "body" true))
      with (parent := demo_downsampled); [simpl; auto | reflexivity | reflexivity].
  - apply (proj1 (proj2 (video_tracking_absent bare_file "body" true)));
      [simpl; auto | reflexivity].
  - apply (proj2 (proj2 (video_tracking_absent demo_file "tail" true))).
    simpl. intros H.
    repeat (destruct H as [H|H]; [discriminate H|]). exact H.
Defined.

(** ** C9 *)

Lemma stat_summary_none_witness :
  fst (stat_summary demo_reduce demo_to_string (demo_record VNone)
         "body_video_tracking" demo_path true) = Return None.
Proof.
  apply (stat_summary_none demo_reduce demo_to_string (demo_record VNone)
           "body_video_tracking" demo_path true). reflexivity.
Defined.

(** ** C10 *)

Lemma load_resting_and_sensory_witness :
  fst (load_from_file demo_cast_ub demo_fs demo_path true true true)
  = Raise TypeError.
Proof.
  destruct (load_resting_and_sensory demo_cast_ub demo_fs demo_path true)
    as (_ & H & _).
  edestruct H as (_ & H1 & H2); [reflexivity | reflexivity |].
  rewrite H1. exact H2.
Defined.

(** ** C2 *)

(** C2, on a concrete run.  Four sessions, the second without face
    tracking; the face tracking table has two rows, so ten series are drawn.  The sessions that have
    the field stand at 0, 2 and 3 in the list (1, 3 and 4 when counted from
    one, as the loop counts), and every series is drawn at 1, 2, 3. *)
Theorem plot_positions_demo :
  original_indices "face_video_tracking" demo_sessions = [0; 2; 3]
  /\ fst (plot_stats_across_sessions demo_reduce demo_to_string demo_files
            demo_sessions "summary/mouse01_face_video_tracking"
            "face_video_tracking") = Return tt
  /\ plotted_xs
       (snd (plot_stats_across_sessions demo_reduce demo_to_string demo_files
               demo_sessions "summary/mouse01_face_video_tracking"
               "face_video_tracking"))
     = repeat [1; 2; 3] 10
  /\ [1; 2; 3] <> original_indices "face_video_tracking" demo_sessions
  /\ [1; 2; 3] <> map S (original_indices "face_video_tracking" demo_sessions).
Proof.
  repeat split; try (vm_compute; reflexivity); vm_compute; discriminate.
Qed.

(** ** C3 *)

(** C3, on a concrete run.  The demonstration session has no body
    tracking.  The check writes the
    blocks of the ROI and acquisition tables and the header of the body
    tracking block, then raises: the [None] summary has no text.  The
    blocks of the remaining fields are never written. *)
Theorem sanity_check_missing_field :
  getattr (demo_record (VFrame demo_face)) "body_video_tracking" = Return VNone
  /\ fst (sanity_check_nwb demo_cast_ub demo_reduce demo_to_string demo_to_string
            demo_fs demo_path None false false)
     = Raise AttributeError
  /\ file_writes demo_summary_path
       (snd (sanity_check_nwb demo_cast_ub demo_reduce demo_to_string
               demo_to_string demo_fs demo_path None false false)) None
     = Some [header "ROIS"; "mean std min max nan_count";
             header "DAQ"; "mean std min max nan_count";
             header "BODY_VIDEO_TRACKING"].
Proof.
  repeat split; vm_compute; reflexivity.
Qed.


(** ** The tables of the readers *)

Lemma tables_have_one_length_witness :
  size (Floats [half; S754_nan; two]) = size (Bools [false; true; false]).
Proof.
  apply (tables_have_one_length demo_cast_ub demo_file "face" true false demo_daq
           (Name "running_speed", Floats [half; S754_nan; two])
           (Name "reward", Bools [false; true; false])).
  - left. reflexivity.
  - simpl. auto.
  - simpl. auto.
Defined.



Lemma keypoint_table_columns_witness :
  map fst (columns demo_face) = [Pair "nose" "x"; Pair "nose" "y"].
Proof.
  apply (keypoint_table_columns demo_file "face" true demo_face demo_downsampled
           [("nose", MkPose [Floats [half; half; two]; Floats [two; S754_nan; half]]
                            (Floats [half; half; half]))]).
  - simpl. auto.
  - reflexivity.
  - reflexivity.
  - repeat constructor. intros [].
  - reflexivity.
Defined.

Lemma pupil_table_witness :
  exists ss d x y,
    dict_get String.eqb "eye_position" demo_downsampled = Some (EyeTracking ss)
    /\ dict_get String.eqb "diameter" [("diameter", Floats [two; two; half])] = Some d
    /\ dict_get String.eqb "center_x" ss = Some x
    /\ dict_get String.eqb "center_y" ss = Some y
    /\ columns demo_pupil = [(Name "diameter", d); (Name "center_x", x);
                             (Name "center_y", y)].
Proof.
  apply (proj1 (pupil_table demo_file true demo_downsampled
                  [("diameter", Floats [two; two; half])] eq_refl eq_refl)).
  reflexivity.
Defined.

Lemma roi_table_and_descriptions_witness :
  exists entry names descs,
    roi_product demo_file = Some entry
    /\ roi_name entry = Some names
    /\ roi_description entry = Some descs
    /\ map fst (columns demo_rois) = map Name names
    /\ map snd (columns demo_rois) = roi_data entry
    /\ NoDup (dict_keys [("m1_l", "left motor"); ("m1_r", "right motor")])
    /\ (forall n, In n (dict_keys [("m1_l", "left motor"); ("m1_r", "right motor")])
                  <-> In n (firstn (length descs) names))
    /\ (forall n d,
          dict_get String.eqb n [("m1_l", "left motor"); ("m1_r", "right motor")]
          = Some d ->
          In (n, d) (combine names descs)).
Proof.
  apply (roi_table_and_descriptions demo_file demo_rois
           [("m1_l", "left motor"); ("m1_r", "right motor")]).
  reflexivity.
Defined.

Lemma roi_names_must_fit_witness :
  exists roidata roidescs, read_roi_dFF demo_file = Return (roidata, roidescs).
Proof.
  apply (proj1 (roi_names_must_fit demo_file
                  (MkRoi [Floats [half; two; half]; Floats [two; S754_nan; two]]
                         (Some ["m1_l"; "m1_r"])
                         (Some ["left motor"; "right motor"]))
                  ["m1_l"; "m1_r"] ["left motor"; "right motor"]
                  eq_refl eq_refl eq_refl)).
  reflexivity.
Defined.

(** ** Loading *)

Lemma load_composes_readers_witness :
  load_from_file demo_cast_ub demo_fs demo_path true false false
  = (Return (demo_record (VFrame demo_face)),
     [NwbOpen demo_path; NwbClose demo_path]).
Proof.
  apply (load_composes_readers demo_cast_ub demo_fs demo_path demo_file true false
           demo_metadata (VArray clock) None demo_daq
           None (Some demo_face) None (Some demo_pupil)
           (demo_rois, [("m1_l", "left motor"); ("m1_r", "right motor")]));
    reflexivity.
Defined.

Lemma load_sensory_returns_witness :
  fst (load_from_file demo_cast_ub demo_fs demo_path true false true)
  = Return
      (MkSession NWBData_sensory
         [("metadata", VMetadata demo_metadata);
          ("timebase", VArray clock);
          ("trials", VNone);
          ("rois", VFrame demo_rois);
          ("roi_description",
           VDescriptions [("m1_l", "left motor"); ("m1_r", "right motor")])]).
Proof.
  rewrite (load_sensory_returns demo_cast_ub demo_fs demo_path demo_file
             demo_subject "2020-10-01" (Ints UInt16 [10; 20; 30]%Z) clock
             (MkRoi [Floats [half; two; half]; Floats [two; S754_nan; two]]
                    (Some ["m1_l"; "m1_r"])
                    (Some ["left motor"; "right motor"]))
             ["m1_l"; "m1_r"] ["left motor"; "right motor"]
             eq_refl eq_refl eq_refl eq_refl eq_refl eq_refl eq_refl eq_refl eq_refl).
  reflexivity.
Defined.

Lemma load_record_shape_witness :
  session_shape (demo_record (VFrame demo_face)) = NWBData
  /\ map fst (session_fields (demo_record (VFrame demo_face)))
     = field_names NWBData.
Proof.
  destruct (load_record_shape demo_cast_ub demo_fs demo_path true false false
              (demo_record (VFrame demo_face)) eq_refl) as (H1 & H2 & _).
  split; [exact H1 | exact H2].
Defined.

Lemma loaded_daq_summary_witness :
  exists t,
    fst (stat_summary demo_reduce demo_to_string (demo_record (VFrame demo_face))
           "daq" demo_path true) = Return (Some t)
    /\ In (Name "state_task") (stat_index t)
    /\ forall c, In c ["reward"; "state_lever"; "tone"] ->
                 ~ In (Name c) (stat_index t).
Proof.
  apply (loaded_daq_summary demo_cast_ub demo_reduce demo_to_string demo_fs
           demo_path demo_path true false true (demo_record (VFrame demo_face))).
  reflexivity.
Defined.

(** ** The summaries *)

Lemma stat_summary_shape_witness :
  exists t,
    fst (stat_summary demo_reduce demo_to_string (demo_record VNone)
           "daq" demo_path false) = Return (Some t)
    /\ stat_columns t = ["mean"; "std"; "min"; "max"; "nan_count"]
    /\ stat_rows t <> [].
Proof.
  eexists. split; [vm_compute; reflexivity|].
  destruct (stat_summary_shape demo_reduce demo_to_string (demo_record VNone)
              "daq" demo_path false _ eq_refl) as (H1 & H2 & _).
  split; [exact H1 | exact H2].
Defined.

Lemma stat_summary_raises_witness :
  stat_summary demo_reduce demo_to_string (demo_record VNone) "whiskers"
    demo_path true
  = (Raise AttributeError, []).
Proof.
  apply (proj1 (stat_summary_raises demo_reduce demo_to_string (demo_record VNone)
                  "whiskers" demo_path true)).
  reflexivity.
Defined.

Lemma sanity_check_writes_blocks_witness :
  fst (sanity_check_nwb demo_cast_ub demo_reduce demo_to_string demo_to_string
         demo_fs demo_path None false true) = Return tt
  /\ file_writes demo_summary_path
       (snd (sanity_check_nwb demo_cast_ub demo_reduce demo_to_string
               demo_to_string demo_fs demo_path None false true)) None
     = Some [header "ROIS"; "mean std min max nan_count"].
Proof.
  edestruct (sanity_check_writes_blocks demo_cast_ub demo_reduce demo_to_string
               demo_to_string demo_fs demo_path None false true) as [H1 H2].
  - vm_compute. reflexivity.
  - constructor; [vm_compute; reflexivity | constructor].
  - split; [exact H1 | exact H2].
Defined.

Lemma default_summary_path_witness :
  In (TxtOpen "session")
     (snd (sanity_check_nwb demo_cast_ub demo_reduce demo_to_string demo_to_string
             plain_fs "session" None false false)).
Proof.
  apply (proj2 (default_summary_path demo_cast_ub demo_reduce demo_to_string
                  demo_to_string plain_fs "session" false false) eq_refl
           (demo_record (VFrame demo_face))).
  vm_compute. reflexivity.
Defined.

(** ** The comparison across sessions *)

Lemma plot_without_field_witness :
  plot_stats_across_sessions demo_reduce demo_to_string demo_files
    [demo_record VNone; demo_record VNone; demo_record VNone; demo_record VNone]
    "summary/mouse01_face_video_tracking" "face_video_tracking"
  = (Raise TypeError, []).
Proof.
  apply (plot_without_field demo_reduce demo_to_string).
  - reflexivity.
  - repeat constructor.
Defined.

Lemma plot_stops_on_bad_record_witness :
  raises (fst (plot_stats_across_sessions demo_reduce demo_to_string demo_files
                 demo_sessions "summary/mouse01_whiskers" "whiskers"))
  /\ snd (plot_stats_across_sessions demo_reduce demo_to_string demo_files
            demo_sessions "summary/mouse01_whiskers" "whiskers") = [].
Proof.
  apply (plot_stops_on_bad_record demo_reduce demo_to_string demo_files
           demo_sessions "summary/mouse01_whiskers" "whiskers" (demo_record VNone)).
  - reflexivity.
  - simpl. auto.
  - exists AttributeError. reflexivity.
Defined.

Lemma plot_needs_two_sessions_witness :
  raises (fst (plot_stats_across_sessions demo_reduce demo_to_string
                 ["mouse01_2021-01-05_task-day1.nwb"] [demo_record VNone]
                 "summary/mouse01_daq" "daq"))
  /\ snd (plot_stats_across_sessions demo_reduce demo_to_string
            ["mouse01_2021-01-05_task-day1.nwb"] [demo_record VNone]
            "summary/mouse01_daq" "daq") = [].
Proof.
  apply (plot_needs_two_sessions demo_reduce demo_to_string).
  - discriminate.
  - reflexivity.
  - vm_compute. lia.
Defined.

Lemma plot_pages_witness :
  exists s t,
    In s demo_sessions
    /\ fst (stat_summary demo_reduce demo_to_string s "face_video_tracking"
              "None" false) = Return (Some t)
    /\ saved_figures
         (snd (plot_stats_across_sessions demo_reduce demo_to_string demo_files
                 demo_sessions "summary/mouse01_face_video_tracking"
                 "face_video_tracking"))
       = map (page_name "summary/mouse01_face_video_tracking")
           (seq 1 ((length (stat_index t) + 9) / 10)).
Proof.
  apply (plot_pages demo_reduce demo_to_string demo_files demo_sessions
           "summary/mouse01_face_video_tracking" "face_video_tracking").
  vm_compute. reflexivity.
Defined.

(** ** The file indexer *)

Lemma file_indexer_sound_witness :
  exists ty digits rest,
    stem "mouse01_2021-01-05_task-day12abc.ext"
    = ("mouse01" ++ "_" ++ "2021-01-05" ++ "_" ++ ty ++ "-day" ++ digits ++ rest)%string
    /\ word subject_char "mouse01"
    /\ word date_char "2021-01-05"
    /\ nth_error type_indexer 0 = Some ty
    /\ word Re.is_digit digits
    /\ int_of_digits digits = Return 12%N
    /\ match rest with
       | String c _ => Re.is_digit c = false
       | EmptyString => True
       end.
Proof.
  apply (file_indexer_sound "mouse01_2021-01-05_task-day12abc.ext").
  vm_compute. reflexivity.
Defined.

(** ** The sessions of one animal *)

Example full_loads :
  load_from_file demo_cast_ub animal_fs day9 true false false
  = (Return full_record, [NwbOpen day9; NwbClose day9]).
Proof. vm_compute. reflexivity. Qed.

Lemma summary_malformed_name_witness :
  plot_summary_within_animal demo_cast_ub demo_reduce demo_to_string
    (fun _ => Some [day10; "data/mouse01/notes.nwb"; day9]) animal_fs
    animal_folder None
  = (Raise ValueError, []).
Proof.
  apply (summary_malformed_name demo_cast_ub demo_reduce demo_to_string
           (fun _ => Some [day10; "data/mouse01/notes.nwb"; day9]) animal_fs
           animal_folder None
           [day10; "data/mouse01/notes.nwb"; day9] "data/mouse01/notes.nwb").
  - reflexivity.
  - simpl. auto.
  - apply re_match_convention. reflexivity.
Defined.

Lemma summary_load_order_witness :
  Permutation [day10; day9] [day9; day10]
  /\ StronglySorted path_le [day9; day10]
  /\ (exists k,
        opened (snd (plot_summary_within_animal demo_cast_ub demo_reduce
                       demo_to_string animal_rglob animal_fs animal_folder None))
        = firstn k [day9; day10])
  /\ (fst (plot_summary_within_animal demo_cast_ub demo_reduce demo_to_string
             animal_rglob animal_fs animal_folder None) = Return tt ->
      opened (snd (plot_summary_within_animal demo_cast_ub demo_reduce
                     demo_to_string animal_rglob animal_fs animal_folder None))
      = [day9; day10]).
Proof.
  apply (summary_load_order demo_cast_ub demo_reduce demo_to_string
           animal_rglob animal_fs animal_folder None [day10; day9] [day9; day10]).
  - reflexivity.
  - vm_compute. reflexivity.
Defined.


Lemma summary_needs_two_sessions_witness :
  raises (fst (plot_summary_within_animal demo_cast_ub demo_reduce demo_to_string
                 (fun _ => Some [day9]) animal_fs animal_folder None))
  /\ Forall reading
       (snd (plot_summary_within_animal demo_cast_ub demo_reduce demo_to_string
               (fun _ => Some [day9]) animal_fs animal_folder None)).
Proof.
  apply (summary_needs_two_sessions demo_cast_ub demo_reduce demo_to_string
           (fun _ => Some [day9]) animal_fs animal_folder None [day9]).
  - reflexivity.
  - vm_compute. lia.
Defined.

Lemma summary_saves_first_pages_witness :
  In "data/mouse01/summary/mouse01_pupil_tracking_01.png"
     (saved_figures
        (snd (plot_summary_within_animal demo_cast_ub demo_reduce demo_to_string
                animal_rglob animal_fs animal_folder None))).
Proof.
  apply (summary_saves_first_pages demo_cast_ub demo_reduce demo_to_string
           animal_rglob animal_fs animal_folder None "pupil_tracking").
  - vm_compute. reflexivity.
  - simpl. auto 8.
Defined.

Lemma compared_sessions_have_fields_witness :
  (exists tab, getattr full_record "daq" = Return (VFrame tab))
  /\ (getattr full_record "eye_video_tracking" = Return VNone
      \/ exists tab, getattr full_record "eye_video_tracking" = Return (VFrame tab)).
Proof.
  apply (compared_sessions_have_fields demo_cast_ub animal_fs [day9; day10]
           [full_record; full_record] full_record "eye_video_tracking").
  - vm_compute. reflexivity.
  - simpl. auto.
  - simpl. auto 8.
Defined.
